(** * FrontendX Performance-Pal backend: report summarisation and chat assembly

    A shallow embedding of [app/services/processing_service.py],
    [app/services/llm_service.py], [app/services/pagespeed_service.py],
    [app/models.py] and [app/main.py], followed by the properties of the
    specification that are stated about them.

    Layout:
    - [Py]         the fragment of the Python runtime the services rely on
                   (JSON values, exceptions, [dict.get], truthiness, f-string
                   formatting, [str.title], ...);
    - [Processing] [extract_key_metrics], [extract_info_for_llm],
                   [format_for_llm];
    - [Service]    the session state, the two providers, and the
                   [analyze_website], [chat_with_llm] and
                   [download_full_report] handlers;
    - [Spec]       the vocabulary of the specification: the tolerant field
                   accessor, what qualifies as an opportunity, the default
                   display metric, ...;
    - [Schema]     the reports on which the Insight Extractor cannot raise;
    - [Digest]     the shape of the digests it builds;
    - [Scenario]   concrete reports, providers and session states;
    - [Session]    the process over a sequence of requests;
    - [Detail]     the core metrics, the items of an audit and the longest
                   request chain;
    - [Cases]      further reports, requests and sessions;
    - the lemmas, the properties C1 to C10, and further properties X1 to
      X19 of the services at the end. *)

From Stdlib Require Import ZArith List String Ascii Bool Lia.
From Stdlib Require Import Floats.PrimFloat Floats.SpecFloat Floats.FloatOps.
From Stdlib Require Import DecimalString.
Import ListNotations.

Set Warnings "-inexact-float,-register-all".
Local Open Scope string_scope.
Local Open Scope Z_scope.

(* ================================================================= *)
(** ** Exceptions and the error monad *)

(** The exceptions the modelled code can raise.  [ProviderError] stands for
    whatever the language-model client raises (network, quota, ...). *)
Inductive exn : Type :=
| TypeError
| AttributeError
| KeyError
| IndexError
| ValueError
| OverflowError
| ValidationError
| JSONDecodeError
| HTTPException (status_code : Z) (detail : string)
| ProviderError (message : string).

Inductive result (A : Type) : Type :=
| Ok (a : A)
| Raise (e : exn).

Arguments Ok {A} a.
Arguments Raise {A} e.

Definition bind {A B : Type} (r : result A) (k : A -> result B) : result B :=
  match r with
  | Ok a => k a
  | Raise e => Raise e
  end.

Notation "x <- e ;; k" := (bind e (fun x => k))
  (at level 61, e at next level, right associativity).
Notation "' p <- e ;; k" := (bind e (fun x => match x with p => k end))
  (at level 61, p pattern, e at next level, right associativity).

(** A Python [for] loop whose body updates the loop-carried state [s] and may
    raise: the first exception ends the loop. *)
Fixpoint for_each {A S : Type} (l : list A) (s : S)
         (body : A -> S -> result S) : result S :=
  match l with
  | [] => Ok s
  | x :: rest => s' <- body x s ;; for_each rest s' body
  end.

(** The same loop when the body only produces a value per element. *)
Fixpoint map_result {A B : Type} (f : A -> result B) (l : list A)
  : result (list B) :=
  match l with
  | [] => Ok []
  | x :: rest => y <- f x ;; ys <- map_result f rest ;; Ok (y :: ys)
  end.

(** [l.append(x)]. *)
Definition append {A : Type} (l : list A) (x : A) : list A := (l ++ [x])%list.

Definition is_ok {A : Type} (r : result A) : bool :=
  match r with Ok _ => true | Raise _ => false end.

(* ================================================================= *)
(** ** The Python runtime fragment *)

Module Py.

(** A parsed JSON document, as [json.loads] builds it.  A [dict] keeps its
    insertion order, so it is an association list; lookups take the first
    binding of a key, and a dictionary built by the parser has no second
    one.  Strings are byte strings (UTF-8). *)
Inductive pyval : Type :=
| PNone
| PBool (b : bool)
| PInt (z : Z)
| PFloat (f : float)
| PStr (s : string)
| PList (l : list pyval)
| PDict (d : list (string * pyval)).

Definition empty_dict : pyval := PDict [].
Definition empty_list : pyval := PList [].

Fixpoint lookup (k : string) (d : list (string * pyval)) : option pyval :=
  match d with
  | [] => None
  | (k', v) :: rest => if String.eqb k k' then Some v else lookup k rest
  end.

Definition is_none (v : pyval) : bool :=
  match v with PNone => true | _ => false end.

(** [bool(v)]. *)
Definition truthy (v : pyval) : bool :=
  match v with
  | PNone => false
  | PBool b => b
  | PInt z => negb (z =? 0)
  | PFloat f => negb (PrimFloat.eqb f 0%float)
  | PStr s => negb (String.eqb s "")
  | PList l => match l with [] => false | _ => true end
  | PDict d => match d with [] => false | _ => true end
  end.

(** [v.get(k, default)]: only a [dict] has the method. *)
Definition get (v : pyval) (k : string) (default : pyval) : result pyval :=
  match v with
  | PDict d => Ok (match lookup k d with Some x => x | None => default end)
  | _ => Raise AttributeError
  end.

(** [v.items()], in insertion order. *)
Definition items (v : pyval) : result (list (string * pyval)) :=
  match v with
  | PDict d => Ok d
  | _ => Raise AttributeError
  end.

(** [v[k]] for a string key [k]. *)
Definition getitem (v : pyval) (k : string) : result pyval :=
  match v with
  | PDict d => match lookup k d with Some x => Ok x | None => Raise KeyError end
  | _ => Raise TypeError
  end.

(** [v[0]]. *)
Definition getitem0 (v : pyval) : result pyval :=
  match v with
  | PList l => match l with x :: _ => Ok x | [] => Raise IndexError end
  | PStr s => match s with
              | String c _ => Ok (PStr (String c EmptyString))
              | EmptyString => Raise IndexError
              end
  | PDict _ => Raise KeyError
  | _ => Raise TypeError
  end.

Fixpoint chars (s : string) : list pyval :=
  match s with
  | EmptyString => []
  | String c rest => PStr (String c EmptyString) :: chars rest
  end.

(** What [for x in v] enumerates. *)
Definition iter (v : pyval) : result (list pyval) :=
  match v with
  | PList l => Ok l
  | PStr s => Ok (chars s)
  | PDict d => Ok (map (fun kv => PStr (fst kv)) d)
  | _ => Raise TypeError
  end.

(** [v == s] for a string literal [s]. *)
Definition eq_str (v : pyval) (s : string) : bool :=
  match v with PStr s' => String.eqb s' s | _ => false end.

(** [v in [s1, ..., sn]] for string literals. *)
Definition in_strs (v : pyval) (l : list string) : bool :=
  existsb (eq_str v) l.

Fixpoint substring_of (p s : string) : bool :=
  String.prefix p s ||
  match s with
  | EmptyString => false
  | String _ rest => substring_of p rest
  end.

(** [k in v] for a string literal [k]. *)
Definition contains (v : pyval) (k : string) : result bool :=
  match v with
  | PDict d => Ok (match lookup k d with Some _ => true | None => false end)
  | PList l => Ok (existsb (fun x => eq_str x k) l)
  | PStr s => Ok (substring_of k s)
  | _ => Raise TypeError
  end.

(* ----------------------------------------------------------------- *)
(** *** Numbers *)

(** [str(z)] for an integer.  (CPython's optional limit on the number of
    digits of an integer/string conversion is not part of the model.) *)
Definition str_of_Z (z : Z) : string := NilZero.string_of_int (Z.to_int z).

(** [z * 2^e] rounded to the nearest binary64 value, ties to even; a result
    beyond the largest finite value is Python's [OverflowError]. *)
Definition float_of_scaled (z e : Z) : result float :=
  match binary_normalize prec emax z e false with
  | S754_infinity _ => Raise OverflowError
  | sf => Ok (SF2Prim sf)
  end.

(** [float(z)]. *)
Definition float_of_int (z : Z) : result float := float_of_scaled z 0.

Definition sign_str (s : bool) : string := if s then "-" else "".

(** The integer nearest to [m * 2^e] for [m >= 0], ties to even. *)
Definition round_half_even (m e : Z) : Z :=
  if 0 <=? e then m * 2 ^ e
  else
    let d := 2 ^ (- e) in
    let q := m / d in
    match (2 * (m mod d)) ?= d with
    | Lt => q
    | Gt => q + 1
    | Eq => if Z.even q then q else q + 1
    end.

(** [format(f, ".0f")] for a float. *)
Definition format_0f_float (f : float) : string :=
  match Prim2SF f with
  | S754_nan => "nan"
  | S754_infinity s => sign_str s ++ "inf"
  | S754_zero s => sign_str s ++ "0"
  | S754_finite s m e => sign_str s ++ str_of_Z (round_half_even (Zpos m) e)
  end.

Definition Z_of_bool (b : bool) : Z := if b then 1 else 0.

(** [f"{v:.0f}"]: numbers only ([bool] is an [int]); an integer goes through
    [float]. *)
Definition format_0f (v : pyval) : result string :=
  match v with
  | PInt z => f <- float_of_int z ;; Ok (format_0f_float f)
  | PBool b => f <- float_of_int (Z_of_bool b) ;; Ok (format_0f_float f)
  | PFloat f => Ok (format_0f_float f)
  | PStr _ => Raise ValueError
  | PNone | PList _ | PDict _ => Raise TypeError
  end.

(** [v > 0]. *)
Definition gt0 (v : pyval) : result bool :=
  match v with
  | PInt z => Ok (0 <? z)
  | PBool b => Ok b
  | PFloat f => Ok (PrimFloat.ltb 0%float f)
  | _ => Raise TypeError
  end.

Fixpoint repeat_string (n : nat) (s : string) : string :=
  match n with
  | O => ""
  | S n' => s ++ repeat_string n' s
  end.

Fixpoint repeat_list {A : Type} (n : nat) (l : list A) : list A :=
  match n with
  | O => []
  | S n' => l ++ repeat_list n' l
  end.

(** [v * 100]: arithmetic on numbers, repetition on sequences. *)
Definition mul100 (v : pyval) : result pyval :=
  match v with
  | PInt z => Ok (PInt (z * 100))
  | PBool b => Ok (PInt (Z_of_bool b * 100))
  | PFloat f => Ok (PFloat (PrimFloat.mul f 100%float))
  | PStr s => Ok (PStr (repeat_string 100 s))
  | PList l => Ok (PList (repeat_list 100 l))
  | PNone | PDict _ => Raise TypeError
  end.

(** [v / 1024]: true division, always a float. *)
Definition div1024 (v : pyval) : result float :=
  match v with
  | PInt z => float_of_scaled z (-10)
  | PBool b => float_of_scaled (Z_of_bool b) (-10)
  | PFloat f => Ok (PrimFloat.div f 1024%float)
  | _ => Raise TypeError
  end.

(* ----------------------------------------------------------------- *)
(** *** [repr] of a float

    CPython prints the shortest decimal numeral that reads back as the same
    binary64 value, the closest to it among the shortest, in positional
    notation when the decimal point falls within [-4 < decpt <= 16] and in
    exponent notation otherwise.  Rationals are pairs [(numerator,
    denominator)] with a positive denominator. *)

Definition rat : Type := (Z * Z)%type.

Definition rat_lt (a b : rat) : bool := fst a * snd b <? fst b * snd a.
Definition rat_le (a b : rat) : bool := fst a * snd b <=? fst b * snd a.

(** [n * b^e] as a rational, for a base [b > 0]. *)
Definition scaled (n b e : Z) : rat :=
  if 0 <=? e then (n * b ^ e, 1) else (n, b ^ (- e)).

(** The least [k >= k0] with [x < 10^k], searching at most [fuel] steps. *)
Fixpoint decimal_point (fuel : nat) (k : Z) (x : rat) : Z :=
  match fuel with
  | O => k
  | S fuel' => if rat_lt x (scaled 1 10 k) then k
               else decimal_point fuel' (k + 1) x
  end.

(** The open (closed when the mantissa is even) interval of the reals that
    round to [m * 2^e]. *)
Definition rounds_to (m e : Z) (v : rat) : bool :=
  let upper := scaled (2 * m + 1) 2 (e - 1) in
  let lower := if (m =? 2 ^ 52) && (-1074 <? e)
               then scaled (4 * m - 1) 2 (e - 2)
               else scaled (2 * m - 1) 2 (e - 1) in
  if Z.even m then rat_le lower v && rat_le v upper
  else rat_lt lower v && rat_lt v upper.

(** The [n]-digit candidate for [x = m * 2^e] with decimal point [k], as
    [Some c] standing for [c * 10^(k - n)], when one reads back as [x]. *)
Definition candidate (m e k n : Z) : option Z :=
  let x := scaled m 2 e in
  (* x * 10^(n-k) = num / den *)
  let num := if 0 <=? n - k then fst x * 10 ^ (n - k) else fst x in
  let den := if 0 <=? n - k then snd x else snd x * 10 ^ (k - n) in
  let lo := num / den in
  let hi := if num mod den =? 0 then lo else lo + 1 in
  let ok c := rounds_to m e (scaled c 10 (k - n)) in
  match ok lo, ok hi with
  | true, true =>
      match (2 * num) ?= ((lo + hi) * den) with
      | Lt => Some lo
      | Gt => Some hi
      | Eq => Some (if Z.even lo then lo else hi)
      end
  | true, false => Some lo
  | false, true => Some hi
  | false, false => None
  end.

(** The shortest candidate, trying [n, n+1, ...]: [(c, exponent)]. *)
Fixpoint shortest (fuel : nat) (m e k n : Z) : Z * Z :=
  match fuel with
  | O => (m, 0)
  | S fuel' =>
      match candidate m e k n with
      | Some c => (c, k - n)
      | None => shortest fuel' m e k (n + 1)
      end
  end.

Fixpoint strip_zeros (fuel : nat) (c x : Z) : Z * Z :=
  match fuel with
  | O => (c, x)
  | S fuel' => if (c mod 10 =? 0) && negb (c =? 0)
               then strip_zeros fuel' (c / 10) (x + 1) else (c, x)
  end.

Definition zeros (n : Z) : string := repeat_string (Z.to_nat n) "0".

Definition two_digits (z : Z) : string :=
  if z <? 10 then "0" ++ str_of_Z z else str_of_Z z.

Definition str_take (n : Z) (s : string) : string :=
  String.substring 0 (Z.to_nat n) s.
Definition str_drop (n : Z) (s : string) : string :=
  String.substring (Z.to_nat n) (String.length s - Z.to_nat n) s.

(** The numeral for digits [ds] with the decimal point after [decpt] of
    them. *)
Definition float_numeral (ds : string) (decpt : Z) : string :=
  let len := Z.of_nat (String.length ds) in
  if (-4 <? decpt) && (decpt <=? 16) then
    if decpt <=? 0 then "0." ++ zeros (- decpt) ++ ds
    else if len <=? decpt then ds ++ zeros (decpt - len) ++ ".0"
    else str_take decpt ds ++ "." ++ str_drop decpt ds
  else
    str_take 1 ds ++ (if 1 <? len then "." ++ str_drop 1 ds else "") ++
    "e" ++ (if decpt - 1 <? 0 then "-" else "+") ++
    two_digits (Z.abs (decpt - 1)).

Definition float_repr (f : float) : string :=
  match Prim2SF f with
  | S754_nan => "nan"
  | S754_infinity s => sign_str s ++ "inf"
  | S754_zero s => sign_str s ++ "0.0"
  | S754_finite s m e =>
      let k := decimal_point 640 (-330) (scaled (Zpos m) 2 e) in
      let '(c, x) := shortest 17 (Zpos m) e k 1 in
      let '(c, x) := strip_zeros 400 c x in
      let ds := str_of_Z c in
      sign_str s ++ float_numeral ds (Z.of_nat (String.length ds) + x)
  end.

(* ----------------------------------------------------------------- *)
(** *** Strings *)

Definition newline : string := String (ascii_of_nat 10) EmptyString.
Definition dquote : ascii := ascii_of_nat 34.
Definition squote : ascii := ascii_of_nat 39.
Definition backslash : ascii := ascii_of_nat 92.

Fixpoint has_char (c : ascii) (s : string) : bool :=
  match s with
  | EmptyString => false
  | String c' rest => Ascii.eqb c c' || has_char c rest
  end.

Definition hex_digit (n : nat) : ascii :=
  nth n (list_ascii_of_string "0123456789abcdef") "0"%char.

(** One character of [repr(s)] inside the quote [q].  Bytes above 127 are
    kept: they encode printable characters in the reports at hand. *)
Definition escape_char (q c : ascii) : string :=
  let n := nat_of_ascii c in
  if Ascii.eqb c q || Ascii.eqb c backslash then String backslash (String c "")
  else if Nat.eqb n 9 then "\t"
  else if Nat.eqb n 10 then "\n"
  else if Nat.eqb n 13 then "\r"
  else if Nat.ltb n 32 || Nat.eqb n 127 then
    "\x" ++ String (hex_digit (Nat.div n 16))
                   (String (hex_digit (Nat.modulo n 16)) "")
  else String c "".

Fixpoint escape (q : ascii) (s : string) : string :=
  match s with
  | EmptyString => ""
  | String c rest => escape_char q c ++ escape q rest
  end.

(** [repr(s)] for a string: single quotes unless the text has a single quote
    and no double quote. *)
Definition repr_str (s : string) : string :=
  let q := if has_char squote s && negb (has_char dquote s)
           then dquote else squote in
  String q (escape q s ++ String q "").

(** [repr(v)]. *)
Fixpoint repr (v : pyval) : string :=
  match v with
  | PNone => "None"
  | PBool b => if b then "True" else "False"
  | PInt z => str_of_Z z
  | PFloat f => float_repr f
  | PStr s => repr_str s
  | PList l => "[" ++ String.concat ", " (map repr l) ++ "]"
  | PDict d =>
      "{" ++ String.concat ", "
               (map (fun kv => match kv with
                               | (k, x) => repr_str k ++ ": " ++ repr x
                               end) d) ++ "}"
  end.

(** [str(v)], which is what [f"{v}"] interpolates. *)
Definition str (v : pyval) : string :=
  match v with
  | PStr s => s
  | _ => repr v
  end.

(** [sep.join(l)]: every element must be a string. *)
Definition join (sep : string) (l : list pyval) : result string :=
  parts <- map_result (fun v => match v with
                                | PStr s => Ok s
                                | _ => Raise TypeError
                                end) l ;;
  Ok (String.concat sep parts).

(** [s.replace(old, new)] for one-character [old] and [new]. *)
Fixpoint replace_char (old new : ascii) (s : string) : string :=
  match s with
  | EmptyString => ""
  | String c rest =>
      String (if Ascii.eqb c old then new else c) (replace_char old new rest)
  end.

Definition is_lower (c : ascii) : bool :=
  let n := nat_of_ascii c in Nat.leb 97 n && Nat.leb n 122.
Definition is_upper (c : ascii) : bool :=
  let n := nat_of_ascii c in Nat.leb 65 n && Nat.leb n 90.
Definition to_upper (c : ascii) : ascii :=
  if is_lower c then ascii_of_nat (nat_of_ascii c - 32) else c.
Definition to_lower (c : ascii) : ascii :=
  if is_upper c then ascii_of_nat (nat_of_ascii c + 32) else c.

(** [s.title()] on ASCII text: a letter that follows a letter is lowered,
    any other letter is raised. *)
Fixpoint title_from (previous_is_cased : bool) (s : string) : string :=
  match s with
  | EmptyString => ""
  | String c rest =>
      if is_lower c || is_upper c then
        String (if previous_is_cased then to_lower c else to_upper c)
               (title_from true rest)
      else String c (title_from false rest)
  end.

Definition title (s : string) : string := title_from false s.

(* ----------------------------------------------------------------- *)
(** *** [int(v)] *)

Definition is_space (c : ascii) : bool :=
  let n := nat_of_ascii c in (Nat.leb 9 n && Nat.leb n 13) || Nat.eqb n 32.

Definition is_digit (c : ascii) : bool :=
  let n := nat_of_ascii c in Nat.leb 48 n && Nat.leb n 57.

Fixpoint lstrip (s : string) : string :=
  match s with
  | EmptyString => ""
  | String c rest => if is_space c then lstrip rest else s
  end.

Fixpoint rev_string (acc s : string) : string :=
  match s with
  | EmptyString => acc
  | String c rest => rev_string (String c acc) rest
  end.

Definition strip (s : string) : string :=
  rev_string "" (lstrip (rev_string "" (lstrip s))).

(** Decimal digits with single underscores between them. *)
Fixpoint parse_digits (s : string) (acc : Z) (after_digit : bool) : option Z :=
  match s with
  | EmptyString => if after_digit then Some acc else None
  | String c rest =>
      if is_digit c then
        parse_digits rest (acc * 10 + Z.of_nat (nat_of_ascii c - 48)) true
      else if Ascii.eqb c "_"%char && after_digit then
        parse_digits rest acc false
      else None
  end.

(** [int(s)] on ASCII text, base ten. *)
Definition int_of_string (s : string) : option Z :=
  match strip s with
  | String "-" rest => option_map Z.opp (parse_digits rest 0 false)
  | String "+" rest => parse_digits rest 0 false
  | body => parse_digits body 0 false
  end.

(** [int(f)]: truncation towards zero. *)
Definition int_of_float (f : float) : result Z :=
  match Prim2SF f with
  | S754_nan => Raise ValueError
  | S754_infinity _ => Raise OverflowError
  | S754_zero _ => Ok 0
  | S754_finite s m e =>
      let n := if 0 <=? e then Zpos m * 2 ^ e else Zpos m / 2 ^ (- e) in
      Ok (if s then - n else n)
  end.

Definition int (v : pyval) : result Z :=
  match v with
  | PInt z => Ok z
  | PBool b => Ok (Z_of_bool b)
  | PFloat f => int_of_float f
  | PStr s => match int_of_string s with
              | Some z => Ok z
              | None => Raise ValueError
              end
  | PNone | PList _ | PDict _ => Raise TypeError
  end.

End Py.

(* ================================================================= *)
(** ** [app/services/processing_service.py] *)

Module Processing.
Import Py.

(** [app.models.Metric]: two [str] fields; the model's validation accepts
    only strings for them. *)
Record Metric : Type := { title : string; value : string }.

Definition make_Metric (t v : pyval) : result Metric :=
  match t, v with
  | PStr t, PStr v => Ok {| title := t; value := v |}
  | _, _ => Raise ValidationError
  end.

(* ----------------------------------------------------------------- *)
(** *** [extract_key_metrics] *)

Definition metrics_to_extract : list string :=
  [ "first-contentful-paint"; "speed-index"; "largest-contentful-paint";
    "interactive"; "total-blocking-time"; "cumulative-layout-shift" ].

(** The default title: [metric_id.replace('-', ' ').title()]. *)
Definition humanized (metric_id : string) : string :=
  Py.title (replace_char "-" " " metric_id).

Definition key_metric (audits : pyval) (metric_id : string)
           (extracted_metrics : list Metric) : result (list Metric) :=
  metric_data <- get audits metric_id empty_dict ;;
  t <- get metric_data "title" (PStr (humanized metric_id)) ;;
  v <- get metric_data "displayValue" (PStr "N/A") ;;
  m <- make_Metric t v ;;
  Ok (append extracted_metrics m).

Definition extract_key_metrics (data : pyval) : result (list Metric) :=
  lighthouse_result <- get data "lighthouseResult" empty_dict ;;
  audits <- get lighthouse_result "audits" empty_dict ;;
  for_each metrics_to_extract [] (key_metric audits).

(* ----------------------------------------------------------------- *)
(** *** [extract_info_for_llm] *)

(** The list literal of the source: its last two string literals stand side
    by side without a comma, which Python reads as one string. *)
Definition metric_ids : list string :=
  [ "largest-contentful-paint";
    "total-blocking-time";
    "cumulative-layout-shift";
    "first-contentful-paint";
    "speed-index" ++ "interactive" ].

(** 1. Overall performance score: the entries of [summary]. *)
Definition performance_summary (lighthouse_result : pyval)
  : result (list (string * pyval)) :=
  categories <- get lighthouse_result "categories" empty_dict ;;
  performance_category <- get categories "performance" empty_dict ;;
  score <- get performance_category "score" PNone ;;
  if is_none score then Ok []
  else
    s <- getitem performance_category "score" ;;
    scaled_score <- mul100 s ;;
    Ok [("performance_score", scaled_score)].

(** 2. Core web vitals and key metrics: one loop iteration. *)
Definition core_metric (audits : pyval) (metric_id : string)
           (metrics : list pyval) : result (list pyval) :=
  metric_audit <- get audits metric_id PNone ;;
  if truthy metric_audit then
    t <- get metric_audit "title" PNone ;;
    v <- get metric_audit "displayValue" PNone ;;
    Ok (append metrics (PDict [("title", t); ("value", v)]))
  else Ok metrics.

(** 3. The test of line 84:
    [type == "opportunity" and (overallSavingsMs > 0 or items)]. *)
Definition is_opportunity (details : pyval) : result bool :=
  ty <- get details "type" PNone ;;
  if eq_str ty "opportunity" then
    savings <- get details "overallSavingsMs" (PInt 0) ;;
    positive <- gt0 savings ;;
    if positive then Ok true
    else its <- get details "items" empty_list ;; Ok (truthy its)
  else Ok false.

(** The body of the inner loop over [details.items]. *)
Definition opportunity_item (audit_id : string) (item : pyval)
           (lines : list string) : result (list string) :=
  if String.eqb audit_id "bootup-time" then
    url <- get item "url" PNone ;;
    total <- get item "total" PNone ;;
    cpu_time <- format_0f total ;;
    Ok (append lines
               ("  - Script: " ++ str url ++ ", CPU Time: " ++ cpu_time ++ "ms"))
  else if String.eqb audit_id "image-delivery-insight" then
    sub_items <- get item "subItems" PNone ;;
    if truthy sub_items then
      sub <- getitem item "subItems" ;;
      sub_list <- getitem sub "items" ;;
      first <- getitem0 sub_list ;;
      reason <- get first "reason" (PStr "Optimization needed") ;;
      url <- get item "url" PNone ;;
      Ok (append lines
                 ("  - Image: " ++ str url ++ ", Reason: " ++ str reason))
    else Ok lines
  else Ok lines.

(** The opportunity dictionary built for a qualifying audit. *)
Definition opportunity_dict (audit_id : string) (audit details : pyval)
  : result pyval :=
  t <- get audit "title" PNone ;;
  d <- get audit "description" PNone ;;
  s <- get audit "displayValue" (PStr "") ;;
  its <- get details "items" empty_list ;;
  elements <- iter its ;;
  lines <- for_each elements [] (opportunity_item audit_id) ;;
  Ok (PDict [("title", t); ("description", d); ("savings", s);
             ("items", PList (map PStr lines))]).

(** The body of the loop over [audits.items()]. *)
Definition opportunity (entry : string * pyval) (opportunities : list pyval)
  : result (list pyval) :=
  let '(audit_id, audit) := entry in
  details <- get audit "details" empty_dict ;;
  qualifies <- is_opportunity details ;;
  if qualifies then
    o <- opportunity_dict audit_id audit details ;;
    Ok (append opportunities o)
  else Ok opportunities.

(** 4. Key diagnostics: the critical request chain entry. *)
Definition critical_request_chains (audits : pyval)
  : result (list (string * pyval)) :=
  crc_audit <- get audits "critical-request-chains" empty_dict ;;
  has_details <- (if truthy crc_audit
                  then d <- get crc_audit "details" PNone ;; Ok (truthy d)
                  else Ok false) ;;
  if has_details then
    details <- getitem crc_audit "details" ;;
    longest_chain <- get details "longestChain" empty_dict ;;
    if truthy longest_chain then
      len <- get longest_chain "length" PNone ;;
      duration <- get longest_chain "duration" PNone ;;
      ms <- format_0f duration ;;
      Ok [("critical_request_chains",
           PStr ("Longest chain: " ++ str len ++ " requests, " ++
                 "taking " ++ ms ++ "ms."))]
    else Ok []
  else Ok [].

Definition resource_types : list string :=
  [ "total"; "script"; "image"; "font"; "third-party" ].

(** The body of the loop over the resource summary's items. *)
Definition resource_line (item : pyval) (summary_items : list string)
  : result (list string) :=
  resource_type <- get item "resourceType" PNone ;;
  if in_strs resource_type resource_types then
    transfer_size <- get item "transferSize" (PInt 0) ;;
    size_kb <- div1024 transfer_size ;;
    label <- get item "label" PNone ;;
    request_count <- get item "requestCount" PNone ;;
    Ok (append summary_items
               ("  - " ++ str label ++ ": " ++ str request_count ++
                " requests, " ++ format_0f_float size_kb ++ " KB"))
  else Ok summary_items.

(** The resource summary entry. *)
Definition resource_summary (audits : pyval)
  : result (list (string * pyval)) :=
  rs_audit <- get audits "resource-summary" empty_dict ;;
  has_items <- (if truthy rs_audit
                then d <- get rs_audit "details" empty_dict ;;
                     its <- get d "items" PNone ;;
                     Ok (truthy its)
                else Ok false) ;;
  if has_items then
    details <- getitem rs_audit "details" ;;
    its <- getitem details "items" ;;
    elements <- iter its ;;
    summary_items <- for_each elements [] resource_line ;;
    Ok [("resource_summary", PStr (String.concat newline summary_items))]
  else Ok [].

Definition extract_info_for_llm (data : pyval) : result pyval :=
  match data with
  | PDict _ =>
      lighthouse_result <- get data "lighthouseResult" empty_dict ;;
      if negb (truthy lighthouse_result) then Ok empty_dict
      else
        audits <- get lighthouse_result "audits" empty_dict ;;
        summary <- performance_summary lighthouse_result ;;
        metrics <- for_each metric_ids [] (core_metric audits) ;;
        audit_items <- items audits ;;
        opportunities <- for_each audit_items [] opportunity ;;
        crc <- critical_request_chains audits ;;
        rs <- resource_summary audits ;;
        Ok (PDict [("summary", PDict summary);
                   ("metrics", PList metrics);
                   ("opportunities", PList opportunities);
                   ("diagnostics", PDict (crc ++ rs)%list)])
  | _ => Raise TypeError
  end.

(* ----------------------------------------------------------------- *)
(** *** [format_for_llm] *)

Definition no_data_text : string := "No performance data could be extracted.".

Definition metric_line (metric : pyval) (prompt_lines : list pyval)
  : result (list pyval) :=
  t <- get metric "title" PNone ;;
  v <- get metric "value" PNone ;;
  Ok (append prompt_lines (PStr ("- " ++ str t ++ ": " ++ str v))).

Definition opportunity_lines (opp : pyval) (prompt_lines : list pyval)
  : result (list pyval) :=
  t <- getitem opp "title" ;;
  s <- get opp "savings" (PStr "Action required") ;;
  let prompt_lines :=
    append prompt_lines (PStr (newline ++ "- " ++ str t ++ " (" ++ str s ++ ")")) in
  its <- get opp "items" empty_list ;;
  elements <- iter its ;;
  Ok (prompt_lines ++ elements)%list.

Definition diagnostic_lines (diagnostics : pyval) (prompt_lines : list pyval)
  : result (list pyval) :=
  has_crc <- contains diagnostics "critical_request_chains" ;;
  prompt_lines <-
    (if has_crc then
       v <- getitem diagnostics "critical_request_chains" ;;
       Ok (append prompt_lines (PStr ("- Critical Request Chains: " ++ str v)))
     else Ok prompt_lines) ;;
  has_rs <- contains diagnostics "resource_summary" ;;
  if has_rs then
    v <- getitem diagnostics "resource_summary" ;;
    match v with
    | PStr s =>
        Ok (append prompt_lines (PStr ("- Resource Breakdown:" ++ newline ++ s)))
    | _ => Raise TypeError
    end
  else Ok prompt_lines.

Definition format_for_llm (extracted_data : pyval) (url : string)
  : result string :=
  if negb (truthy extracted_data) then Ok no_data_text
  else
    let prompt_lines :=
      [PStr ("--- Performance Summary Report for URL: " ++ url ++ " ---")] in
    summary <- getitem extracted_data "summary" ;;
    score <- get summary "performance_score" PNone ;;
    prompt_lines <-
      (if is_none score then Ok prompt_lines
       else s <- format_0f score ;;
            Ok (append prompt_lines (PStr ("Overall Score: " ++ s ++ "/100")))) ;;
    let prompt_lines :=
      append prompt_lines (PStr (newline ++ "--- Core Metrics ---")) in
    metrics <- get extracted_data "metrics" empty_list ;;
    metric_list <- iter metrics ;;
    prompt_lines <- for_each metric_list prompt_lines metric_line ;;
    let prompt_lines :=
      append prompt_lines
             (PStr (newline ++ "--- Top Opportunities for Improvement ---")) in
    opportunities <- get extracted_data "opportunities" empty_list ;;
    prompt_lines <-
      (if negb (truthy opportunities) then
         Ok (append prompt_lines
                    (PStr "No significant opportunities were identified."))
       else opps <- iter opportunities ;;
            for_each opps prompt_lines opportunity_lines) ;;
    let prompt_lines :=
      append prompt_lines (PStr (newline ++ "--- Key Diagnostics ---")) in
    diagnostics <- get extracted_data "diagnostics" empty_dict ;;
    prompt_lines <-
      (if negb (truthy diagnostics) then
         Ok (append prompt_lines (PStr "No key diagnostics available."))
       else diagnostic_lines diagnostics prompt_lines) ;;
    join newline prompt_lines.

End Processing.

(* ================================================================= *)
(** ** [app/models.py], [app/services/pagespeed_service.py],
       [app/services/llm_service.py] and [app/main.py] *)

Module Service.
Import Py Processing.

(** [app/models.py].  The [Literal] fields are enumerations: a request with
    any other strategy or role is rejected before a handler runs. *)
Inductive Strategy : Type := mobile | desktop.

Record AnalysisRequest : Type := { url : string; strategy : Strategy }.

Record AnalysisResponse : Type :=
  { performance_score : Z;
    metrics : list Metric;
    initial_suggestion : string }.

Inductive Role : Type := user | assistant.

Definition Role_eqb (a b : Role) : bool :=
  match a, b with
  | user, user | assistant, assistant => true
  | _, _ => false
  end.

Record ChatMessage : Type := { role : Role; content : string }.

Record ChatRequest : Type := { history : list ChatMessage }.

(** The message objects of the chain's [history] placeholder. *)
Inductive Message : Type :=
| HumanMessage (text : string)
| AIMessage (text : string).

(** The dictionary handed to [chain.ainvoke] and [chain.astream]. *)
Record ChainInput : Type :=
  { input_history : list Message;
    input_query : string;
    input_report_summary : string }.

(** A call issued to the language-model provider. *)
Inductive LLMCall : Type :=
| Ainvoke (input : ChainInput)
| Astream (input : ChainInput).

(** What [client.get], [raise_for_status] and [response.json] come to. *)
Inductive HttpOutcome : Type :=
| RequestError (message : string)
| HTTPStatusError (status_code : Z) (text : string)
| Body (data : option pyval).

(** [AppState] of [app/main.py]. *)
Record AppState : Type :=
  { full_report : option pyval;
    llm_summary : option string }.

Definition initial_state : AppState :=
  {| full_report := None; llm_summary := None |}.

(** The process as a handler sees it: the session state and the log of the
    calls issued to the language-model provider so far. *)
Record World : Type :=
  { app_state : AppState;
    llm_calls : list LLMCall }.

(** A handler: it may raise, and what it wrote before raising stays. *)
Definition App (A : Type) : Type := World -> result A * World.

Definition ret {A : Type} (a : A) : App A := fun w => (Ok a, w).

Definition raise {A : Type} (e : exn) : App A := fun w => (Raise e, w).

Definition lift {A : Type} (r : result A) : App A := fun w => (r, w).

Definition bindA {A B : Type} (m : App A) (k : A -> App B) : App B :=
  fun w => match m w with
           | (Ok a, w') => k a w'
           | (Raise e, w') => (Raise e, w')
           end.

Notation "x <~ e ;; k" := (bindA e (fun x => k))
  (at level 61, e at next level, right associativity).
Notation "e ;;; k" := (bindA e (fun _ => k))
  (at level 61, right associativity).

Definition get_state : App AppState := fun w => (Ok (app_state w), w).

Definition set_full_report (report : pyval) : App unit :=
  fun w => (Ok tt,
            {| app_state := {| full_report := Some report;
                               llm_summary := llm_summary (app_state w) |};
               llm_calls := llm_calls w |}).

Definition set_llm_summary (text : string) : App unit :=
  fun w => (Ok tt,
            {| app_state := {| full_report := full_report (app_state w);
                               llm_summary := Some text |};
               llm_calls := llm_calls w |}).

Definition issue (call : LLMCall) : App unit :=
  fun w => (Ok tt,
            {| app_state := app_state w;
               llm_calls := append (llm_calls w) call |}).

Record StreamingResponse : Type :=
  { body : list string;
    media_type : string }.

Section Handlers.

(** The two providers.  [http_get url strategy] is the outcome of the GET
    request to the PageSpeed endpoint; [chain_ainvoke] and [chain_astream]
    are the one-shot and the streaming completion of the prompt chain. *)
Variable http_get : string -> Strategy -> HttpOutcome.
Variable chain_ainvoke : ChainInput -> result string.
Variable chain_astream : ChainInput -> list string.

(* ----------------------------------------------------------------- *)
(** *** [pagespeed_service.get_pagespeed_insights] *)

Definition get_pagespeed_insights (url : string) (strategy : Strategy)
  : result pyval :=
  match http_get url strategy with
  | RequestError e =>
      Raise (HTTPException 500
               ("Network error while calling PageSpeed API: " ++ e))
  | HTTPStatusError status_code text =>
      Raise (HTTPException status_code
               ("Error calling PageSpeed API: " ++ text))
  | Body None => Raise JSONDecodeError
  | Body (Some data) =>
      has_error <- contains data "error" ;;
      if has_error then
        error <- getitem data "error" ;;
        error_message <- get error "message" (PStr "Unknown API error") ;;
        Raise (HTTPException 400
                 ("PageSpeed API Error: " ++ str error_message))
      else
        has_result <- contains data "lighthouseResult" ;;
        if negb has_result then
          Raise (HTTPException 500
                   "Invalid response from PageSpeed API: 'lighthouseResult' not found.")
        else Ok data
  end.

(* ----------------------------------------------------------------- *)
(** *** [llm_service] *)

Definition initial_prompt : string :=
  "Based on the Lighthouse report summary, provide a brief, high-level overview " ++
  "of the website's performance. Start with a friendly greeting and highlight " ++
  "key areas for improvement in a concise, encouraging tone. " ++
  "Keep the entire response to less than 10 sentences.".

(** The chain input of the initial suggestion: no prior history. *)
Definition suggestion_input (report_summary : string) : ChainInput :=
  {| input_history := [];
     input_query := initial_prompt;
     input_report_summary := report_summary |}.

Definition get_initial_suggestion (report_summary : string) : App string :=
  let input := suggestion_input report_summary in
  issue (Ainvoke input) ;;;
  lift (chain_ainvoke input).

(** The body of the conversion loop of [get_llm_stream]. *)
Definition to_langchain (langchain_history : list Message) (msg : ChatMessage)
  : list Message :=
  if Role_eqb (role msg) user then
    append langchain_history (HumanMessage (content msg))
  else if Role_eqb (role msg) assistant then
    append langchain_history (AIMessage (content msg))
  else langchain_history.

(** [get_llm_stream]: the chunks are those the chain streams, in order. *)
Definition get_llm_stream (history : list ChatMessage) (query : string)
           (report_summary : string) : App (list string) :=
  let langchain_history := fold_left to_langchain history [] in
  let input := {| input_history := langchain_history;
                  input_query := query;
                  input_report_summary := report_summary |} in
  issue (Astream input) ;;;
  ret (chain_astream input).

(* ----------------------------------------------------------------- *)
(** *** [main.analyze_website] *)

(** Lines 53 to 61: the response built from the report. *)
Definition analysis_response (report : pyval) (initial_suggestion : string)
  : result AnalysisResponse :=
  lighthouse_result <- get report "lighthouseResult" empty_dict ;;
  categories <- get lighthouse_result "categories" empty_dict ;;
  performance <- get categories "performance" empty_dict ;;
  score <- get performance "score" (PInt 0) ;;
  performance_score <- mul100 score ;;
  key_metrics <- extract_key_metrics report ;;
  score_int <- int performance_score ;;
  Ok {| performance_score := score_int;
        metrics := key_metrics;
        initial_suggestion := initial_suggestion |}.

Definition analyze_website (request : AnalysisRequest) : App AnalysisResponse :=
  report <~ lift (get_pagespeed_insights (url request) (strategy request)) ;;
  set_full_report report ;;;
  llm_summary <~ lift (extract_info_for_llm report) ;;
  text <~ lift (format_for_llm llm_summary (url request)) ;;
  set_llm_summary text ;;;
  initial_suggestion <~ get_initial_suggestion text ;;
  lift (analysis_response report initial_suggestion).

(* ----------------------------------------------------------------- *)
(** *** [main.chat_with_llm] *)

Definition no_analysis_yet : exn :=
  HTTPException 400 "Please analyze a website first before starting a chat.".

(** [not app_state.llm_summary]: [None] or the empty string. *)
Definition no_summary (s : AppState) : bool :=
  match llm_summary s with
  | None => true
  | Some text => String.eqb text ""
  end.

Definition empty_message : ChatMessage := {| role := user; content := "" |}.

Definition chat_with_llm (request : ChatRequest) : App StreamingResponse :=
  s <~ get_state ;;
  if no_summary s then raise no_analysis_yet
  else
    let user_query :=
      match history request with
      | [] => ""
      | _ => content (last (history request) empty_message)
      end in
    let chat_history := removelast (history request) in
    let summary := match llm_summary s with Some t => t | None => "" end in
    stream <~ get_llm_stream chat_history user_query summary ;;
    ret {| body := stream; media_type := "text/event-stream" |}.

End Handlers.

(* ----------------------------------------------------------------- *)
(** *** [main.download_full_report] and [main.read_root] *)

(** The [fastapi.responses.Response] the download handler builds. *)
Record Response : Type :=
  { response_content : string;
    response_media_type : string;
    response_headers : list (string * string) }.

Section Download.

(** [json.dumps(_, indent=2)] of the standard library, on the values a JSON
    parser builds. *)
Variable json_dumps : pyval -> string.

Definition no_report_yet : exn :=
  HTTPException 400
    "No report available to download. Please analyze a website first.".

(** [not app_state.full_report]: [None] or an empty value. *)
Definition no_report (s : AppState) : bool :=
  match full_report s with
  | None => true
  | Some report => negb (truthy report)
  end.

Definition download_full_report : App Response :=
  s <~ get_state ;;
  if no_report s then raise no_report_yet
  else
    let report := match full_report s with Some r => r | None => PNone end in
    let report_json_str := json_dumps report in
    ret {| response_content := report_json_str;
           response_media_type := "application/json";
           response_headers :=
             [("Content-Disposition",
               "attachment; filename=lighthouse_report.json")] |}.

End Download.

Definition read_root : pyval :=
  PDict [("message", PStr "Welcome to the FrontendX Performance-Pal API")].

End Service.

(* ================================================================= *)
(** ** The vocabulary of the specification *)

Module Spec.
Import Py Processing Service.

(** The tolerant accessor of the specification: a field of an object, absent
    when the key is missing or the value is not an object. *)
Definition field (v : pyval) (k : string) : option pyval :=
  match v with
  | PDict d => lookup k d
  | _ => None
  end.

(** A path of fields, absent as soon as one segment is. *)
Fixpoint path (v : pyval) (ks : list string) : option pyval :=
  match ks with
  | [] => Some v
  | k :: rest => match field v k with
                 | Some x => path x rest
                 | None => None
                 end
  end.

(** The audits of a report, in the report's key order. *)
Definition audits_of (report : pyval) : list (string * pyval) :=
  match path report ["lighthouseResult"; "audits"] with
  | Some (PDict d) => d
  | _ => []
  end.

(** "details.overallSavingsMs > 0": a number above zero (Python counts a
    Boolean as the integer 0 or 1). *)
Definition positive (v : option pyval) : bool :=
  match v with
  | Some (PInt z) => 0 <? z
  | Some (PFloat f) => PrimFloat.ltb 0%float f
  | Some (PBool b) => b
  | _ => false
  end.

(** "details.items is non-empty": a container with at least one element. *)
Definition non_empty (v : option pyval) : bool :=
  match v with
  | Some (PList (_ :: _)) => true
  | Some (PDict (_ :: _)) => true
  | Some (PStr (String _ _)) => true
  | _ => false
  end.

(** "An audit qualifies as an Opportunity iff details.type == "opportunity"
    AND (details.overallSavingsMs > 0 OR details.items is non-empty)." *)
Definition qualifies (audit : pyval) : bool :=
  match field audit "details" with
  | Some details =>
      match field details "type" with
      | Some (PStr ty) =>
          String.eqb ty "opportunity" &&
          (positive (field details "overallSavingsMs") ||
           non_empty (field details "items"))
      | _ => false
      end
  | None => false
  end.

(** What an opportunity entry of the digest carries for its audit:
    "{title, description, savings: displayValue or empty string, items}". *)
Definition opportunity_of (entry : string * pyval) (o : pyval) : Prop :=
  let audit := snd entry in
  exists lines : list string,
    o = PDict [("title", match field audit "title" with
                         | Some t => t | None => PNone end);
               ("description", match field audit "description" with
                               | Some d => d | None => PNone end);
               ("savings", match field audit "displayValue" with
                           | Some s => s | None => PStr "" end);
               ("items", PList (map PStr lines))].

(** The opportunities and the diagnostics of a digest. *)
Definition opportunities (digest : pyval) : list pyval :=
  match field digest "opportunities" with
  | Some (PList l) => l
  | _ => []
  end.

Definition overall_score (digest : pyval) : option pyval :=
  path digest ["summary"; "performance_score"].

Definition resource_summary_text (digest : pyval) : option pyval :=
  path digest ["diagnostics"; "resource_summary"].

(** "resourceType in {total, script, image, font, third-party}". *)
Definition allowed_resource (item : pyval) : bool :=
  match field item "resourceType" with
  | Some (PStr ty) =>
      existsb (String.eqb ty) ["total"; "script"; "image"; "font"; "third-party"]
  | _ => false
  end.

(** The items of the resource-summary audit. *)
Definition resource_items (report : pyval) : option pyval :=
  path report ["lighthouseResult"; "audits"; "resource-summary"; "details"; "items"].

Definition or_default (o : option pyval) (default : pyval) : pyval :=
  match o with Some x => x | None => default end.

(** The line rendered for a resource item:
    "  - {label}: {requestCount} requests, {transferSize/1024 rounded to
    nearest KB} KB". *)
Definition resource_line_of (item : pyval) (line : string) : Prop :=
  exists size_kb : float,
    div1024 (or_default (field item "transferSize") (PInt 0)) = Ok size_kb /\
    line = "  - " ++ str (or_default (field item "label") PNone) ++ ": " ++
           str (or_default (field item "requestCount") PNone) ++
           " requests, " ++ format_0f_float size_kb ++ " KB".

(** The number of lines of a text: none for the empty text, otherwise one
    more than its newline characters. *)
Fixpoint newlines (s : string) : nat :=
  match s with
  | EmptyString => O
  | String c rest =>
      ((if Ascii.eqb c (ascii_of_nat 10) then 1 else 0) + newlines rest)%nat
  end.

Definition line_count (s : string) : nat :=
  match s with
  | EmptyString => O
  | _ => S (newlines s)
  end.

(** A field that holds a string, or an object, whenever it is present. *)
Definition absent_or_string (o : option pyval) : bool :=
  match o with
  | None | Some (PStr _) => true
  | _ => false
  end.

Definition absent_or_object (o : option pyval) : bool :=
  match o with
  | None | Some (PDict _) => true
  | _ => false
  end.

(** The audit of a metric in a report, absent when any segment is. *)
Definition metric_audit (report : pyval) (metric_id : string) : option pyval :=
  path report ["lighthouseResult"; "audits"; metric_id].

(** An audit that is an object with a string [title] and a string
    [displayValue], each of which may be missing; or no audit at all. *)
Definition audit_shape (audit : option pyval) : bool :=
  match audit with
  | None => true
  | Some (PDict a) =>
      absent_or_string (lookup "title" a) &&
      absent_or_string (lookup "displayValue" a)
  | Some _ => false
  end.

(** A report as the Metric Extractor reads it: an object in which
    [lighthouseResult], [audits] and the audits of the six metrics may each
    be missing, and have the shape above when they are there. *)
Definition metrics_shape (report : pyval) : bool :=
  match report with
  | PDict _ =>
      absent_or_object (field report "lighthouseResult") &&
      absent_or_object (path report ["lighthouseResult"; "audits"]) &&
      forallb (fun metric_id => audit_shape (metric_audit report metric_id))
              metrics_to_extract
  | _ => false
  end.

(** The six metric ids of the Metric Extractor, in the specification's
    order. *)
Definition six_metric_ids : list string :=
  [ "first-contentful-paint"; "speed-index"; "largest-contentful-paint";
    "interactive"; "total-blocking-time"; "cumulative-layout-shift" ].

(** "title = audit.title if present else the id with hyphens replaced by
    spaces and each word capitalized; value = audit.displayValue if present
    else "N/A"." *)
Definition display_metric (report : pyval) (metric_id : string) : Metric :=
  let audit := or_default (metric_audit report metric_id) empty_dict in
  {| title := match field audit "title" with
              | Some (PStr t) => t
              | _ => humanized metric_id
              end;
     value := match field audit "displayValue" with
              | Some (PStr v) => v
              | _ => "N/A"
              end |}.

(** A rendered line that is one line of text. *)
Definition plain_line (s : string) : Prop := s <> "" /\ newlines s = O.

(** The lines of the resource-summary diagnostic of a digest. *)
Definition resource_summary_lines (digest : pyval) : nat :=
  match resource_summary_text digest with
  | Some (PStr s) => line_count s
  | _ => O
  end.

(** The first line of a formatted digest. *)
Definition report_header (url : string) : string :=
  "--- Performance Summary Report for URL: " ++ url ++ " ---".

(** A chat turn in the model's message representation, and what a message
    keeps of the turn. *)
Definition message_of (m : ChatMessage) : Message :=
  match role m with
  | user => HumanMessage (content m)
  | assistant => AIMessage (content m)
  end.

Definition message_role (m : Message) : Role :=
  match m with
  | HumanMessage _ => user
  | AIMessage _ => assistant
  end.

Definition message_text (m : Message) : string :=
  match m with
  | HumanMessage t | AIMessage t => t
  end.

(** The [lighthouseResult] the extractor reads: the field, or an empty
    object. *)
Definition lighthouse_of (data : list (string * pyval)) : pyval :=
  or_default (lookup "lighthouseResult" data) empty_dict.

End Spec.

(* ================================================================= *)
(** ** The report schema the extractor relies on

    Every field of a report may be missing, with three exceptions: the
    [total] of an item of the boot-up audit, the [duration] of a longest
    request chain, and the first of the [items] of an image's sub-items. *)

Module Schema.
Import Py Processing.

Definition optional (p : pyval -> bool) (o : option pyval) : bool :=
  match o with
  | None => true
  | Some v => p v
  end.

Definition object_with (p : list (string * pyval) -> bool) (v : pyval) : bool :=
  match v with
  | PDict d => p d
  | _ => false
  end.

Definition list_of (p : pyval -> bool) (v : pyval) : bool :=
  match v with
  | PList l => forallb p l
  | _ => false
  end.

(** A field that must be there. *)
Definition required (p : pyval -> bool) (o : option pyval) : bool :=
  match o with
  | None => false
  | Some v => p v
  end.

(** An integer, a float or a Boolean. *)
Definition is_number (v : pyval) : bool :=
  match v with
  | PInt _ | PFloat _ | PBool _ => true
  | _ => false
  end.

(** A number that [.0f] can print, and one that can be divided by 1024: any
    float, and any integer within the range of the floats. *)
Definition printable (v : pyval) : bool := is_ok (format_0f v).
Definition divisible (v : pyval) : bool := is_ok (div1024 v).

(** An item of the boot-up audit: its [total] is required. *)
Definition bootup_item (item : pyval) : bool :=
  object_with (fun d => required printable (lookup "total" d)) item.

(** The sub-items of an image: nothing, or an object whose [items] is a
    list that starts with an object. *)
Definition sub_items (v : pyval) : bool :=
  negb (truthy v) ||
  object_with (fun s => required (fun l => match l with
                                           | PList (PDict _ :: _) => true
                                           | _ => false
                                           end) (lookup "items" s)) v.

Definition image_item (item : pyval) : bool :=
  object_with (fun d => optional sub_items (lookup "subItems" d)) item.

Definition item_of (audit_id : string) (item : pyval) : bool :=
  if String.eqb audit_id "bootup-time" then bootup_item item
  else if String.eqb audit_id "image-delivery-insight" then image_item item
  else true.

(** The details of an audit: numeric savings and a list of items. *)
Definition details_of (audit_id : string) (details : pyval) : bool :=
  object_with (fun d =>
                 optional is_number (lookup "overallSavingsMs" d) &&
                 optional (list_of (item_of audit_id)) (lookup "items" d))
              details.

Definition audit (entry : string * pyval) : bool :=
  object_with (fun a => optional (details_of (fst entry)) (lookup "details" a))
              (snd entry).

(** The critical-request-chains audit: the [duration] of a longest chain is
    required. *)
Definition longest_chain (v : pyval) : bool :=
  negb (truthy v) ||
  object_with (fun c => required printable (lookup "duration" c)) v.

Definition chain_audit (v : pyval) : bool :=
  object_with
    (fun a => optional
                (fun details =>
                   negb (truthy details) ||
                   object_with (fun d => optional longest_chain
                                           (lookup "longestChain" d)) details)
                (lookup "details" a)) v.

(** The resource-summary audit: items are objects with a numeric size. *)
Definition resource_item (item : pyval) : bool :=
  object_with (fun d => optional divisible (lookup "transferSize" d)) item.

Definition resource_audit (v : pyval) : bool :=
  object_with
    (fun a => optional
                (object_with (fun d => optional (list_of resource_item)
                                                (lookup "items" d)))
                (lookup "details" a)) v.

(** The performance category: its score is a number or null. *)
Definition categories (v : pyval) : bool :=
  object_with
    (fun c => optional
                (object_with (fun p => optional (fun s => is_none s || is_number s)
                                                (lookup "score" p)))
                (lookup "performance" c)) v.

Definition audits (v : pyval) : bool :=
  object_with
    (fun a => forallb audit a &&
              optional chain_audit (lookup "critical-request-chains" a) &&
              optional resource_audit (lookup "resource-summary" a)) v.

Definition lighthouse_result (v : pyval) : bool :=
  object_with (fun l => optional categories (lookup "categories" l) &&
                        optional audits (lookup "audits" l)) v.

(** A report of the schema the extractor relies on: every field may be
    missing but the three marked as required. *)
Definition report (v : pyval) : bool :=
  object_with (fun data => optional lighthouse_result
                                    (lookup "lighthouseResult" data)) v.

End Schema.

(* ================================================================= *)
(** ** The shape of what the extractor builds *)

Module Digest.
Import Py Processing.

Definition is_str (v : pyval) : Prop := exists s, v = PStr s.

Definition metric_entry (m : pyval) : Prop :=
  exists t v, m = PDict [("title", t); ("value", v)].

Definition opportunity_entry (o : pyval) : Prop :=
  exists t d s lines,
    o = PDict [("title", t); ("description", d); ("savings", s);
               ("items", PList (map PStr lines))].

Definition diagnostic_entries (d : list (string * pyval)) : Prop :=
  Forall (fun kv => is_str (snd kv)) d.

(** The dictionary the extractor returns for a report with a
    [lighthouseResult]. *)
Definition full_digest (summary : list (string * pyval))
           (metrics opps : list pyval)
           (diagnostics : list (string * pyval)) : pyval :=
  PDict [("summary", PDict summary); ("metrics", PList metrics);
         ("opportunities", PList opps); ("diagnostics", PDict diagnostics)].

(** [s'] is [s] with elements appended. *)
Definition extends {A : Type} (s s' : list A) : Prop :=
  exists suffix, s' = (s ++ suffix)%list.

(** The lines the formatter is assembling: strings, the header first. *)
Definition prompt_ok (url : string) (lines : list pyval) : Prop :=
  Forall is_str lines /\ extends [PStr (Spec.report_header url)] lines.

End Digest.


(* ================================================================= *)
(** ** Concrete reports, providers and session states *)

Module Scenario.
Import Py Processing Service.

(** Scenario A of the specification: a score of 0.87 and one metric audit. *)
Definition report_a : pyval :=
  PDict [("lighthouseResult",
          PDict [("categories",
                  PDict [("performance", PDict [("score", PFloat 0.87)])]);
                 ("audits",
                  PDict [("first-contentful-paint",
                          PDict [("title", PStr "First Contentful Paint");
                                 ("displayValue", PStr "1.2 s")])])])].

(** An opportunity audit with the given savings and items. *)
Definition opportunity_audit (name : string) (savings : pyval)
           (items : list pyval) : pyval :=
  PDict [("title", PStr name);
         ("description", PStr "What to do about it.");
         ("displayValue", PStr "Est savings");
         ("details", PDict [("type", PStr "opportunity");
                            ("overallSavingsMs", savings);
                            ("items", PList items)])].

Definition resource_item (ty label : string) (count size : Z) : pyval :=
  PDict [("resourceType", PStr ty); ("label", PStr label);
         ("requestCount", PInt count); ("transferSize", PInt size)].

(** The items of the resource summary of [report_b]. *)
Definition resource_items_b : list pyval :=
  [resource_item "total" "Total" 10 123456;
   resource_item "media" "Media" 1 2048;
   resource_item "script" "Script" 4 51200].

(** Scenario B, with two more opportunity audits (no savings and no items;
    one millisecond of savings), a request chain and a resource summary of
    which two items out of three have an allowed type. *)
Definition audits_b : list (string * pyval) :=
  [ ("bootup-time",
     opportunity_audit "Reduce JavaScript execution time" (PInt 500)
       [PDict [("url", PStr "a.js"); ("total", PFloat 234.4)]]);
    ("unused-css-rules", opportunity_audit "Reduce unused CSS" (PInt 0) []);
    ("render-blocking-resources",
     opportunity_audit "Eliminate render-blocking resources" (PInt 1) []);
    ("interactive",
     PDict [("title", PStr "Time to Interactive");
            ("displayValue", PStr "3.0 s")]);
    ("speed-index",
     PDict [("title", PStr "Speed Index"); ("displayValue", PStr "2.1 s")]);
    ("largest-contentful-paint",
     PDict [("title", PStr "Largest Contentful Paint");
            ("displayValue", PStr "2.4 s")]);
    ("critical-request-chains",
     PDict [("details",
             PDict [("longestChain",
                     PDict [("length", PInt 3);
                            ("duration", PFloat 1234.56)])])]);
    ("resource-summary",
     PDict [("details",
             PDict [("items", PList resource_items_b)])]) ].

Definition data_b : list (string * pyval) :=
  [("lighthouseResult", PDict [("audits", PDict audits_b)])].

Definition report_b : pyval := PDict data_b.

(** The digest of [report_b]. *)
Definition digest_b : pyval :=
  PDict
    [("summary", PDict []);
     ("metrics",
      PList [PDict [("title", PStr "Largest Contentful Paint");
                    ("value", PStr "2.4 s")]]);
     ("opportunities",
      PList [PDict [("title", PStr "Reduce JavaScript execution time");
                    ("description", PStr "What to do about it.");
                    ("savings", PStr "Est savings");
                    ("items", PList [PStr "  - Script: a.js, CPU Time: 234ms"])];
             PDict [("title", PStr "Eliminate render-blocking resources");
                    ("description", PStr "What to do about it.");
                    ("savings", PStr "Est savings");
                    ("items", PList [])]]);
     ("diagnostics",
      PDict [("critical_request_chains",
              PStr "Longest chain: 3 requests, taking 1235ms.");
             ("resource_summary",
              PStr ("  - Total: 10 requests, 121 KB" ++ newline ++
                    "  - Script: 4 requests, 50 KB"))])].

(** A report with a [lighthouseResult] and no performance category. *)
Definition data_no_category : list (string * pyval) :=
  [("lighthouseResult", PDict [("audits", PDict [])])].

Definition report_no_category : pyval := PDict data_no_category.

(** Its digest, and the text the formatter gives for it. *)
Definition digest_no_category : pyval :=
  PDict [("summary", PDict []); ("metrics", PList []);
         ("opportunities", PList []); ("diagnostics", PDict [])].

Definition text_no_category (url : string) : string :=
  Spec.report_header url ++ newline ++
  newline ++ "--- Core Metrics ---" ++ newline ++
  newline ++ "--- Top Opportunities for Improvement ---" ++ newline ++
  "No significant opportunities were identified." ++ newline ++
  newline ++ "--- Key Diagnostics ---" ++ newline ++
  "No key diagnostics available.".

(** A report whose [lighthouseResult] is empty. *)
Definition data_empty_result : list (string * pyval) :=
  [("lighthouseResult", PDict [])].

(** Reports in which one field of an audit is missing. *)
Definition report_chain_without_duration : pyval :=
  PDict [("lighthouseResult",
          PDict [("audits",
                  PDict [("critical-request-chains",
                          PDict [("details",
                                  PDict [("longestChain",
                                          PDict [("length", PInt 3)])])])])])].

Definition report_bootup_without_total : pyval :=
  PDict [("lighthouseResult",
          PDict [("audits",
                  PDict [("bootup-time",
                          opportunity_audit "Reduce JavaScript execution time"
                            (PInt 500) [PDict [("url", PStr "a.js")]])])])].

Definition report_image_without_sub_items : pyval :=
  PDict [("lighthouseResult",
          PDict [("audits",
                  PDict [("image-delivery-insight",
                          opportunity_audit "Improve image delivery" (PInt 0)
                            [PDict [("url", PStr "a.png");
                                    ("subItems",
                                     PDict [("type", PStr "subitems")])]])])])].

(** A report with audits for "interactive" and "speed-index" only. *)
Definition report_interactive : pyval :=
  PDict [("lighthouseResult",
          PDict [("audits",
                  PDict [("interactive",
                          PDict [("title", PStr "Time to Interactive");
                                 ("displayValue", PStr "3.0 s")]);
                         ("speed-index",
                          PDict [("title", PStr "Speed Index");
                                 ("displayValue", PStr "2.1 s")])])])].

(** Providers. *)
Definition http_returns (report : pyval) : string -> Strategy -> HttpOutcome :=
  fun _ _ => Body (Some report).

Definition http_unreachable : string -> Strategy -> HttpOutcome :=
  fun _ _ => RequestError "connection refused".

Definition llm_answers : ChainInput -> result string :=
  fun _ => Ok "Hello! Your site is in good shape.".

Definition llm_unavailable : ChainInput -> result string :=
  fun _ => Raise (ProviderError "service unavailable").

Definition llm_streams : ChainInput -> list string :=
  fun _ => ["Largest "; "Contentful "; "Paint"].

(** Requests and session states. *)
Definition request_a : AnalysisRequest :=
  {| url := "https://a.example"; strategy := desktop |}.

Definition fresh : World :=
  {| app_state := initial_state; llm_calls := [] |}.

Definition analysed : World :=
  {| app_state := {| full_report := Some report_b;
                     llm_summary := Some "--- an earlier digest ---" |};
     llm_calls := [] |}.

Definition chat_hi : ChatRequest :=
  {| history := [{| role := user; content := "hi" |}] |}.

Definition chat_three : ChatRequest :=
  {| history := [{| role := user; content := "hi" |};
                 {| role := assistant; content := "Hello!" |};
                 {| role := user; content := "What is slow?" |}] |}.

End Scenario.

(* ================================================================= *)
(** ** The process over a sequence of requests *)

Module Session.
Import Py Processing Service.

(** The digest text of a report: extraction, then formatting. *)
Definition digest_text (report : pyval) (url : string) : result string :=
  digest <- extract_info_for_llm report ;; format_for_llm digest url.

(** What the chat handler hands to the chain for a request, given the digest
    text of the session. *)
Definition chat_input (request : ChatRequest) (summary : string) : ChainInput :=
  {| input_history := map Spec.message_of (removelast (history request));
     input_query := match history request with
                    | [] => ""
                    | _ => content (last (history request) empty_message)
                    end;
     input_report_summary := summary |}.

(** The download of a report. *)
Definition report_attachment (json_dumps : pyval -> string) (report : pyval)
  : Response :=
  {| response_content := json_dumps report;
     response_media_type := "application/json";
     response_headers :=
       [("Content-Disposition",
         "attachment; filename=lighthouse_report.json")] |}.

(** A request served by the process, with what the providers answer to it. *)
Inductive Operation : Type :=
| Analyze (http_get : string -> Strategy -> HttpOutcome)
          (chain_ainvoke : ChainInput -> result string)
          (request : AnalysisRequest)
| Chat (chain_astream : ChainInput -> list string) (request : ChatRequest)
| Download (json_dumps : pyval -> string).

(** The process after it has served a request, whether the handler returned
    or raised. *)
Definition serve (w : World) (op : Operation) : World :=
  match op with
  | Analyze http_get chain_ainvoke request =>
      snd (analyze_website http_get chain_ainvoke request w)
  | Chat chain_astream request => snd (chat_with_llm chain_astream request w)
  | Download json_dumps => snd (download_full_report json_dumps w)
  end.

(** The process at start-up: [app_state = AppState()], no call issued. *)
Definition started : World :=
  {| app_state := initial_state; llm_calls := [] |}.

Definition served (ops : list Operation) : World := fold_left serve ops started.

(** What holds of the session state between two requests. *)
Definition consistent (s : AppState) : Prop :=
  (forall report, full_report s = Some report -> truthy report = true) /\
  (forall text, llm_summary s = Some text ->
                text <> "" /\ full_report s <> None).

Definition call_input (call : LLMCall) : ChainInput :=
  match call with Ainvoke input | Astream input => input end.


End Session.

(* ================================================================= *)
(** ** Core metrics, items and request chains *)

Module Detail.
Import Py Processing.

(** The items of an audit's details, and the item lines of an opportunity of
    the digest. *)
Definition items_of (audit : pyval) : list pyval :=
  match Spec.path audit ["details"; "items"] with
  | Some (PList l) => l
  | _ => []
  end.

Definition item_lines (o : pyval) : list pyval :=
  match Spec.field o "items" with
  | Some (PList l) => l
  | _ => []
  end.

(** How many item lines the opportunity [o] of an audit carries: at most one
    per item, one per item for the boot-up audit, none for an audit that is
    neither the boot-up nor the image-delivery one. *)
Definition lines_of (entry : string * pyval) (o : pyval) : Prop :=
  (List.length (item_lines o) <= List.length (items_of (snd entry)))%nat /\
  (fst entry = "bootup-time" ->
   List.length (item_lines o) = List.length (items_of (snd entry))) /\
  (fst entry <> "bootup-time" -> fst entry <> "image-delivery-insight" ->
   item_lines o = []).

(** The audit of a core metric among the audits of a report, [None] when
    there is none; the entry the digest holds for it; the core metrics of a
    digest. *)
Definition core_audit (audits : list (string * pyval)) (metric_id : string)
  : pyval :=
  Spec.or_default (lookup metric_id audits) PNone.

Definition core_entry_of (audits : list (string * pyval)) (metric_id : string)
           (m : pyval) : Prop :=
  m = PDict [("title",
              Spec.or_default
                (Spec.field (core_audit audits metric_id) "title") PNone);
             ("value",
              Spec.or_default
                (Spec.field (core_audit audits metric_id) "displayValue")
                PNone)].

Definition core_metrics (digest : pyval) : list pyval :=
  match Spec.field digest "metrics" with
  | Some (PList l) => l
  | _ => []
  end.

(** The longest request chain of a report, and the diagnostic of a digest. *)
Definition longest_chain (report : pyval) : option pyval :=
  Spec.path report ["lighthouseResult"; "audits"; "critical-request-chains";
                    "details"; "longestChain"].

Definition chain_text (digest : pyval) : option pyval :=
  Spec.path digest ["diagnostics"; "critical_request_chains"].

End Detail.

(* ================================================================= *)
(** ** Further reports, requests and sessions *)

Module Cases.
Import Py Processing Service Session Scenario.

(** The digest of [report_a]. *)
Definition digest_a : pyval :=
  PDict [("summary", PDict [("performance_score", PFloat 87)]);
         ("metrics",
          PList [PDict [("title", PStr "First Contentful Paint");
                        ("value", PStr "1.2 s")]]);
         ("opportunities", PList []);
         ("diagnostics", PDict [])].

(** A report whose performance category could not be scored. *)
Definition data_null_score : list (string * pyval) :=
  [("lighthouseResult",
    PDict [("categories",
            PDict [("performance", PDict [("score", PNone)])]);
           ("audits", PDict [])])].

Definition report_null_score : pyval := PDict data_null_score.

(** A report with a score of 0.29. *)
Definition report_score_29 : pyval :=
  PDict [("lighthouseResult",
          PDict [("categories",
                  PDict [("performance", PDict [("score", PFloat 0.29)])])])].

(** Reports that are objects and in which a field holds a value of another
    type than the Metric Extractor reads: a null [lighthouseResult], a null
    title, a numeric display value. *)
Definition report_null_result : pyval :=
  PDict [("lighthouseResult", PNone)].

Definition report_null_title : pyval :=
  PDict [("lighthouseResult",
          PDict [("audits",
                  PDict [("speed-index", PDict [("title", PNone)])])])].

Definition report_numeric_value : pyval :=
  PDict [("lighthouseResult",
          PDict [("audits",
                  PDict [("interactive",
                          PDict [("title", PStr "Time to Interactive");
                                 ("displayValue", PInt 3)])])])].

(** A resource summary whose one item has a label of two lines. *)
Definition resource_items_two_lines : list pyval :=
  [resource_item "script" ("A" ++ newline ++ "B") 4 51200].

Definition data_two_lines : list (string * pyval) :=
  [("lighthouseResult",
    PDict [("audits",
            PDict [("resource-summary",
                    PDict [("details",
                            PDict [("items",
                                    PList resource_items_two_lines)])])])])].

(** The digest of [data_two_lines]. *)
Definition digest_two_lines : pyval :=
  PDict [("summary", PDict []); ("metrics", PList []);
         ("opportunities", PList []);
         ("diagnostics",
          PDict [("resource_summary",
                  PStr ("  - A" ++ newline ++ "B: 4 requests, 50 KB"))])].

(** The digest text of [report_a] for the url of [request_a]. *)
Definition text_a : string :=
  "--- Performance Summary Report for URL: https://a.example ---" ++
  newline ++ "Overall Score: 87/100" ++ newline ++
  newline ++ "--- Core Metrics ---" ++ newline ++
  "- First Contentful Paint: 1.2 s" ++ newline ++
  newline ++ "--- Top Opportunities for Improvement ---" ++ newline ++
  "No significant opportunities were identified." ++ newline ++
  newline ++ "--- Key Diagnostics ---" ++ newline ++
  "No key diagnostics available.".

(** A chat request with no turn at all. *)
Definition chat_empty : ChatRequest := {| history := [] |}.

(** A session: a download and a chat before any analysis, an analysis that
    fails in the provider, one that completes, a chat and a download. *)
Definition session_a : list Operation :=
  [ Download str;
    Chat llm_streams chat_hi;
    Analyze http_unreachable llm_answers request_a;
    Analyze (http_returns report_a) llm_answers request_a;
    Chat llm_streams chat_three;
    Download str ].

End Cases.

(* ================================================================= *)
(** ** Reasoning about the error monad and the loops *)

Import Py Processing Service.

Lemma bind_ok {A B : Type} (r : result A) (k : A -> result B) (b : B) :
  bind r k = Ok b -> exists a, r = Ok a /\ k a = Ok b.
Proof.
  destruct r as [a|e]; simpl; intros H.
  - exists a. split; [reflexivity | exact H].
  - discriminate H.
Qed.

Lemma get_ok (v : pyval) (k : string) (default x : pyval) :
  get v k default = Ok x ->
  exists d, v = PDict d /\
            x = match lookup k d with Some y => y | None => default end.
Proof.
  destruct v; simpl; intros H; try discriminate H.
  injection H as <-. eexists; split; reflexivity.
Qed.

Lemma getitem_ok (v : pyval) (k : string) (x : pyval) :
  getitem v k = Ok x -> exists d, v = PDict d /\ lookup k d = Some x.
Proof.
  destruct v; simpl; intros H; try discriminate H.
  destruct (lookup k d) eqn:E; [|discriminate H].
  injection H as <-. eexists; split; [reflexivity | exact E].
Qed.

(** Peels the first bind of a successful computation. *)
Tactic Notation "bind_inv" hyp(H) "as" ident(x) ident(Hx) :=
  apply bind_ok in H; destruct H as (x & Hx & H).

(** A loop whose body either appends one value computed from the element or
    leaves the list alone is a filter followed by a map. *)
Lemma for_each_filter_map {A B : Type} (p : A -> bool) (R : A -> B -> Prop)
      (body : A -> list B -> result (list B)) :
  (forall x s s', body x s = Ok s' ->
     (p x = true /\ exists y, R x y /\ s' = append s y) \/
     (p x = false /\ s' = s)) ->
  forall l s s', for_each l s body = Ok s' ->
    exists ys, s' = (s ++ ys)%list /\ Forall2 R (filter p l) ys.
Proof.
  intros Hbody l. induction l as [|x l IH]; simpl; intros s s' H.
  - injection H as <-. exists []. split; [now rewrite app_nil_r | constructor].
  - apply bind_ok in H. destruct H as (s1 & Hx & Hrest).
    destruct (IH _ _ Hrest) as (ys & -> & Hys).
    destruct (Hbody _ _ _ Hx) as [(Hp & y & Hy & ->) | (Hp & ->)]; rewrite Hp.
    + exists (y :: ys). split.
      * unfold append. now rewrite <- app_assoc.
      * now constructor.
    + exists ys. split; [reflexivity | exact Hys].
Qed.

(** A loop runs to its end as soon as every iteration does. *)
Lemma for_each_total {A S : Type} (P : A -> Prop)
      (body : A -> S -> result S) :
  (forall x s, P x -> exists s', body x s = Ok s') ->
  forall l s, Forall P l -> exists s', for_each l s body = Ok s'.
Proof.
  intros Hbody l. induction l as [|x l IH]; simpl; intros s Hl.
  - now exists s.
  - inversion Hl as [|? ? Hx Hl']; subst.
    destruct (Hbody x s Hx) as (s1 & ->). simpl. now apply IH.
Qed.

Lemma lookup_app (k : string) (a b : list (string * pyval)) :
  lookup k (a ++ b)
  = match lookup k a with Some x => Some x | None => lookup k b end.
Proof.
  induction a as [|[k' v] a IH]; simpl; [reflexivity|].
  destruct (String.eqb k k'); [reflexivity | exact IH].
Qed.

(* ================================================================= *)
(** ** The Insight Extractor, step by step *)

(** What a successful extraction went through. *)
Lemma extract_info_for_llm_ok (data : list (string * pyval)) (digest : pyval) :
  extract_info_for_llm (PDict data) = Ok digest ->
  (truthy (Spec.lighthouse_of data) = false /\ digest = empty_dict) \/
  (truthy (Spec.lighthouse_of data) = true /\
   exists l audit_items summary metrics opps crc rs,
     Spec.lighthouse_of data = PDict l /\
     Spec.or_default (lookup "audits" l) empty_dict = PDict audit_items /\
     performance_summary (PDict l) = Ok summary /\
     for_each metric_ids [] (core_metric (PDict audit_items)) = Ok metrics /\
     for_each audit_items [] opportunity = Ok opps /\
     critical_request_chains (PDict audit_items) = Ok crc /\
     resource_summary (PDict audit_items) = Ok rs /\
     digest = PDict [("summary", PDict summary);
                     ("metrics", PList metrics);
                     ("opportunities", PList opps);
                     ("diagnostics", PDict (crc ++ rs)%list)]).
Proof.
  unfold extract_info_for_llm. cbn [get bind].
  change (match lookup "lighthouseResult" data with
          | Some x => x | None => empty_dict end)
    with (Spec.lighthouse_of data).
  destruct (truthy (Spec.lighthouse_of data)) eqn:Ht; cbn [negb]; intros H.
  - right. split; [reflexivity|].
    bind_inv H as audits Ha. apply get_ok in Ha. destruct Ha as (l & Hl & ->).
    bind_inv H as summary Hs. bind_inv H as metrics Hm.
    bind_inv H as audit_items Hi. bind_inv H as opps Ho.
    bind_inv H as crc Hc. bind_inv H as rs Hr. injection H as <-.
    change (match lookup "audits" l with Some y => y | None => empty_dict end)
      with (Spec.or_default (lookup "audits" l) empty_dict) in *.
    destruct (Spec.or_default (lookup "audits" l) empty_dict)
      as [| | | | | |d] eqn:Ea; try discriminate Hi.
    injection Hi as <-. rewrite Hl in *.
    exists l, d, summary, metrics, opps, crc, rs. now repeat split.
  - left. split; [reflexivity|]. now injection H.
Qed.

Lemma audits_of_report (data l audit_items : list (string * pyval)) :
  truthy (Spec.lighthouse_of data) = true ->
  Spec.lighthouse_of data = PDict l ->
  Spec.or_default (lookup "audits" l) empty_dict = PDict audit_items ->
  Spec.audits_of (PDict data) = audit_items.
Proof.
  unfold Spec.lighthouse_of, Spec.audits_of, Spec.or_default.
  cbn [Spec.path Spec.field].
  intros Ht Hl Ha. destruct (lookup "lighthouseResult" data) as [lr|].
  - subst lr. cbn [Spec.field]. destruct (lookup "audits" l) as [a|].
    + now subst a.
    + now injection Ha.
  - injection Hl as <-. discriminate Ht.
Qed.

Lemma audits_of_empty (data : list (string * pyval)) :
  truthy (Spec.lighthouse_of data) = false -> Spec.audits_of (PDict data) = [].
Proof.
  unfold Spec.lighthouse_of, Spec.audits_of, Spec.or_default.
  cbn [Spec.path Spec.field].
  destruct (lookup "lighthouseResult" data) as [lr|]; [|reflexivity].
  destruct lr as [| | | | | |d]; try reflexivity.
  destruct d; [reflexivity | discriminate].
Qed.

(* ----------------------------------------------------------------- *)
(** *** Opportunities *)

Lemma truthy_non_empty (v : pyval) (es : list pyval) :
  iter v = Ok es -> truthy v = Spec.non_empty (Some v).
Proof.
  destruct v as [| | | |s|l|d]; simpl; intros H; try discriminate H.
  - now destruct s.
  - now destruct l.
  - now destruct d.
Qed.

(** The test of the source agrees with the specification's on every audit
    whose items, when the test passes, can be enumerated. *)
Lemma is_opportunity_spec (audit_d : list (string * pyval))
      (details : pyval) (q : bool) :
  details = Spec.or_default (lookup "details" audit_d) empty_dict ->
  is_opportunity details = Ok q ->
  (q = true ->
   exists es, (its <- get details "items" empty_list ;; iter its) = Ok es) ->
  Spec.qualifies (PDict audit_d) = q.
Proof.
  intros Hd H Hiter. unfold is_opportunity in H.
  bind_inv H as ty Hty.
  apply get_ok in Hty. destruct Hty as (dd & Edd & ->).
  assert (Hq : Spec.qualifies (PDict audit_d) =
               match Spec.field details "type" with
               | Some (PStr ty) =>
                   String.eqb ty "opportunity" &&
                   (Spec.positive (Spec.field details "overallSavingsMs") ||
                    Spec.non_empty (Spec.field details "items"))
               | _ => false
               end).
  { unfold Spec.qualifies. simpl Spec.field. rewrite Hd.
    destruct (lookup "details" audit_d); reflexivity. }
  rewrite Hq. clear Hq Hd. subst details. simpl Spec.field. simpl get in *.
  destruct (lookup "type" dd) as [ty|]; simpl in H;
    [|injection H as <-; reflexivity].
  destruct ty as [| | | |ty| |]; simpl in H; try (injection H as <-; reflexivity).
  destruct (String.eqb ty "opportunity"); simpl;
    [|injection H as <-; reflexivity].
  bind_inv H as pos Hpos.
  assert (Hp : Spec.positive (lookup "overallSavingsMs" dd) = pos).
  { destruct (lookup "overallSavingsMs" dd) as [sv|]; simpl in *.
    - destruct sv; simpl in *; try discriminate Hpos; now injection Hpos.
    - now injection Hpos. }
  rewrite Hp. destruct pos; cbn [andb orb].
  - now injection H.
  - injection H as <-.
    destruct (lookup "items" dd) as [its|] eqn:Ei; [|reflexivity].
    destruct (truthy its) eqn:Et.
    + destruct (Hiter eq_refl) as (es & Hes). cbn [bind] in Hes.
      rewrite <- (truthy_non_empty _ _ Hes). exact Et.
    + destruct its as [| | | |s|l|d]; try reflexivity.
      * now destruct s.
      * now destruct l.
      * now destruct d.
Qed.

Lemma opportunity_step (entry : string * pyval) (s s' : list pyval) :
  opportunity entry s = Ok s' ->
  (Spec.qualifies (snd entry) = true /\
   exists o, Spec.opportunity_of entry o /\ s' = append s o) \/
  (Spec.qualifies (snd entry) = false /\ s' = s).
Proof.
  destruct entry as [audit_id audit]. unfold opportunity. simpl snd. intros H.
  bind_inv H as details Hdet.
  apply get_ok in Hdet. destruct Hdet as (ad & -> & Hdet).
  bind_inv H as q Hq.
  destruct q.
  - left. bind_inv H as o Ho. injection H as <-.
    unfold opportunity_dict in Ho.
    bind_inv Ho as t Ht. bind_inv Ho as d Hd. bind_inv Ho as sv Hsv.
    bind_inv Ho as its Hits. bind_inv Ho as es Hes. bind_inv Ho as lines Hlines.
    injection Ho as <-.
    split.
    + apply is_opportunity_spec with details; try assumption.
      intros _. exists es. rewrite Hits. exact Hes.
    + eexists. split; [|reflexivity].
      exists lines. simpl in *.
      injection Ht as <-. injection Hd as <-. injection Hsv as <-.
      reflexivity.
  - right. injection H as <-. split; [|reflexivity].
    apply is_opportunity_spec with details; try assumption.
    intros Hq'; discriminate Hq'.
Qed.

(* ----------------------------------------------------------------- *)
(** *** Diagnostics *)

Lemma field_some (v : pyval) (k : string) (x : pyval) :
  Spec.field v k = Some x -> exists d, v = PDict d /\ lookup k d = Some x.
Proof.
  destruct v; simpl; intros H; try discriminate H.
  eexists; split; [reflexivity | exact H].
Qed.

Lemma lookup_some_truthy (k : string) (d : list (string * pyval)) (x : pyval) :
  lookup k d = Some x -> truthy (PDict d) = true.
Proof. destruct d; [discriminate | reflexivity]. Qed.

Lemma resource_line_step (item : pyval) (s s' : list string) :
  resource_line item s = Ok s' ->
  (Spec.allowed_resource item = true /\
   exists line, Spec.resource_line_of item line /\ s' = append s line) \/
  (Spec.allowed_resource item = false /\ s' = s).
Proof.
  unfold resource_line. intros H.
  bind_inv H as ty Hty. apply get_ok in Hty. destruct Hty as (d & -> & ->).
  assert (Ha : Spec.allowed_resource (PDict d) =
               in_strs (match lookup "resourceType" d with
                        | Some y => y | None => PNone end) resource_types).
  { unfold Spec.allowed_resource. cbn [Spec.field].
    destruct (lookup "resourceType" d) as [[| | | |ty| |]|]; reflexivity. }
  rewrite Ha.
  destruct (in_strs _ resource_types).
  - left. split; [reflexivity|].
    bind_inv H as ts Hts. bind_inv H as kb Hkb.
    bind_inv H as label Hlabel. bind_inv H as rc Hrc. injection H as <-.
    cbn [get] in *. injection Hts as <-. injection Hlabel as <-.
    injection Hrc as <-.
    eexists. split; [|reflexivity].
    exists kb. split; [exact Hkb | reflexivity].
  - right. now injection H.
Qed.

Lemma resource_summary_ok (a r d : list (string * pyval))
      (items : list pyval) (rs : list (string * pyval)) :
  lookup "resource-summary" a = Some (PDict r) ->
  lookup "details" r = Some (PDict d) ->
  lookup "items" d = Some (PList items) ->
  resource_summary (PDict a) = Ok rs ->
  (items = [] /\ rs = []) \/
  (items <> [] /\
   exists lines, for_each items [] resource_line = Ok lines /\
                 rs = [("resource_summary", PStr (String.concat newline lines))]).
Proof.
  intros Hr Hd Hi. unfold resource_summary. cbn [get bind]. rewrite Hr.
  rewrite (lookup_some_truthy _ _ _ Hd). cbn [get bind getitem].
  rewrite Hd. cbn [get bind getitem]. rewrite Hi. cbn [truthy iter bind].
  destruct items as [|x items]; intros H.
  - left. split; [reflexivity | now injection H].
  - right. split; [discriminate|].
    bind_inv H as lines Hl. exists lines. split; [exact Hl | now injection H].
Qed.

Lemma critical_request_chains_keys (audits : pyval)
      (crc : list (string * pyval)) :
  critical_request_chains audits = Ok crc ->
  lookup "resource_summary" crc = None.
Proof.
  unfold critical_request_chains. intros H.
  bind_inv H as a Ha. bind_inv H as hd Hhd.
  destruct hd; [|now injection H as <-].
  bind_inv H as det Hdet. bind_inv H as lc Hlc.
  destruct (truthy lc); [|now injection H as <-].
  bind_inv H as len Hlen. bind_inv H as dur Hdur. bind_inv H as ms Hms.
  now injection H as <-.
Qed.

Lemma newlines_app (a b : string) :
  Spec.newlines (a ++ b) = (Spec.newlines a + Spec.newlines b)%nat.
Proof.
  induction a as [|c a IH]; simpl; [reflexivity|]. rewrite IH. lia.
Qed.

(** Joining plain lines with newlines gives a text of as many lines. *)
Lemma line_count_concat (lines : list string) :
  Forall Spec.plain_line lines ->
  Spec.line_count (String.concat newline lines) = List.length lines.
Proof.
  intros H.
  assert (Hn : lines <> [] ->
               String.concat newline lines <> "" /\
               S (Spec.newlines (String.concat newline lines))
               = List.length lines).
  { induction H as [|x l [Hx Hx0] Hl IH]; [congruence|]. intros _.
    destruct l as [|y l].
    - simpl. split; [exact Hx | now rewrite Hx0].
    - destruct IH as (IH1 & IH2); [discriminate|].
      change (String.concat newline (x :: y :: l))
        with (x ++ newline ++ String.concat newline (y :: l)).
      split.
      + destruct x; [congruence | discriminate].
      + rewrite !newlines_app, Hx0. simpl Spec.newlines at 1.
        simpl List.length in *. lia. }
  destruct lines as [|x l]; [reflexivity|].
  destruct Hn as (Hne & Hc); [discriminate|].
  unfold Spec.line_count.
  destruct (String.concat newline (x :: l)); [congruence|].
  exact Hc.
Qed.

Lemma path_cons (v : pyval) (k : string) (ks : list string) (x : pyval) :
  Spec.path v (k :: ks) = Some x ->
  exists d y, v = PDict d /\ lookup k d = Some y /\ Spec.path y ks = Some x.
Proof.
  cbn [Spec.path]. destruct (Spec.field v k) as [y|] eqn:E; [|discriminate].
  intros H. destruct (field_some _ _ _ E) as (d & -> & Hd).
  now exists d, y.
Qed.

Lemma resource_line_nonempty (item : pyval) (line : string) :
  Spec.resource_line_of item line -> line <> "".
Proof. intros (kb & _ & ->). discriminate. Qed.

Lemma resource_lines_plain (items : list pyval) (lines : list string) :
  Forall2 Spec.resource_line_of items lines ->
  Forall (fun line => Spec.newlines line = O) lines ->
  Forall Spec.plain_line lines.
Proof.
  induction 1 as [|x y xs ys Hxy Hys IH]; intros Hplain; [constructor|].
  inversion Hplain; subst. constructor; [|now apply IH].
  split; [now apply resource_line_nonempty with x | assumption].
Qed.
(* ----------------------------------------------------------------- *)
(** *** Reports of the schema *)

Lemma lookup_forallb (p : string * pyval -> bool) (a : list (string * pyval))
      (k : string) (v : pyval) :
  forallb p a = true -> lookup k a = Some v -> p (k, v) = true.
Proof.
  induction a as [|[k' x] a IH]; cbn [forallb lookup]; [discriminate|].
  intros H. apply andb_prop in H. destruct H as (Hx & Ha).
  destruct (String.eqb k k') eqn:E.
  - apply String.eqb_eq in E. subst k'. intros Hv. now injection Hv as <-.
  - now apply IH.
Qed.

Lemma performance_summary_total (l : list (string * pyval)) :
  Schema.optional Schema.categories (lookup "categories" l) = true ->
  exists summary, performance_summary (PDict l) = Ok summary.
Proof.
  unfold performance_summary. cbn [get bind].
  destruct (lookup "categories" l) as [c|]; cbn [Schema.optional].
  - destruct c as [| | | | | |c]; try discriminate.
    cbn [Schema.categories Schema.object_with get bind].
    destruct (lookup "performance" c) as [p|]; cbn [Schema.optional].
    + destruct p as [| | | | | |p]; try discriminate.
      cbn [Schema.object_with get bind getitem].
      destruct (lookup "score" p) as [s|]; cbn [Schema.optional bind is_none].
      * destruct s; cbn; try discriminate; intros _; now eexists.
      * intros _. now eexists.
    + intros _. now eexists.
  - intros _. now eexists.
Qed.

Lemma core_metric_total (a : list (string * pyval)) (metric_id : string)
      (metrics : list pyval) :
  forallb Schema.audit a = true ->
  exists metrics', core_metric (PDict a) metric_id metrics = Ok metrics'.
Proof.
  intros Ha. unfold core_metric. cbn [get bind].
  destruct (lookup metric_id a) as [v|] eqn:E; [|now eexists].
  pose proof (lookup_forallb _ _ _ _ Ha E) as Hv.
  unfold Schema.audit in Hv. cbn [snd] in Hv.
  destruct v as [| | | | | |d]; try discriminate Hv.
  destruct (truthy (PDict d)); now eexists.
Qed.

Lemma opportunity_item_total (audit_id : string) (item : pyval)
      (lines : list string) :
  Schema.item_of audit_id item = true ->
  exists lines', opportunity_item audit_id item lines = Ok lines'.
Proof.
  unfold Schema.item_of, opportunity_item.
  destruct (String.eqb audit_id "bootup-time").
  - destruct item as [| | | | | |d]; try discriminate.
    cbn [Schema.bootup_item Schema.object_with get bind].
    destruct (lookup "total" d) as [t|]; [|discriminate].
    cbn [Schema.required]. unfold Schema.printable.
    destruct (format_0f t); [|discriminate]. intros _. now eexists.
  - destruct (String.eqb audit_id "image-delivery-insight"); [|now eexists].
    destruct item as [| | | | | |d]; try discriminate.
    cbn [Schema.image_item Schema.object_with get bind getitem].
    destruct (lookup "subItems" d) as [s|]; [|now eexists].
    cbn [Schema.optional]. unfold Schema.sub_items.
    destruct (truthy s); cbn [negb orb bind]; [|now eexists].
    destruct s as [| | | | | |s]; try discriminate.
    cbn [Schema.object_with getitem].
    destruct (lookup "items" s) as [l|]; [|discriminate].
    cbn [Schema.required bind].
    destruct l as [| | | | |[|[| | | | | |f] l]|]; try discriminate.
    intros _. now eexists.
Qed.

Lemma opportunity_total (entry : string * pyval) (opportunities : list pyval) :
  Schema.audit entry = true ->
  exists opportunities', opportunity entry opportunities = Ok opportunities'.
Proof.
  destruct entry as [audit_id audit]. unfold Schema.audit, opportunity.
  cbn [fst snd].
  destruct audit as [| | | | | |a]; try discriminate.
  cbn [Schema.object_with get bind].
  assert (Hd : forall details,
             Schema.details_of audit_id details = true ->
             exists r, (qualifies <- is_opportunity details ;;
                        (if qualifies
                         then o <- opportunity_dict audit_id (PDict a) details ;;
                              Ok (append opportunities o)
                         else Ok opportunities)) = Ok r).
  { intros details. destruct details as [| | | | | |d]; try discriminate.
    cbn [Schema.details_of Schema.object_with]. intros H.
    apply andb_prop in H. destruct H as (Hs & Hi).
    assert (Hdict : exists o, opportunity_dict audit_id (PDict a) (PDict d) = Ok o).
    { unfold opportunity_dict. cbn [get bind].
      destruct (lookup "items" d) as [its|]; cbn [Schema.optional] in Hi.
      - destruct its as [| | | | |l|]; try discriminate Hi.
        cbn [Schema.list_of iter bind] in *.
        destruct (for_each_total (fun item => Schema.item_of audit_id item = true)
                    (opportunity_item audit_id)
                    (fun x s Hx => opportunity_item_total audit_id x s Hx)
                    l []) as (lines & ->).
        + apply Forall_forall. intros x Hx.
          now apply (proj1 (forallb_forall _ _) Hi).
        + now eexists.
      - cbn [empty_list iter bind for_each]. now eexists. }
    destruct Hdict as (o & Ho).
    unfold is_opportunity. cbn [get bind].
    destruct (eq_str _ "opportunity"); [|now eexists].
    destruct (lookup "overallSavingsMs" d) as [sv|]; cbn [Schema.optional] in Hs.
    - destruct sv; try discriminate Hs; cbn [gt0 bind].
      + destruct b; cbn [bind]; [rewrite Ho; now eexists|].
        destruct (truthy _); [rewrite Ho|]; now eexists.
      + destruct (0 <? z); cbn [bind]; [rewrite Ho; now eexists|].
        destruct (truthy _); [rewrite Ho|]; now eexists.
      + destruct (PrimFloat.ltb 0 f); cbn [bind]; [rewrite Ho; now eexists|].
        destruct (truthy _); [rewrite Ho|]; now eexists.
    - cbn [gt0 bind Z.ltb Z.compare].
      destruct (truthy _); [rewrite Ho|]; now eexists. }
  destruct (lookup "details" a) as [details|]; cbn [Schema.optional]; intros H.
  - now apply Hd.
  - now apply Hd.
Qed.

Lemma critical_request_chains_total (a : list (string * pyval)) :
  Schema.optional Schema.chain_audit (lookup "critical-request-chains" a) = true ->
  exists crc, critical_request_chains (PDict a) = Ok crc.
Proof.
  unfold critical_request_chains. cbn [get bind].
  destruct (lookup "critical-request-chains" a) as [c|]; cbn [Schema.optional];
    [|intros _; now eexists].
  destruct c as [| | | | | |c]; try discriminate.
  cbn [Schema.chain_audit Schema.object_with].
  destruct (truthy (PDict c)); cbn [get bind getitem]; [|intros _; now eexists].
  destruct (lookup "details" c) as [d|]; cbn [Schema.optional truthy bind];
    [|intros _; now eexists].
  destruct (truthy d); cbn [negb orb bind]; [|intros _; now eexists].
  destruct d as [| | | | | |d]; try discriminate.
  cbn [Schema.object_with get bind].
  destruct (lookup "longestChain" d) as [lc|];
    cbn [Schema.optional truthy empty_dict]; [|intros _; now eexists].
  unfold Schema.longest_chain.
  destruct (truthy lc); cbn [negb orb]; [|intros _; now eexists].
  destruct lc as [| | | | | |lc]; try discriminate.
  cbn [Schema.object_with get bind].
  destruct (lookup "duration" lc) as [t|]; [|discriminate].
  cbn [Schema.required]. unfold Schema.printable.
  destruct (format_0f t); [|discriminate]. intros _. now eexists.
Qed.

Lemma resource_line_total (item : pyval) (summary_items : list string) :
  Schema.resource_item item = true ->
  exists summary_items', resource_line item summary_items = Ok summary_items'.
Proof.
  destruct item as [| | | | | |d]; try discriminate.
  unfold resource_line. cbn [Schema.resource_item Schema.object_with get bind].
  destruct (in_strs _ resource_types); [|intros _; now eexists].
  destruct (lookup "transferSize" d) as [t|]; cbn [Schema.optional].
  - unfold Schema.divisible. destruct (div1024 t); [|discriminate].
    intros _. now eexists.
  - intros _. now eexists.
Qed.

Lemma resource_summary_total (a : list (string * pyval)) :
  Schema.optional Schema.resource_audit (lookup "resource-summary" a) = true ->
  exists rs, resource_summary (PDict a) = Ok rs.
Proof.
  unfold resource_summary. cbn [get bind].
  destruct (lookup "resource-summary" a) as [r|]; cbn [Schema.optional];
    [|intros _; now eexists].
  destruct r as [| | | | | |r]; try discriminate.
  cbn [Schema.resource_audit Schema.object_with].
  destruct (truthy (PDict r)); cbn [get bind getitem]; [|intros _; now eexists].
  destruct (lookup "details" r) as [d|];
    cbn [Schema.optional empty_dict get bind lookup truthy];
    [|intros _; now eexists].
  destruct d as [| | | | | |d]; try discriminate.
  cbn [Schema.object_with get bind].
  destruct (lookup "items" d) as [its|] eqn:Ei; cbn [Schema.optional truthy bind];
    [|intros _; now eexists].
  destruct its as [| | | | |l|]; try discriminate.
  cbn [Schema.list_of]. intros Hl.
  destruct (truthy (PList l)); cbn [bind iter getitem]; [|now eexists].
  rewrite Ei. cbn [bind iter].
  destruct (for_each_total (fun item => Schema.resource_item item = true)
              resource_line
              (fun x s Hx => resource_line_total x s Hx) l []) as (lines & ->).
  - apply Forall_forall. intros x Hx. now apply (proj1 (forallb_forall _ _) Hl).
  - now eexists.
Qed.

(** On a report of the schema the Insight Extractor returns a digest. *)
Theorem extract_info_for_llm_total (report : pyval) :
  Schema.report report = true ->
  exists digest, extract_info_for_llm report = Ok digest.
Proof.
  destruct report as [| | | | | |data]; try discriminate.
  cbn [Schema.report Schema.object_with]. unfold extract_info_for_llm.
  cbn [get bind].
  destruct (lookup "lighthouseResult" data) as [lr|]; cbn [Schema.optional];
    [|intros _; now eexists].
  destruct lr as [| | | | | |l]; try discriminate.
  cbn [Schema.lighthouse_result Schema.object_with]. intros H.
  apply andb_prop in H. destruct H as (Hc & Ha).
  destruct (truthy (PDict l)); cbn [negb get bind]; [|now eexists].
  destruct (performance_summary_total l Hc) as (summary & ->). cbn [bind].
  assert (Haud : exists a,
             match lookup "audits" l with Some x => x | None => empty_dict end
             = PDict a /\
             forallb Schema.audit a = true /\
             Schema.optional Schema.chain_audit
               (lookup "critical-request-chains" a) = true /\
             Schema.optional Schema.resource_audit
               (lookup "resource-summary" a) = true).
  { destruct (lookup "audits" l) as [au|]; cbn [Schema.optional] in Ha.
    - destruct au as [| | | | | |a]; try discriminate Ha.
      cbn [Schema.audits Schema.object_with] in Ha.
      apply andb_prop in Ha. destruct Ha as (Ha & Hr).
      apply andb_prop in Ha. destruct Ha as (Ha & Hch).
      now exists a.
    - exists []. now repeat split. }
  destruct Haud as (a & -> & Hall & Hch & Hrs).
  destruct (for_each_total (fun _ => True) (core_metric (PDict a))
              (fun x s _ => core_metric_total a x s Hall) metric_ids [])
    as (metrics & ->).
  { apply Forall_forall. now intros. }
  cbn [bind items].
  destruct (for_each_total (fun entry => Schema.audit entry = true) opportunity
              (fun x s Hx => opportunity_total x s Hx) a []) as (opps & ->).
  { apply Forall_forall. intros x Hx. now apply (proj1 (forallb_forall _ _) Hall). }
  cbn [bind].
  destruct (critical_request_chains_total a Hch) as (crc & ->).
  destruct (resource_summary_total a Hrs) as (rs & ->).
  cbn [bind]. now eexists.
Qed.

(* ================================================================= *)
(** ** The Metric Extractor *)

Import Digest.

Lemma metrics_shape_audits (report : pyval) :
  Spec.metrics_shape report = true ->
  exists a,
    (lighthouse_result <- get report "lighthouseResult" empty_dict ;;
     get lighthouse_result "audits" empty_dict) = Ok (PDict a) /\
    (forall metric_id, Spec.metric_audit report metric_id = lookup metric_id a) /\
    forallb (fun metric_id => Spec.audit_shape (Spec.metric_audit report metric_id))
            metrics_to_extract = true.
Proof.
  destruct report as [| | | | | |d]; try discriminate.
  unfold Spec.metrics_shape, Spec.metric_audit.
  cbn [Spec.path Spec.field get bind].
  destruct (lookup "lighthouseResult" d) as [lr|].
  - destruct lr as [| | | | | |l]; try discriminate.
    cbn [Spec.field get bind Spec.absent_or_object andb].
    destruct (lookup "audits" l) as [au|].
    + destruct au as [| | | | | |a]; try discriminate.
      cbn [Spec.absent_or_object andb Spec.field]. intros H.
      exists a. repeat split; [|exact H].
      intros id. now destruct (lookup id a).
    + intros _. exists []. repeat split.
  - intros _. exists []. repeat split.
Qed.

Lemma key_metric_ok (report : pyval) (a : list (string * pyval))
      (metric_id : string) (s : list Metric) :
  Spec.metric_audit report metric_id = lookup metric_id a ->
  Spec.audit_shape (Spec.metric_audit report metric_id) = true ->
  key_metric (PDict a) metric_id s
  = Ok (append s (Spec.display_metric report metric_id)).
Proof.
  intros Hm Hs. unfold key_metric, Spec.display_metric. rewrite Hm in *.
  cbn [get bind]. destruct (lookup metric_id a) as [x|].
  - destruct x as [| | | | | |x]; try discriminate Hs.
    cbn [Spec.audit_shape] in Hs. apply andb_prop in Hs. destruct Hs as (Ht & Hv).
    cbn [get bind Spec.or_default Spec.field].
    destruct (lookup "title" x) as [[| | | |t| |]|]; try discriminate Ht;
      destruct (lookup "displayValue" x) as [[| | | |v| |]|];
      try discriminate Hv; reflexivity.
  - reflexivity.
Qed.

Lemma key_metrics_loop (report : pyval) (a : list (string * pyval))
      (ids : list string) :
  (forall metric_id, Spec.metric_audit report metric_id = lookup metric_id a) ->
  forallb (fun metric_id => Spec.audit_shape (Spec.metric_audit report metric_id))
          ids = true ->
  forall s, for_each ids s (key_metric (PDict a))
            = Ok (s ++ map (Spec.display_metric report) ids)%list.
Proof.
  intros Hm. induction ids as [|x ids IH]; cbn [forallb for_each map]; intros H s.
  - now rewrite app_nil_r.
  - apply andb_prop in H. destruct H as (Hx & Hids).
    rewrite (key_metric_ok report a x s (Hm x) Hx). cbn [bind].
    rewrite (IH Hids). unfold append. now rewrite <- app_assoc.
Qed.

(** On a report of the expected shape the Metric Extractor returns the six
    display metrics. *)
Lemma key_metrics_of_shape (report : pyval) :
  Spec.metrics_shape report = true ->
  extract_key_metrics report
  = Ok (map (Spec.display_metric report) Spec.six_metric_ids).
Proof.
  intros H. destruct (metrics_shape_audits report H) as (a & Ha & Hm & Hs).
  unfold extract_key_metrics.
  transitivity
    (audits <- (lighthouse_result <- get report "lighthouseResult" empty_dict ;;
                get lighthouse_result "audits" empty_dict) ;;
     for_each metrics_to_extract [] (key_metric audits)).
  - destruct (get report "lighthouseResult" empty_dict); reflexivity.
  - rewrite Ha. cbn [bind]. now rewrite (key_metrics_loop report a _ Hm Hs).
Qed.

(** Whatever the input, what the Metric Extractor returns has six entries. *)
Lemma extract_key_metrics_length (report : pyval) (ms : list Metric) :
  extract_key_metrics report = Ok ms -> List.length ms = 6%nat.
Proof.
  unfold extract_key_metrics. intros H.
  bind_inv H as lr Hlr. bind_inv H as audits Ha.
  unfold metrics_to_extract in H. cbn [for_each] in H.
  repeat (let m := fresh "m" in let Hm := fresh "Hm" in
          apply bind_ok in H; destruct H as (m & Hm & H);
          unfold key_metric in Hm;
          repeat (let x := fresh "x" in let Hx := fresh "Hx" in
                  apply bind_ok in Hm; destruct Hm as (x & Hx & Hm));
          injection Hm as <-).
  injection H as <-. reflexivity.
Qed.

(* ================================================================= *)
(** ** The Digest Formatter *)

Lemma extends_refl {A : Type} (s : list A) : extends s s.
Proof. exists []. now rewrite app_nil_r. Qed.

Lemma extends_trans {A : Type} (a b c : list A) :
  extends a b -> extends b c -> extends a c.
Proof. intros (x & ->) (y & ->). exists (x ++ y)%list. now rewrite app_assoc. Qed.

Lemma extends_append {A : Type} (s : list A) (x : A) : extends s (append s x).
Proof. now exists [x]. Qed.

Lemma for_each_extends {A B : Type} (body : A -> list B -> result (list B)) :
  (forall x s s', body x s = Ok s' -> extends s s') ->
  forall l s s', for_each l s body = Ok s' -> extends s s'.
Proof.
  intros Hb l. induction l as [|x l IH]; cbn [for_each]; intros s s' H.
  - injection H as <-. apply extends_refl.
  - bind_inv H as s1 H1. eapply extends_trans; [exact (Hb _ _ _ H1) | eauto].
Qed.

Lemma metric_line_extends (m : pyval) (s s' : list pyval) :
  metric_line m s = Ok s' -> extends s s'.
Proof.
  unfold metric_line. intros H. bind_inv H as t Ht. bind_inv H as v Hv.
  injection H as <-. apply extends_append.
Qed.

Lemma opportunity_lines_extends (o : pyval) (s s' : list pyval) :
  opportunity_lines o s = Ok s' -> extends s s'.
Proof.
  unfold opportunity_lines. intros H. bind_inv H as t Ht. bind_inv H as v Hv.
  bind_inv H as its Hits. bind_inv H as es Hes. injection H as <-.
  eapply extends_trans; [apply extends_append | now eexists].
Qed.

Lemma diagnostic_lines_extends (d : pyval) (s s' : list pyval) :
  diagnostic_lines d s = Ok s' -> extends s s'.
Proof.
  unfold diagnostic_lines. intros H. bind_inv H as c Hc. bind_inv H as s1 H1.
  assert (E1 : extends s s1).
  { destruct c.
    - bind_inv H1 as v Hv. injection H1 as <-. apply extends_append.
    - injection H1 as <-. apply extends_refl. }
  bind_inv H as r Hr. destruct r.
  - bind_inv H as v Hv. destruct v; try discriminate H. injection H as <-.
    eapply extends_trans; [exact E1 | apply extends_append].
  - now injection H as <-.
Qed.

Lemma string_app_empty (s : string) : s ++ "" = s.
Proof. induction s as [|c s IH]; simpl; [reflexivity | now rewrite IH]. Qed.

Lemma join_head (sep h : string) (rest : list pyval) (s : string) :
  join sep (PStr h :: rest) = Ok s -> exists tail, s = h ++ tail.
Proof.
  unfold join. cbn [map_result bind]. intros H.
  bind_inv H as parts Hp. bind_inv Hp as ys Hys. injection Hp as <-.
  injection H as <-. cbn [String.concat].
  destruct ys; [exists ""; now rewrite string_app_empty | eexists; reflexivity].
Qed.

Lemma format_for_llm_header (digest : pyval) (url s : string) :
  truthy digest = true ->
  format_for_llm digest url = Ok s ->
  exists tail, s = Spec.report_header url ++ tail.
Proof.
  intros Ht. unfold format_for_llm. rewrite Ht. cbn [negb].
  fold (Spec.report_header url). intros H.
  bind_inv H as summary Hsum. bind_inv H as score Hscore.
  bind_inv H as l1 H1.
  assert (E1 : extends [PStr (Spec.report_header url)] l1).
  { destruct (is_none score).
    - injection H1 as <-. apply extends_refl.
    - bind_inv H1 as x Hx. injection H1 as <-. apply extends_append. }
  bind_inv H as metrics Hm. bind_inv H as ml Hml. bind_inv H as l2 H2.
  apply (for_each_extends _ metric_line_extends) in H2.
  bind_inv H as opps Ho. bind_inv H as l3 H3.
  assert (E3 : extends
                 (append l2 (PStr (newline ++
                                   "--- Top Opportunities for Improvement ---")))
                 l3).
  { destruct (truthy opps); cbn [negb] in H3.
    - bind_inv H3 as os Hos.
      now apply (for_each_extends _ opportunity_lines_extends) in H3.
    - injection H3 as <-. apply extends_append. }
  bind_inv H as diag Hd. bind_inv H as l4 H4.
  assert (E4 : extends (append l3 (PStr (newline ++ "--- Key Diagnostics ---"))) l4).
  { destruct (truthy diag); cbn [negb] in H4.
    - now apply diagnostic_lines_extends in H4.
    - injection H4 as <-. apply extends_append. }
  assert (E : extends [PStr (Spec.report_header url)] l4).
  { eapply extends_trans; [exact E1|].
    eapply extends_trans; [apply extends_append|].
    eapply extends_trans; [exact H2|].
    eapply extends_trans; [apply extends_append|].
    eapply extends_trans; [exact E3|].
    eapply extends_trans; [apply extends_append | exact E4]. }
  destruct E as (suffix & ->). cbn [app] in H.
  now apply join_head in H.
Qed.

Lemma for_each_invariant {A S : Type} (P : S -> Prop)
      (body : A -> S -> result S) :
  (forall x s s', body x s = Ok s' -> P s -> P s') ->
  forall l s s', for_each l s body = Ok s' -> P s -> P s'.
Proof.
  intros Hb l. induction l as [|x l IH]; cbn [for_each]; intros s s' H Hs.
  - now injection H as <-.
  - bind_inv H as s1 H1. eauto.
Qed.

Lemma for_each_total_with {A S : Type} (Q : A -> Prop) (P : S -> Prop)
      (body : A -> S -> result S) :
  (forall x s, Q x -> P s -> exists s', body x s = Ok s' /\ P s') ->
  forall l s, Forall Q l -> P s -> exists s', for_each l s body = Ok s' /\ P s'.
Proof.
  intros Hb l. induction l as [|x l IH]; cbn [for_each]; intros s Hl Hs.
  - now exists s.
  - inversion Hl as [|? ? Hx Hl']; subst.
    destruct (Hb x s Hx Hs) as (s1 & -> & Hs1). cbn [bind]. now apply IH.
Qed.

Lemma prompt_ok_append (url : string) (lines : list pyval) (s : string) :
  prompt_ok url lines -> prompt_ok url (append lines (PStr s)).
Proof.
  intros (Hs & He). split.
  - unfold append. apply Forall_app. split; [exact Hs|].
    constructor; [now exists s | constructor].
  - eapply extends_trans; [exact He | apply extends_append].
Qed.

Lemma prompt_ok_app (url : string) (lines more : list pyval) :
  prompt_ok url lines -> Forall is_str more -> prompt_ok url (lines ++ more).
Proof.
  intros (Hs & He) Hm. split.
  - apply Forall_app. now split.
  - eapply extends_trans; [exact He | now exists more].
Qed.

Lemma core_metric_entries (audits : pyval) (ids : list string)
      (ms : list pyval) :
  for_each ids [] (core_metric audits) = Ok ms -> Forall metric_entry ms.
Proof.
  intros H. apply (for_each_invariant (Forall metric_entry)) in H;
    [exact H | | constructor].
  intros id s s' Hb Hs. unfold core_metric in Hb.
  bind_inv Hb as a Ha. destruct (truthy a).
  - bind_inv Hb as t Ht. bind_inv Hb as v Hv. injection Hb as <-.
    unfold append. apply Forall_app. split; [exact Hs|].
    constructor; [now exists t, v | constructor].
  - now injection Hb as <-.
Qed.

Lemma opportunities_entries (audit_items : list (string * pyval))
      (opps : list pyval) :
  for_each audit_items [] opportunity = Ok opps -> Forall opportunity_entry opps.
Proof.
  intros H.
  destruct (for_each_filter_map _ _ _ opportunity_step _ _ _ H) as (ys & -> & Hys).
  cbn [app]. clear H. induction Hys as [|e o es os Ho _ IH]; [constructor|].
  constructor; [|exact IH].
  destruct Ho as (lines & ->). now repeat eexists.
Qed.

Lemma critical_request_chains_entries (audits : pyval)
      (crc : list (string * pyval)) :
  critical_request_chains audits = Ok crc -> diagnostic_entries crc.
Proof.
  unfold critical_request_chains. intros H.
  bind_inv H as a Ha. bind_inv H as hd Hhd.
  destruct hd; [|injection H as <-; constructor].
  bind_inv H as det Hdet. bind_inv H as lc Hlc.
  destruct (truthy lc); [|injection H as <-; constructor].
  bind_inv H as len Hlen. bind_inv H as dur Hdur. bind_inv H as ms Hms.
  injection H as <-. constructor; [|constructor]. now eexists.
Qed.

Lemma resource_summary_entries (audits : pyval) (rs : list (string * pyval)) :
  resource_summary audits = Ok rs -> diagnostic_entries rs.
Proof.
  unfold resource_summary. intros H.
  bind_inv H as a Ha. bind_inv H as hi Hhi.
  destruct hi; [|injection H as <-; constructor].
  bind_inv H as det Hdet. bind_inv H as its Hits. bind_inv H as es Hes.
  bind_inv H as lines Hl. injection H as <-.
  constructor; [|constructor]. now eexists.
Qed.

Lemma metric_line_total (url : string) (m : pyval) (lines : list pyval) :
  metric_entry m -> prompt_ok url lines ->
  exists lines', metric_line m lines = Ok lines' /\ prompt_ok url lines'.
Proof.
  intros (t & v & ->) Hl. eexists. split; [reflexivity|].
  now apply prompt_ok_append.
Qed.

Lemma iter_strs (lines : list string) :
  Forall is_str (map PStr lines).
Proof.
  induction lines; cbn [map]; constructor; [now eexists | assumption].
Qed.

Lemma opportunity_lines_total (url : string) (o : pyval) (lines : list pyval) :
  opportunity_entry o -> prompt_ok url lines ->
  exists lines', opportunity_lines o lines = Ok lines' /\ prompt_ok url lines'.
Proof.
  intros (t & d & s & ls & ->) Hl. eexists. split; [reflexivity|].
  apply prompt_ok_app; [now apply prompt_ok_append | apply iter_strs].
Qed.

Lemma lookup_entries (k : string) (d : list (string * pyval)) (v : pyval) :
  diagnostic_entries d -> lookup k d = Some v -> is_str v.
Proof.
  induction 1 as [|[k' x] d Hx _ IH]; cbn [lookup]; [discriminate|].
  destruct (String.eqb k k'); [|exact IH].
  intros E. injection E as <-. exact Hx.
Qed.

Lemma diagnostic_lines_total (url : string) (d : list (string * pyval))
      (lines : list pyval) :
  diagnostic_entries d -> prompt_ok url lines ->
  exists lines', diagnostic_lines (PDict d) lines = Ok lines' /\
                 prompt_ok url lines'.
Proof.
  intros Hd Hl. unfold diagnostic_lines. cbn [contains bind getitem].
  destruct (lookup "critical_request_chains" d) as [c|] eqn:Ec; cbn [bind];
    destruct (lookup "resource_summary" d) as [r|] eqn:Er; cbn [bind].
  - destruct (lookup_entries _ _ _ Hd Er) as (s & ->).
    eexists. split; [reflexivity|]. now repeat apply prompt_ok_append.
  - eexists. split; [reflexivity|]. now apply prompt_ok_append.
  - destruct (lookup_entries _ _ _ Hd Er) as (s & ->).
    eexists. split; [reflexivity|]. now apply prompt_ok_append.
  - now exists lines.
Qed.

Lemma join_strs (sep : string) (lines : list pyval) :
  Forall is_str lines -> exists s, join sep lines = Ok s.
Proof.
  unfold join. intros H.
  assert (E : exists parts,
             map_result (fun v => match v with
                                  | PStr s => Ok s
                                  | _ => Raise TypeError
                                  end) lines = Ok parts).
  { induction H as [|x l (s & ->) _ (parts & IH)]; cbn [map_result bind].
    - now eexists.
    - rewrite IH. now eexists. }
  destruct E as (parts & ->). now eexists.
Qed.

Lemma format_for_llm_total (url : string) (summary : list (string * pyval))
      (metrics opps : list pyval) (diagnostics : list (string * pyval)) :
  lookup "performance_score" summary = None ->
  Forall metric_entry metrics ->
  Forall opportunity_entry opps ->
  diagnostic_entries diagnostics ->
  exists tail,
    format_for_llm (full_digest summary metrics opps diagnostics) url
    = Ok (Spec.report_header url ++ tail).
Proof.
  intros Hs Hm Ho Hd.
  assert (E : exists s,
             format_for_llm (full_digest summary metrics opps diagnostics) url
             = Ok s).
  { unfold format_for_llm.
    replace (negb (truthy (full_digest summary metrics opps diagnostics)))
      with false by reflexivity.
    unfold full_digest.
    cbn [getitem get lookup String.eqb Ascii.eqb Bool.eqb bind].
    rewrite Hs. cbn [is_none bind]. fold (Spec.report_header url).
    change (iter (PList metrics)) with (Ok metrics). cbn [bind].
    assert (P0 : prompt_ok url [PStr (Spec.report_header url)]).
    { split; [constructor; [now eexists | constructor] | apply extends_refl]. }
    destruct (for_each_total_with _ _ _ (metric_line_total url) metrics
                (append [PStr (Spec.report_header url)]
                        (PStr (newline ++ "--- Core Metrics ---")))
                Hm (prompt_ok_append _ _ _ P0)) as (l2 & -> & P2).
    cbn [bind].
    assert (E3 : exists l3,
               (if negb (truthy (PList opps))
                then Ok (append
                           (append l2
                              (PStr (newline ++
                                     "--- Top Opportunities for Improvement ---")))
                           (PStr "No significant opportunities were identified."))
                else os <- iter (PList opps) ;;
                     for_each os
                       (append l2
                          (PStr (newline ++
                                 "--- Top Opportunities for Improvement ---")))
                       opportunity_lines) = Ok l3 /\ prompt_ok url l3).
    { destruct opps as [|o opps]; cbn [truthy negb iter bind].
      - eexists. split; [reflexivity|]. now repeat apply prompt_ok_append.
      - apply (for_each_total_with _ _ _ (opportunity_lines_total url));
          [exact Ho | now apply prompt_ok_append]. }
    destruct E3 as (l3 & -> & P3). cbn [bind].
    assert (E4 : exists l4,
               (if negb (truthy (PDict diagnostics))
                then Ok (append
                           (append l3 (PStr (newline ++ "--- Key Diagnostics ---")))
                           (PStr "No key diagnostics available."))
                else diagnostic_lines (PDict diagnostics)
                       (append l3 (PStr (newline ++ "--- Key Diagnostics ---"))))
               = Ok l4 /\ prompt_ok url l4).
    { destruct diagnostics as [|kv rest]; cbn [truthy negb].
      - eexists. split; [reflexivity|]. now repeat apply prompt_ok_append.
      - apply diagnostic_lines_total; [exact Hd | now apply prompt_ok_append]. }
    destruct E4 as (l4 & -> & P4). cbn [bind].
    apply join_strs. exact (proj1 P4). }
  destruct E as (s & E).
  assert (Ht : truthy (full_digest summary metrics opps diagnostics) = true)
    by reflexivity.
  destruct (format_for_llm_header _ _ _ Ht E) as (tail & ->).
  now exists tail.
Qed.

(** A [get] with the empty-dictionary default follows the path one field
    down: what is absent on the path is absent below the value read. *)
Lemma get_default_path (v : pyval) (k k' : string) (ks : list string) (x : pyval) :
  get v k empty_dict = Ok x ->
  Spec.path v (k :: k' :: ks) = None ->
  Spec.path x (k' :: ks) = None.
Proof.
  intros H. apply get_ok in H. destruct H as (d & -> & ->).
  cbn [Spec.path Spec.field]. destruct (lookup k d); [trivial | reflexivity].
Qed.

(** With no score on the path, the summary of the digest stays empty. *)
Lemma performance_summary_no_score (lr : pyval)
      (summary : list (string * pyval)) :
  Spec.path lr ["categories"; "performance"; "score"] = None ->
  performance_summary lr = Ok summary ->
  summary = [].
Proof.
  intros Hp H. unfold performance_summary in H.
  bind_inv H as cats Hc. bind_inv H as perf Hperf. bind_inv H as score Hs.
  apply (get_default_path _ _ _ _ _ Hc) in Hp.
  apply (get_default_path _ _ _ _ _ Hperf) in Hp.
  apply get_ok in Hs. destruct Hs as (p & -> & ->).
  cbn [Spec.path Spec.field] in Hp.
  destruct (lookup "score" p); [discriminate Hp|].
  cbn in H. now injection H.
Qed.

(** The digest of a report with no score: empty, or with an empty summary. *)
Lemma digest_without_score (data : list (string * pyval)) (digest : pyval) :
  Spec.path (PDict data)
    ["lighthouseResult"; "categories"; "performance"; "score"] = None ->
  extract_info_for_llm (PDict data) = Ok digest ->
  (truthy (Spec.lighthouse_of data) = false /\ digest = empty_dict) \/
  (truthy (Spec.lighthouse_of data) = true /\
   exists metrics opps diagnostics,
     digest = full_digest [] metrics opps diagnostics /\
     Forall metric_entry metrics /\
     Forall opportunity_entry opps /\
     diagnostic_entries diagnostics).
Proof.
  intros Hp H. apply extract_info_for_llm_ok in H.
  destruct H as [(Ht & ->) | (Ht & l & ai & sm & ms & opps & crc & rs &
                              Hl & _ & Hs & Hms & Hopps & Hcrc & Hrs & ->)].
  - now left.
  - right. split; [exact Ht|].
    assert (Hsm : sm = []).
    { apply performance_summary_no_score with (PDict l); [|exact Hs].
      unfold Spec.lighthouse_of, Spec.or_default in Hl.
      cbn [Spec.path Spec.field] in Hp |- *.
      destruct (lookup "lighthouseResult" data) as [lr|].
      - now subst lr.
      - injection Hl as <-. reflexivity. }
    subst sm. exists ms, opps, (crc ++ rs)%list. split; [reflexivity|].
    split; [exact (core_metric_entries _ _ _ Hms)|].
    split; [exact (opportunities_entries _ _ Hopps)|].
    apply Forall_app. split.
    + exact (critical_request_chains_entries _ _ Hcrc).
    + exact (resource_summary_entries _ _ Hrs).
Qed.

(** Such a digest always formats. *)
Lemma format_without_score (data : list (string * pyval)) (digest : pyval)
      (url : string) :
  Spec.path (PDict data)
    ["lighthouseResult"; "categories"; "performance"; "score"] = None ->
  extract_info_for_llm (PDict data) = Ok digest ->
  exists text, format_for_llm digest url = Ok text.
Proof.
  intros Hp H.
  destruct (digest_without_score _ _ Hp H)
    as [(_ & ->) | (_ & ms & opps & diag & -> & Hm & Ho & Hd)].
  - now eexists.
  - destruct (format_for_llm_total url [] ms opps diag eq_refl Hm Ho Hd)
      as (tail & ->).
    now eexists.
Qed.

(** A path that ends in nothing stays so when it is made longer. *)
Lemma path_none_longer (v : pyval) (ks : list string) (k : string) :
  Spec.path v ks = None -> Spec.path v (ks ++ [k]) = None.
Proof.
  revert v. induction ks as [|k' ks IH]; cbn [Spec.path app]; intros v H.
  - discriminate H.
  - destruct (Spec.field v k'); [now apply IH | reflexivity].
Qed.

(* ================================================================= *)
(** ** The handlers *)

Section Analyze.

Variable http_get : string -> Strategy -> HttpOutcome.
Variable chain_ainvoke : ChainInput -> result string.

(** A failure of the report provider comes before anything is stored. *)
Lemma analyze_website_provider_failure (request : AnalysisRequest)
      (w : World) (e : exn) :
  get_pagespeed_insights http_get (url request) (strategy request) = Raise e ->
  analyze_website http_get chain_ainvoke request w = (Raise e, w).
Proof.
  intros H. cbv beta delta [analyze_website bindA lift]. now rewrite H.
Qed.

(** A failure of the extractor comes after the report is stored and before
    the digest text is. *)
Lemma analyze_website_extraction_failure (request : AnalysisRequest)
      (w : World) (report : pyval) (e : exn) :
  get_pagespeed_insights http_get (url request) (strategy request) = Ok report ->
  extract_info_for_llm report = Raise e ->
  analyze_website http_get chain_ainvoke request w
  = (Raise e,
     {| app_state := {| full_report := Some report;
                        llm_summary := llm_summary (app_state w) |};
        llm_calls := llm_calls w |}).
Proof.
  intros Hr He.
  cbv beta iota zeta delta
      [analyze_website bindA lift set_full_report set_llm_summary
       get_initial_suggestion issue app_state llm_calls full_report llm_summary].
  now rewrite Hr, He.
Qed.

(** A failure of the language model comes after both are stored. *)
Lemma analyze_website_llm_failure (request : AnalysisRequest) (w : World)
      (report digest : pyval) (text : string) (e : exn) :
  get_pagespeed_insights http_get (url request) (strategy request) = Ok report ->
  extract_info_for_llm report = Ok digest ->
  format_for_llm digest (url request) = Ok text ->
  chain_ainvoke (suggestion_input text) = Raise e ->
  analyze_website http_get chain_ainvoke request w
  = (Raise e,
     {| app_state := {| full_report := Some report; llm_summary := Some text |};
        llm_calls := append (llm_calls w) (Ainvoke (suggestion_input text)) |}).
Proof.
  intros Hr Hd Ht He.
  cbv beta iota zeta delta
      [analyze_website bindA lift set_full_report set_llm_summary
       get_initial_suggestion issue app_state llm_calls full_report llm_summary].
  rewrite Hr, Hd, Ht. fold (suggestion_input text). now rewrite He.
Qed.

Lemma analyze_website_ok (request : AnalysisRequest) (w w' : World)
      (response : AnalysisResponse) :
  analyze_website http_get chain_ainvoke request w = (Ok response, w') ->
  exists report digest text suggestion,
    get_pagespeed_insights http_get (url request) (strategy request) = Ok report /\
    extract_info_for_llm report = Ok digest /\
    format_for_llm digest (url request) = Ok text /\
    chain_ainvoke (suggestion_input text) = Ok suggestion /\
    analysis_response report suggestion = Ok response /\
    w' = {| app_state := {| full_report := Some report;
                            llm_summary := Some text |};
            llm_calls := append (llm_calls w) (Ainvoke (suggestion_input text)) |}.
Proof.
  cbv beta iota zeta delta
      [analyze_website bindA lift set_full_report set_llm_summary
       get_initial_suggestion issue app_state llm_calls full_report llm_summary].
  destruct (get_pagespeed_insights http_get (url request) (strategy request))
    as [report|]; [|discriminate].
  destruct (extract_info_for_llm report) as [digest|] eqn:Ed; [|discriminate].
  destruct (format_for_llm digest (url request)) as [text|] eqn:Et;
    [|discriminate].
  fold (suggestion_input text).
  destruct (chain_ainvoke (suggestion_input text)) as [suggestion|] eqn:Es;
    [|discriminate].
  destruct (analysis_response report suggestion) as [r|] eqn:Er; [|discriminate].
  intros H. injection H as <- <-.
  exists report, digest, text, suggestion. now repeat split.
Qed.

End Analyze.

(** With no score on the path, the response's score is [int (0 * 100)]. *)
Lemma analysis_response_absent_score (report : pyval) (suggestion : string)
      (response : AnalysisResponse) :
  Spec.path report ["lighthouseResult"; "categories"; "performance"; "score"]
  = None ->
  analysis_response report suggestion = Ok response ->
  performance_score response = 0.
Proof.
  intros Hp H. unfold analysis_response in H.
  bind_inv H as lr Hlr. bind_inv H as cats Hc. bind_inv H as perf Hperf.
  bind_inv H as score Hs. bind_inv H as ps Hps. bind_inv H as ms Hms.
  bind_inv H as n Hn. injection H as <-. cbn [performance_score].
  apply (get_default_path _ _ _ _ _ Hlr) in Hp.
  apply (get_default_path _ _ _ _ _ Hc) in Hp.
  apply (get_default_path _ _ _ _ _ Hperf) in Hp.
  apply get_ok in Hs. destruct Hs as (d & -> & ->).
  cbn [Spec.path Spec.field] in Hp.
  destruct (lookup "score" d); [discriminate Hp|].
  cbn in Hps. injection Hps as <-. cbn in Hn. now injection Hn.
Qed.

(** The response built from a report of the schema with no score. *)
Lemma analysis_response_total (report : pyval) (suggestion : string) :
  Schema.report report = true ->
  Spec.metrics_shape report = true ->
  Spec.path report ["lighthouseResult"; "categories"; "performance"; "score"]
  = None ->
  analysis_response report suggestion
  = Ok {| performance_score := 0;
          metrics := map (Spec.display_metric report) Spec.six_metric_ids;
          initial_suggestion := suggestion |}.
Proof.
  intros Hs Hm Hp. unfold analysis_response.
  assert (E : (lighthouse_result <- get report "lighthouseResult" empty_dict ;;
               categories <- get lighthouse_result "categories" empty_dict ;;
               performance <- get categories "performance" empty_dict ;;
               get performance "score" (PInt 0)) = Ok (PInt 0)).
  { destruct report as [| | | | | |data]; try discriminate Hs.
    cbn [Schema.report Schema.object_with] in Hs.
    cbn [Spec.path Spec.field get bind] in *.
    destruct (lookup "lighthouseResult" data) as [lr|]; [|reflexivity].
    cbn [Schema.optional] in Hs.
    destruct lr as [| | | | | |l]; try discriminate Hs.
    cbn [Schema.lighthouse_result Schema.object_with] in Hs.
    apply andb_prop in Hs. destruct Hs as (Hc & _).
    cbn [Spec.field get bind] in *.
    destruct (lookup "categories" l) as [c|]; [|reflexivity].
    cbn [Schema.optional] in Hc.
    destruct c as [| | | | | |c]; try discriminate Hc.
    cbn [Schema.categories Schema.object_with Spec.field get bind] in *.
    destruct (lookup "performance" c) as [p|]; [|reflexivity].
    cbn [Schema.optional] in Hc.
    destruct p as [| | | | | |p]; try discriminate Hc.
    cbn [Schema.object_with Spec.field get bind] in *.
    destruct (lookup "score" p); [discriminate Hp | reflexivity]. }
  transitivity
    (score <- (lighthouse_result <- get report "lighthouseResult" empty_dict ;;
               categories <- get lighthouse_result "categories" empty_dict ;;
               performance <- get categories "performance" empty_dict ;;
               get performance "score" (PInt 0)) ;;
     performance_score <- mul100 score ;;
     key_metrics <- extract_key_metrics report ;;
     score_int <- int performance_score ;;
     Ok {| performance_score := score_int;
           metrics := key_metrics;
           initial_suggestion := suggestion |}).
  - destruct (get report "lighthouseResult" empty_dict) as [lr|]; [|reflexivity].
    cbn [bind]. destruct (get lr "categories" empty_dict) as [c|]; [|reflexivity].
    cbn [bind]. destruct (get c "performance" empty_dict); reflexivity.
  - rewrite E. cbn [bind mul100].
    rewrite (key_metrics_of_shape report Hm). reflexivity.
Qed.

Section AnalyzeTotal.

Variable http_get : string -> Strategy -> HttpOutcome.
Variable chain_ainvoke : ChainInput -> result string.

(** With both providers answering, analyze completes on a report of the
    schema that has no score. *)
Lemma analyze_website_without_score (request : AnalysisRequest) (w : World)
      (report : pyval) :
  get_pagespeed_insights http_get (url request) (strategy request) = Ok report ->
  Spec.path report ["lighthouseResult"; "categories"; "performance"; "score"]
  = None ->
  Schema.report report = true ->
  Spec.metrics_shape report = true ->
  (forall input, exists suggestion, chain_ainvoke input = Ok suggestion) ->
  exists response w',
    analyze_website http_get chain_ainvoke request w = (Ok response, w') /\
    performance_score response = 0 /\
    metrics response = map (Spec.display_metric report) Spec.six_metric_ids.
Proof.
  intros Hr Hp Hs Hm Hllm.
  destruct (extract_info_for_llm_total report Hs) as (digest & Hd).
  assert (Ht : exists text, format_for_llm digest (url request) = Ok text).
  { destruct report as [| | | | | |data]; try discriminate Hs.
    now apply format_without_score with data. }
  destruct Ht as (text & Ht).
  destruct (Hllm (suggestion_input text)) as (suggestion & Hsg).
  cbv beta iota zeta delta
      [analyze_website bindA lift set_full_report set_llm_summary
       get_initial_suggestion issue app_state llm_calls full_report llm_summary].
  rewrite Hr, Hd, Ht. fold (suggestion_input text). rewrite Hsg.
  rewrite (analysis_response_total report suggestion Hs Hm Hp).
  eexists. eexists. split; [reflexivity|]. split; reflexivity.
Qed.

End AnalyzeTotal.

Lemma to_langchain_map (history : list ChatMessage) (acc : list Message) :
  fold_left to_langchain history acc = (acc ++ map Spec.message_of history)%list.
Proof.
  revert acc. induction history as [|m h IH]; intros acc; cbn [fold_left map].
  - now rewrite app_nil_r.
  - rewrite IH. unfold to_langchain, Spec.message_of, append.
    destruct (role m); cbn [Role_eqb]; now rewrite <- app_assoc.
Qed.

Lemma message_of_role (h : list ChatMessage) :
  map Spec.message_role (map Spec.message_of h) = map role h.
Proof.
  induction h as [|m h IH]; cbn [map]; [reflexivity|]. rewrite IH.
  unfold Spec.message_of. now destruct (role m).
Qed.

Lemma message_of_text (h : list ChatMessage) :
  map Spec.message_text (map Spec.message_of h) = map content h.
Proof.
  induction h as [|m h IH]; cbn [map]; [reflexivity|]. rewrite IH.
  unfold Spec.message_of. now destruct (role m).
Qed.

(* ================================================================= *)
(** ** The claims *)

Import Scenario.

(* ----------------------------------------------------------------- *)
(** *** The scenarios, evaluated *)

Example extract_report_b : extract_info_for_llm report_b = Ok digest_b.
Proof. vm_compute. reflexivity. Qed.

Example reports_of_the_schema :
  Schema.report report_a = true /\
  Schema.report report_b = true /\
  Schema.report report_no_category = true /\
  Schema.report report_interactive = true /\
  Schema.report report_chain_without_duration = false /\
  Schema.report report_bootup_without_total = false /\
  Schema.report report_image_without_sub_items = false.
Proof. repeat split; vm_compute; reflexivity. Qed.

Example extract_report_no_category :
  extract_info_for_llm report_no_category = Ok digest_no_category.
Proof. vm_compute. reflexivity. Qed.

Example format_digest_no_category (url : string) :
  format_for_llm digest_no_category url = Ok (text_no_category url).
Proof. reflexivity. Qed.

(** End-to-end scenario A: one audit present, five defaulted, score 87. *)
Example analysis_response_report_a :
  analysis_response report_a "Hello!"
  = Ok {| performance_score := 87;
          metrics := [ {| title := "First Contentful Paint"; value := "1.2 s" |};
                       {| title := "Speed Index"; value := "N/A" |};
                       {| title := "Largest Contentful Paint"; value := "N/A" |};
                       {| title := "Interactive"; value := "N/A" |};
                       {| title := "Total Blocking Time"; value := "N/A" |};
                       {| title := "Cumulative Layout Shift"; value := "N/A" |} ];
          initial_suggestion := "Hello!" |}.
Proof. vm_compute. reflexivity. Qed.

(* ----------------------------------------------------------------- *)
(** *** C1 *)

(** C1.  The claim: on a dictionary the Insight Extractor treats every
    structurally missing field as absent and never raises, and it raises a
    type error exactly on the inputs that are not dictionaries.  The code
    departs from it: each report below is a dictionary in which one field
    is missing (the [duration] of the longest request chain, the [total] of
    a boot-up item, the [items] of an image's sub-items), and the extractor
    raises on it, a [TypeError] in the first two cases. *)
Theorem C1_missing_field_raises :
  extract_info_for_llm report_chain_without_duration = Raise TypeError /\
  extract_info_for_llm report_bootup_without_total = Raise TypeError /\
  extract_info_for_llm report_image_without_sub_items = Raise KeyError.
Proof. repeat split; vm_compute; reflexivity. Qed.

(** The half of C1 that the code keeps: an input that is not a dictionary
    raises a type error. *)
Lemma extract_info_for_llm_not_dict (v : pyval) :
  (forall d, v <> PDict d) -> extract_info_for_llm v = Raise TypeError.
Proof.
  intros H. destruct v; try reflexivity. now destruct (H d).
Qed.

(* ----------------------------------------------------------------- *)
(** *** C2 *)

(** C2.  The claim: the core-metric list of the Insight Extractor holds six
    distinct ids, "interactive" among them, and a report's digest gets a
    core-metric entry for each of the six whose audit exists.  The code
    departs from it: the list has five elements, the last of which is the
    two ids "speed-index" and "interactive" run together, so neither of them
    is in the list and a report with both audits gets no core metric. *)
Theorem C2_metric_ids_run_together :
  metric_ids = [ "largest-contentful-paint"; "total-blocking-time";
                 "cumulative-layout-shift"; "first-contentful-paint";
                 "speed-indexinteractive" ] /\
  List.length metric_ids = 5%nat /\
  ~ In "interactive" metric_ids /\
  ~ In "speed-index" metric_ids /\
  Spec.path report_interactive ["lighthouseResult"; "audits"; "interactive"]
  <> None /\
  exists digest,
    extract_info_for_llm report_interactive = Ok digest /\
    Spec.field digest "metrics" = Some (PList []).
Proof.
  split; [reflexivity|]. split; [reflexivity|].
  split; [|split; [|split]].
  - cbn. intros [H|[H|[H|[H|[H|[]]]]]]; discriminate H.
  - cbn. intros [H|[H|[H|[H|[H|[]]]]]]; discriminate H.
  - discriminate.
  - eexists. split; vm_compute; reflexivity.
Qed.

(* ----------------------------------------------------------------- *)
(** *** C3 *)

(** C3, as the specification has it, fails: the language model is down, the
    analyze operation fails, and the session state that held an earlier
    report and digest now holds the new ones. *)
Lemma C3_counterexample :
  fst (analyze_website (http_returns report_a) llm_unavailable request_a analysed)
  = Raise (ProviderError "service unavailable") /\
  app_state (snd (analyze_website (http_returns report_a) llm_unavailable
                    request_a analysed))
  <> app_state analysed.
Proof. split; [vm_compute; reflexivity | vm_compute; discriminate]. Qed.

(** When the extractor fails, the two fields belong to different reports. *)
Example analyze_website_half_written :
  analyze_website (http_returns report_bootup_without_total) llm_answers
    request_a analysed
  = (Raise TypeError,
     {| app_state := {| full_report := Some report_bootup_without_total;
                        llm_summary := llm_summary (app_state analysed) |};
        llm_calls := [] |}).
Proof. vm_compute. reflexivity. Qed.

(** C3, amended.  When the analyze operation fails in the call to the
    Performance Report Provider, the session state ([full_report] and
    [llm_summary]) remains at its previous value; when analyze completes,
    both fields have been overwritten, with the new report and with the
    text of its digest. *)
Theorem C3_session_state
        (http_get : string -> Strategy -> HttpOutcome)
        (chain_ainvoke : ChainInput -> result string)
        (request : AnalysisRequest) (w : World) :
  (forall e,
     get_pagespeed_insights http_get (url request) (strategy request) = Raise e ->
     analyze_website http_get chain_ainvoke request w = (Raise e, w)) /\
  (forall response w',
     analyze_website http_get chain_ainvoke request w = (Ok response, w') ->
     exists report digest text,
       get_pagespeed_insights http_get (url request) (strategy request)
       = Ok report /\
       extract_info_for_llm report = Ok digest /\
       format_for_llm digest (url request) = Ok text /\
       app_state w' = {| full_report := Some report;
                         llm_summary := Some text |}).
Proof.
  split.
  - intros e. apply analyze_website_provider_failure.
  - intros response w' H. apply analyze_website_ok in H.
    destruct H as (report & digest & text & suggestion &
                   Hr & Hd & Ht & _ & _ & ->).
    now exists report, digest, text.
Qed.

Lemma C3_session_state_witness :
  analyze_website http_unreachable llm_answers request_a analysed
  = (Raise (HTTPException 500
              "Network error while calling PageSpeed API: connection refused"),
     analysed) /\
  exists report digest text,
    get_pagespeed_insights (http_returns report_a) (url request_a)
      (strategy request_a) = Ok report /\
    extract_info_for_llm report = Ok digest /\
    format_for_llm digest (url request_a) = Ok text /\
    app_state (snd (analyze_website (http_returns report_a) llm_answers
                      request_a analysed))
    = {| full_report := Some report; llm_summary := Some text |}.
Proof.
  split.
  - apply (proj1 (C3_session_state http_unreachable llm_answers request_a
                    analysed)).
    vm_compute. reflexivity.
  - eapply (proj2 (C3_session_state (http_returns report_a) llm_answers
                     request_a analysed)).
    vm_compute. reflexivity.
Defined.

(* ----------------------------------------------------------------- *)
(** *** C4 *)

(** C4, as the specification has it, fails: the report below has a
    [lighthouseResult] and no performance category; its digest has no
    overall score, and the formatter renders the full layout for it, url
    included, and not the fixed text. *)
Lemma C4_counterexample :
  Spec.path report_no_category ["lighthouseResult"; "categories"; "performance"]
  = None /\
  extract_info_for_llm report_no_category = Ok digest_no_category /\
  Spec.overall_score digest_no_category = None /\
  format_for_llm digest_no_category "https://a.example"
  = Ok (text_no_category "https://a.example") /\
  format_for_llm digest_no_category "https://a.example" <> Ok no_data_text /\
  format_for_llm digest_no_category "https://a.example"
  <> format_for_llm digest_no_category "https://b.example".
Proof.
  repeat split; try (vm_compute; reflexivity); vm_compute; discriminate.
Qed.

(** C4, amended.  For every report with no performance category: the
    Insight Extractor returns a digest when the report is of the schema it
    relies on, the empty digest when [lighthouseResult] is missing or
    empty, and whenever it returns a digest the overall score is absent
    from it; the Digest Formatter returns exactly "No performance data
    could be extracted.", whatever the url, for the empty digest, and for
    the digest of a report with a [lighthouseResult] it returns a text that
    starts with the header line carrying the url. *)
Theorem C4_no_performance_category (data : list (string * pyval)) :
  Spec.path (PDict data) ["lighthouseResult"; "categories"; "performance"]
  = None ->
  (Schema.report (PDict data) = true ->
   exists digest, extract_info_for_llm (PDict data) = Ok digest) /\
  (truthy (Spec.lighthouse_of data) = false ->
   extract_info_for_llm (PDict data) = Ok empty_dict) /\
  (forall digest,
     extract_info_for_llm (PDict data) = Ok digest ->
     Spec.overall_score digest = None /\
     (truthy (Spec.lighthouse_of data) = false ->
      forall url, format_for_llm digest url = Ok no_data_text) /\
     (truthy (Spec.lighthouse_of data) = true ->
      forall url, exists tail,
        format_for_llm digest url = Ok (Spec.report_header url ++ tail))).
Proof.
  intros Hp. pose proof (path_none_longer _ _ "score" Hp) as Hps.
  cbn [app] in Hps.
  split; [apply extract_info_for_llm_total|]. split.
  - intros Ht. unfold extract_info_for_llm. cbn [get bind].
    change (match lookup "lighthouseResult" data with
            | Some x => x | None => empty_dict end)
      with (Spec.lighthouse_of data).
    now rewrite Ht.
  - intros digest H.
    destruct (digest_without_score _ _ Hps H)
      as [(Ht & ->) | (Ht & ms & opps & diag & -> & Hm & Ho & Hd)].
    + split; [reflexivity|]. split; [reflexivity|]. rewrite Ht. discriminate.
    + split; [reflexivity|]. split; [rewrite Ht; discriminate|].
      intros _ url. now apply format_for_llm_total.
Qed.

Lemma C4_no_performance_category_witness :
  Spec.path (PDict data_empty_result)
    ["lighthouseResult"; "categories"; "performance"] = None /\
  (exists digest, extract_info_for_llm (PDict data_no_category) = Ok digest) /\
  extract_info_for_llm (PDict data_empty_result) = Ok empty_dict /\
  Spec.overall_score empty_dict = None /\
  (forall url, format_for_llm empty_dict url = Ok no_data_text) /\
  Spec.overall_score digest_no_category = None /\
  (forall url, exists tail,
     format_for_llm digest_no_category url
     = Ok (Spec.report_header url ++ tail)).
Proof.
  assert (He : Spec.path (PDict data_empty_result)
                 ["lighthouseResult"; "categories"; "performance"] = None)
    by reflexivity.
  assert (Hn : Spec.path (PDict data_no_category)
                 ["lighthouseResult"; "categories"; "performance"] = None)
    by reflexivity.
  destruct (C4_no_performance_category data_empty_result He) as (_ & E1 & E2).
  destruct (C4_no_performance_category data_no_category Hn) as (N1 & _ & N2).
  specialize (E1 eq_refl). specialize (N1 eq_refl).
  destruct (E2 empty_dict E1) as (E3 & E4 & _).
  destruct (N2 digest_no_category extract_report_no_category) as (N3 & _ & N4).
  exact (conj He (conj N1 (conj E1 (conj E3 (conj (E4 eq_refl)
           (conj N3 (N4 eq_refl))))))).
Defined.

(* ----------------------------------------------------------------- *)
(** *** C5 *)

(** C5.  For every report, the opportunities of the digest are, in the
    report's order, the audits whose [details.type] equals "opportunity" and
    whose [details.overallSavingsMs] is above zero or whose [details.items]
    is non-empty, each with its title, description and display value: an
    audit is included if and only if it qualifies.  In particular an
    opportunity audit with [overallSavingsMs = 0] and an empty [items] does
    not qualify, and one with [overallSavingsMs = 1] does.  (The extractor
    returns a digest for every report of the schema.) *)
Theorem C5_opportunities (data : list (string * pyval)) :
  (Schema.report (PDict data) = true ->
   exists digest, extract_info_for_llm (PDict data) = Ok digest) /\
  (forall digest,
     extract_info_for_llm (PDict data) = Ok digest ->
     Forall2 Spec.opportunity_of
             (filter (fun entry => Spec.qualifies (snd entry))
                     (Spec.audits_of (PDict data)))
             (Spec.opportunities digest)) /\
  (forall audit,
     Spec.path audit ["details"; "type"] = Some (PStr "opportunity") ->
     Spec.path audit ["details"; "overallSavingsMs"] = Some (PInt 0) ->
     Spec.path audit ["details"; "items"] = Some (PList []) ->
     Spec.qualifies audit = false) /\
  (forall audit,
     Spec.path audit ["details"; "type"] = Some (PStr "opportunity") ->
     Spec.path audit ["details"; "overallSavingsMs"] = Some (PInt 1) ->
     Spec.qualifies audit = true).
Proof.
  split; [apply extract_info_for_llm_total|]. split; [|split].
  - intros digest H. apply extract_info_for_llm_ok in H.
    destruct H as [(Ht & ->) | (Ht & l & ai & sm & ms & opps & crc & rs &
                                Hl & Ha & _ & _ & Ho & _ & _ & ->)].
    + rewrite (audits_of_empty _ Ht). constructor.
    + rewrite (audits_of_report _ _ _ Ht Hl Ha).
      change (Spec.opportunities _) with opps.
      destruct (for_each_filter_map _ _ _ opportunity_step _ _ _ Ho)
        as (ys & -> & Hys).
      exact Hys.
  - intros audit. unfold Spec.qualifies. cbn [Spec.path].
    destruct (Spec.field audit "details") as [details|]; [|discriminate].
    destruct (Spec.field details "type") as [ty|]; [|discriminate].
    intros Ety. injection Ety as ->.
    destruct (Spec.field details "overallSavingsMs") as [sv|]; [|discriminate].
    intros Esv. injection Esv as ->.
    destruct (Spec.field details "items") as [its|]; [|discriminate].
    intros Eits. injection Eits as ->. reflexivity.
  - intros audit. unfold Spec.qualifies. cbn [Spec.path].
    destruct (Spec.field audit "details") as [details|]; [|discriminate].
    destruct (Spec.field details "type") as [ty|]; [|discriminate].
    intros Ety. injection Ety as ->.
    destruct (Spec.field details "overallSavingsMs") as [sv|]; [|discriminate].
    intros Esv. injection Esv as ->. reflexivity.
Qed.

Lemma C5_opportunities_witness :
  Schema.report (PDict data_b) = true /\
  extract_info_for_llm (PDict data_b) = Ok digest_b /\
  Forall2 Spec.opportunity_of
          (filter (fun entry => Spec.qualifies (snd entry))
                  (Spec.audits_of (PDict data_b)))
          (Spec.opportunities digest_b) /\
  map fst (filter (fun entry => Spec.qualifies (snd entry))
                  (Spec.audits_of (PDict data_b)))
  = ["bootup-time"; "render-blocking-resources"].
Proof.
  split; [vm_compute; reflexivity|].
  split; [exact extract_report_b|]. split.
  - exact (proj1 (proj2 (C5_opportunities data_b)) digest_b extract_report_b).
  - vm_compute. reflexivity.
Defined.

(* ----------------------------------------------------------------- *)
(** *** C6 *)

(** C6, as the specification has it, fails: each report below is an object,
    and the Metric Extractor raises on it: the [lighthouseResult] is null,
    the title of an audit is null, the display value of an audit is a
    number. *)
Lemma C6_counterexample :
  extract_key_metrics Cases.report_null_result = Raise AttributeError /\
  extract_key_metrics Cases.report_null_title = Raise ValidationError /\
  extract_key_metrics Cases.report_numeric_value = Raise ValidationError.
Proof. repeat split; vm_compute; reflexivity. Qed.

(** C6, amended.  For every report that is an object in which
    [lighthouseResult], [audits] and the audits of the six metrics are each
    an object or missing, and the [title] and [displayValue] of these
    audits are each a string or missing, the Metric Extractor does not
    raise and returns exactly six entries, for first-contentful-paint,
    speed-index, largest-contentful-paint, interactive, total-blocking-time
    and cumulative-layout-shift in this order; the entry of an absent audit
    has the value "N/A" and, as its title, the id with hyphens replaced by
    spaces and each word capitalized.  On any input at all, what the
    extractor returns has six entries. *)
Theorem C6_key_metrics (report : pyval) :
  (Spec.metrics_shape report = true ->
   extract_key_metrics report
   = Ok (map (Spec.display_metric report) Spec.six_metric_ids)) /\
  (forall ms, extract_key_metrics report = Ok ms -> List.length ms = 6%nat) /\
  (forall metric_id,
     Spec.metric_audit report metric_id = None ->
     Spec.display_metric report metric_id
     = {| title := humanized metric_id; value := "N/A" |}) /\
  map humanized Spec.six_metric_ids
  = [ "First Contentful Paint"; "Speed Index"; "Largest Contentful Paint";
      "Interactive"; "Total Blocking Time"; "Cumulative Layout Shift" ].
Proof.
  split; [|split; [|split; [|reflexivity]]].
  - apply key_metrics_of_shape.
  - apply extract_key_metrics_length.
  - intros id Hid. unfold Spec.display_metric. now rewrite Hid.
Qed.

Lemma C6_key_metrics_witness :
  Spec.metrics_shape report_a = true /\
  extract_key_metrics report_a
  = Ok (map (Spec.display_metric report_a) Spec.six_metric_ids) /\
  map (Spec.display_metric report_a) Spec.six_metric_ids
  = [ {| title := "First Contentful Paint"; value := "1.2 s" |};
      {| title := "Speed Index"; value := "N/A" |};
      {| title := "Largest Contentful Paint"; value := "N/A" |};
      {| title := "Interactive"; value := "N/A" |};
      {| title := "Total Blocking Time"; value := "N/A" |};
      {| title := "Cumulative Layout Shift"; value := "N/A" |} ].
Proof.
  assert (H : Spec.metrics_shape report_a = true) by reflexivity.
  split; [exact H|]. split.
  - exact (proj1 (C6_key_metrics report_a) H).
  - vm_compute. reflexivity.
Defined.

(* ----------------------------------------------------------------- *)
(** *** C7 *)

(** C7.  For every chat request whose history has at least one element
    (and a session that holds a digest text), the query passed to the model
    is the content of the last element, and the history passed to the model
    is all the elements but the last, each converted to the model's message
    representation with its role and content, in the same order; this is
    the one call the handler issues. *)
Theorem C7_chat_history_and_query
        (chain_astream : ChainInput -> list string)
        (request : ChatRequest) (w : World) :
  history request <> [] ->
  no_summary (app_state w) = false ->
  exists (earlier : list ChatMessage) (last_turn : ChatMessage)
         (summary : string) (input : ChainInput),
    history request = (earlier ++ [last_turn])%list /\
    llm_summary (app_state w) = Some summary /\
    input_query input = content last_turn /\
    input_history input = map Spec.message_of earlier /\
    map Spec.message_role (input_history input) = map role earlier /\
    map Spec.message_text (input_history input) = map content earlier /\
    input_report_summary input = summary /\
    chat_with_llm chain_astream request w
    = (Ok {| body := chain_astream input; media_type := "text/event-stream" |},
       {| app_state := app_state w;
          llm_calls := (llm_calls w ++ [Astream input])%list |}).
Proof.
  intros Hne Hs.
  destruct (exists_last Hne) as (earlier & last_turn & Hh).
  assert (Hsum : exists summary, llm_summary (app_state w) = Some summary).
  { unfold no_summary in Hs. destruct (llm_summary (app_state w)) as [t|];
      [now exists t | discriminate Hs]. }
  destruct Hsum as (summary & Hsum).
  exists earlier, last_turn, summary,
    {| input_history := map Spec.message_of earlier;
       input_query := content last_turn;
       input_report_summary := summary |}.
  cbn [input_query input_history input_report_summary].
  rewrite message_of_role, message_of_text.
  repeat split; try assumption.
  cbv beta iota zeta delta [chat_with_llm bindA get_state get_llm_stream issue ret].
  rewrite Hs, Hsum, Hh.
  rewrite removelast_last, last_last, to_langchain_map.
  cbn [app app_state llm_calls]. unfold append.
  destruct (earlier ++ [last_turn])%list eqn:E; [|reflexivity].
  now destruct earlier.
Qed.

Lemma C7_chat_history_and_query_witness :
  history chat_three <> [] /\
  no_summary (app_state analysed) = false /\
  exists (earlier : list ChatMessage) (last_turn : ChatMessage)
         (summary : string) (input : ChainInput),
    history chat_three = (earlier ++ [last_turn])%list /\
    llm_summary (app_state analysed) = Some summary /\
    input_query input = content last_turn /\
    input_history input = map Spec.message_of earlier /\
    map Spec.message_role (input_history input) = map role earlier /\
    map Spec.message_text (input_history input) = map content earlier /\
    input_report_summary input = summary /\
    chat_with_llm llm_streams chat_three analysed
    = (Ok {| body := llm_streams input; media_type := "text/event-stream" |},
       {| app_state := app_state analysed;
          llm_calls := (llm_calls analysed ++ [Astream input])%list |}).
Proof.
  assert (Hh : history chat_three <> []) by discriminate.
  assert (Hs : no_summary (app_state analysed) = false) by reflexivity.
  split; [exact Hh|]. split; [exact Hs|].
  exact (C7_chat_history_and_query llm_streams chat_three analysed Hh Hs).
Defined.

(** The streaming scenario of the specification: one turn, "hi". *)
Example chat_hi_call :
  llm_calls (snd (chat_with_llm llm_streams chat_hi analysed))
  = [Astream {| input_history := [];
                input_query := "hi";
                input_report_summary := "--- an earlier digest ---" |}].
Proof. reflexivity. Qed.

Example chat_three_call :
  llm_calls (snd (chat_with_llm llm_streams chat_three analysed))
  = [Astream {| input_history := [HumanMessage "hi"; AIMessage "Hello!"];
                input_query := "What is slow?";
                input_report_summary := "--- an earlier digest ---" |}].
Proof. reflexivity. Qed.

(* ----------------------------------------------------------------- *)
(** *** C8 *)

(** C8.  For every chat request issued while the session state holds no
    digest text ([llm_summary] is [None] or empty), the chat operation
    fails with the client-usage error (status 400, "analyze a website
    first"), leaves the process as it was and issues no call to the
    Language Model Provider. *)
Theorem C8_chat_requires_analysis
        (chain_astream : ChainInput -> list string)
        (request : ChatRequest) (w : World) :
  llm_summary (app_state w) = None \/ llm_summary (app_state w) = Some "" ->
  chat_with_llm chain_astream request w
  = (Raise (HTTPException 400
              "Please analyze a website first before starting a chat."), w) /\
  llm_calls (snd (chat_with_llm chain_astream request w)) = llm_calls w.
Proof.
  intros H.
  assert (Hs : no_summary (app_state w) = true).
  { unfold no_summary. now destruct H as [-> | ->]. }
  assert (Hc : chat_with_llm chain_astream request w = (Raise no_analysis_yet, w)).
  { cbv beta iota zeta delta [chat_with_llm bindA get_state raise]. now rewrite Hs. }
  rewrite Hc. split; reflexivity.
Qed.

Lemma C8_chat_requires_analysis_witness :
  llm_summary (app_state fresh) = None /\
  chat_with_llm llm_streams chat_hi fresh
  = (Raise (HTTPException 400
              "Please analyze a website first before starting a chat."), fresh) /\
  llm_calls (snd (chat_with_llm llm_streams chat_hi fresh)) = llm_calls fresh.
Proof.
  split; [reflexivity|].
  apply (C8_chat_requires_analysis llm_streams chat_hi fresh).
  left. reflexivity.
Defined.

(* ----------------------------------------------------------------- *)
(** *** C9 *)

(** C9, as the specification has it, fails: the resource summary below has
    one item, of an allowed type, whose label holds a newline; the label
    goes into the rendered line as it is, and the diagnostic of the digest
    has two lines. *)
Lemma C9_counterexample :
  Spec.resource_items (PDict Cases.data_two_lines)
  = Some (PList Cases.resource_items_two_lines) /\
  Schema.report (PDict Cases.data_two_lines) = true /\
  List.length (filter Spec.allowed_resource Cases.resource_items_two_lines)
  = 1%nat /\
  extract_info_for_llm (PDict Cases.data_two_lines)
  = Ok Cases.digest_two_lines /\
  Spec.resource_summary_lines Cases.digest_two_lines = 2%nat.
Proof. repeat split; vm_compute; reflexivity. Qed.

(** C9, amended.  For every report whose resource-summary audit has a
    [details.items] list, the resource-summary diagnostic of the digest is
    made of one rendered line per item whose [resourceType] is one of
    total, script, image, font and third-party, in the items' order, joined
    by newlines (no diagnostic for an empty list); the items of any other
    type contribute no rendered line.  The diagnostic has as many lines of
    text as there are such items when no rendered line itself holds a
    newline.  (The extractor returns a digest for every report of the
    schema.) *)
Theorem C9_resource_summary_lines
        (data : list (string * pyval)) (items : list pyval) :
  Spec.resource_items (PDict data) = Some (PList items) ->
  (Schema.report (PDict data) = true ->
   exists digest, extract_info_for_llm (PDict data) = Ok digest) /\
  (forall digest,
     extract_info_for_llm (PDict data) = Ok digest ->
     exists lines : list string,
       Forall2 Spec.resource_line_of
               (filter Spec.allowed_resource items) lines /\
       List.length lines = List.length (filter Spec.allowed_resource items) /\
       Spec.resource_summary_text digest
       = match items with
         | [] => None
         | _ => Some (PStr (String.concat newline lines))
         end /\
       (Forall (fun line => Spec.newlines line = O) lines ->
        Spec.resource_summary_lines digest
        = List.length (filter Spec.allowed_resource items))).
Proof.
  intros Hp. split; [apply extract_info_for_llm_total|].
  intros digest H. unfold Spec.resource_items in Hp.
  apply path_cons in Hp. destruct Hp as (d0 & lr & Hd0 & Hlr & Hp).
  injection Hd0 as <-.
  apply path_cons in Hp. destruct Hp as (l & au & -> & Hau & Hp).
  apply path_cons in Hp. destruct Hp as (a & rsa & -> & Hrsa & Hp).
  apply path_cons in Hp. destruct Hp as (r & det & -> & Hdet & Hp).
  apply path_cons in Hp. destruct Hp as (d & its & -> & Hits & Hp).
  injection Hp as ->.
  apply extract_info_for_llm_ok in H.
  unfold Spec.lighthouse_of in H. rewrite Hlr in H. cbn [Spec.or_default] in H.
  rewrite (lookup_some_truthy _ _ _ Hau) in H.
  destruct H as [(Ht & _) | (_ & l' & ai & sm & ms & opps & crc & rs &
                             Hl & Ha & _ & _ & _ & Hc & Hr & ->)];
    [discriminate Ht|].
  injection Hl as <-. rewrite Hau in Ha. cbn [Spec.or_default] in Ha.
  injection Ha as <-.
  assert (Htext : Spec.resource_summary_text
                    (PDict [("summary", PDict sm); ("metrics", PList ms);
                            ("opportunities", PList opps);
                            ("diagnostics", PDict (crc ++ rs)%list)])
                  = lookup "resource_summary" rs).
  { unfold Spec.resource_summary_text.
    cbn [Spec.path Spec.field lookup String.eqb Ascii.eqb Bool.eqb].
    rewrite lookup_app, (critical_request_chains_keys _ _ Hc).
    now destruct (lookup "resource_summary" rs). }
  unfold Spec.resource_summary_lines. rewrite Htext. clear Htext.
  destruct (resource_summary_ok _ _ _ _ _ Hrsa Hdet Hits Hr)
    as [(-> & ->) | (Hne & lines & Hl & ->)].
  - exists []. repeat split; constructor.
  - destruct (for_each_filter_map _ _ _ resource_line_step _ _ _ Hl)
      as (ys & -> & Hys).
    exists ys. cbn [app]. split; [exact Hys|].
    assert (Hlen : List.length ys
                   = List.length (filter Spec.allowed_resource items)).
    { symmetry. exact (Forall2_length Hys). }
    split; [exact Hlen|]. split.
    + destruct items; [congruence | reflexivity].
    + intros Hplain. cbn [lookup String.eqb Ascii.eqb Bool.eqb].
      rewrite <- Hlen. apply line_count_concat.
      now apply resource_lines_plain with (filter Spec.allowed_resource items).
Qed.

Lemma C9_resource_summary_lines_witness :
  Spec.resource_items (PDict data_b) = Some (PList resource_items_b) /\
  Schema.report (PDict data_b) = true /\
  extract_info_for_llm (PDict data_b) = Ok digest_b /\
  List.length (filter Spec.allowed_resource resource_items_b) = 2%nat /\
  Spec.resource_summary_lines digest_b
  = List.length (filter Spec.allowed_resource resource_items_b) /\
  exists lines : list string,
    Forall2 Spec.resource_line_of
            (filter Spec.allowed_resource resource_items_b) lines /\
    Forall (fun line => Spec.newlines line = O) lines /\
    List.length lines
    = List.length (filter Spec.allowed_resource resource_items_b) /\
    Spec.resource_summary_text digest_b
    = Some (PStr (String.concat newline lines)).
Proof.
  assert (Hp : Spec.resource_items (PDict data_b) = Some (PList resource_items_b))
    by reflexivity.
  split; [exact Hp|]. split; [vm_compute; reflexivity|].
  split; [exact extract_report_b|]. split; [reflexivity|].
  destruct (proj2 (C9_resource_summary_lines data_b resource_items_b Hp)
              digest_b extract_report_b)
    as (lines & HF & Hlen & Htext & Hcount).
  assert (Hplain : Forall (fun line => Spec.newlines line = O) lines).
  { change (filter Spec.allowed_resource resource_items_b)
      with [resource_item "total" "Total" 10 123456;
            resource_item "script" "Script" 4 51200] in HF.
    inversion HF as [|i1 l1 r1 t1 (k1 & D1 & E1) HF1]; subst.
    inversion HF1 as [|i2 l2 r2 t2 (k2 & D2 & E2) HF2]; subst.
    inversion HF2; subst.
    vm_compute in D1. injection D1 as <-.
    vm_compute in D2. injection D2 as <-.
    repeat constructor; vm_compute; reflexivity. }
  split; [exact (Hcount Hplain)|].
  exists lines. split; [exact HF|]. split; [exact Hplain|].
  split; [exact Hlen | exact Htext].
Defined.

Example resource_summary_lines_b :
  Spec.resource_summary_lines digest_b = 2%nat.
Proof. reflexivity. Qed.

(* ----------------------------------------------------------------- *)
(** *** C10 *)

(** C10.  For every report in which the performance category or its score
    is absent, a successful analyze operation returns a [performance_score]
    of 0: the score defaults to 0, is multiplied by 100 and converted to an
    integer.  (The operation does succeed when the report is of the schema,
    its metric audits have string titles and values, and the language model
    answers.) *)
Theorem C10_absent_score (http_get : string -> Strategy -> HttpOutcome)
        (chain_ainvoke : ChainInput -> result string)
        (request : AnalysisRequest) (w : World) (report : pyval) :
  get_pagespeed_insights http_get (url request) (strategy request) = Ok report ->
  Spec.path report ["lighthouseResult"; "categories"; "performance"; "score"]
  = None ->
  (forall response w',
     analyze_website http_get chain_ainvoke request w = (Ok response, w') ->
     performance_score response = 0) /\
  (Schema.report report = true ->
   Spec.metrics_shape report = true ->
   (forall input, exists suggestion, chain_ainvoke input = Ok suggestion) ->
   exists response w',
     analyze_website http_get chain_ainvoke request w = (Ok response, w') /\
     performance_score response = 0).
Proof.
  intros Hr Hp. split.
  - intros response w' H. apply analyze_website_ok in H.
    destruct H as (report' & digest & text & suggestion &
                   Hr' & _ & _ & _ & Ha & _).
    rewrite Hr in Hr'. injection Hr' as <-.
    now apply analysis_response_absent_score with report suggestion.
  - intros Hs Hm Hllm.
    destruct (analyze_website_without_score http_get chain_ainvoke request w
                report Hr Hp Hs Hm Hllm) as (response & w' & H & Hz & _).
    now exists response, w'.
Qed.

Lemma C10_absent_score_witness :
  get_pagespeed_insights (http_returns report_no_category) (url request_a)
    (strategy request_a) = Ok report_no_category /\
  Spec.path report_no_category
    ["lighthouseResult"; "categories"; "performance"; "score"] = None /\
  (exists response w',
     analyze_website (http_returns report_no_category) llm_answers
       request_a fresh = (Ok response, w') /\
     performance_score response = 0).
Proof.
  assert (Hr : get_pagespeed_insights (http_returns report_no_category)
                 (url request_a) (strategy request_a) = Ok report_no_category)
    by reflexivity.
  assert (Hp : Spec.path report_no_category
                 ["lighthouseResult"; "categories"; "performance"; "score"]
               = None) by reflexivity.
  split; [exact Hr|]. split; [exact Hp|].
  apply (proj2 (C10_absent_score (http_returns report_no_category) llm_answers
                  request_a fresh report_no_category Hr Hp)).
  - vm_compute. reflexivity.
  - vm_compute. reflexivity.
  - intros input. now eexists.
Defined.

(* ================================================================= *)
(** ** Further properties of the services *)

Import Session Detail Cases.

(* ----------------------------------------------------------------- *)
(** *** What the runtime fragment raises *)

Lemma get_raises (v : pyval) (k : string) (default : pyval) (e : exn) :
  get v k default = Raise e -> e = AttributeError.
Proof. destruct v; cbn [get]; intros H; now inversion H. Qed.



(** A container that holds a non-empty key is not empty. *)
Lemma contains_truthy (v : pyval) (k : string) :
  k <> "" -> contains v k = Ok true -> truthy v = true.
Proof.
  intros Hk. destruct v as [| | | |s|l|d]; cbn [contains truthy]; intros H;
    try discriminate H.
  - destruct s; [|reflexivity]. cbn in H. destruct k; [now destruct Hk|].
    cbn in H. discriminate H.
  - destruct l; [discriminate H | reflexivity].
  - destruct d; [discriminate H | reflexivity].
Qed.

(** What a loop raises is what one of its iterations raises. *)
Lemma for_each_raises {A S : Type} (P : exn -> Prop)
      (body : A -> S -> result S) :
  (forall x s e, body x s = Raise e -> P e) ->
  forall l s e, for_each l s body = Raise e -> P e.
Proof.
  intros Hb l. induction l as [|x l IH]; cbn [for_each]; intros s e H.
  - discriminate H.
  - destruct (body x s) as [s1|e1] eqn:E; cbn [bind] in H.
    + now apply IH with s1.
    + injection H as <-. now apply Hb with x s.
Qed.

(** A loop that completes has completed each of its iterations. *)
Lemma for_each_each {A S : Type} (body : A -> S -> result S) :
  forall l s s', for_each l s body = Ok s' ->
    Forall (fun x => exists s1 s2, body x s1 = Ok s2) l.
Proof.
  induction l as [|x l IH]; cbn [for_each]; intros s s' H; [constructor|].
  bind_inv H as s1 H1. constructor; [now exists s, s1 | now apply IH with s1 s'].
Qed.

(** A loop whose iterations append at most one element each. *)
Lemma for_each_length {A B : Type} (body : A -> list B -> result (list B)) :
  (forall x s s', body x s = Ok s' ->
     (List.length s' <= S (List.length s))%nat) ->
  forall l s s', for_each l s body = Ok s' ->
    (List.length s' <= List.length s + List.length l)%nat.
Proof.
  intros Hb l. induction l as [|x l IH]; cbn [for_each List.length];
    intros s s' H.
  - injection H as <-. lia.
  - bind_inv H as s1 H1. apply Hb in H1. apply IH in H. lia.
Qed.

(* ----------------------------------------------------------------- *)
(** *** The Metric Extractor: where it returns *)

Lemma key_metric_raises (audits : pyval) (metric_id : string)
      (s : list Metric) (e : exn) :
  key_metric audits metric_id s = Raise e ->
  e = AttributeError \/ e = ValidationError.
Proof.
  unfold key_metric. intros H.
  destruct (get audits metric_id empty_dict) as [md|e1] eqn:E1; cbn [bind] in H;
    [|injection H as <-; left; now apply get_raises in E1].
  destruct (get md "title" (PStr (humanized metric_id))) as [t|e2] eqn:E2;
    cbn [bind] in H; [|injection H as <-; left; now apply get_raises in E2].
  destruct (get md "displayValue" (PStr "N/A")) as [v|e3] eqn:E3;
    cbn [bind] in H; [|injection H as <-; left; now apply get_raises in E3].
  right. destruct t, v; cbn in H; now inversion H.
Qed.

Lemma extract_key_metrics_raises (report : pyval) (e : exn) :
  extract_key_metrics report = Raise e ->
  e = AttributeError \/ e = ValidationError.
Proof.
  unfold extract_key_metrics. intros H.
  destruct (get report "lighthouseResult" empty_dict) as [lr|e1] eqn:E1;
    cbn [bind] in H; [|injection H as <-; left; now apply get_raises in E1].
  destruct (get lr "audits" empty_dict) as [a|e2] eqn:E2;
    cbn [bind] in H; [|injection H as <-; left; now apply get_raises in E2].
  apply (for_each_raises (fun e => e = AttributeError \/ e = ValidationError))
    in H; [exact H|].
  intros x s e0. apply key_metric_raises.
Qed.

Lemma key_metric_shape (a : list (string * pyval)) (metric_id : string)
      (s s' : list Metric) :
  key_metric (PDict a) metric_id s = Ok s' ->
  Spec.audit_shape (lookup metric_id a) = true.
Proof.
  unfold key_metric. cbn [get bind]. intros H.
  destruct (lookup metric_id a) as [md|]; [|reflexivity].
  bind_inv H as t Ht. apply get_ok in Ht. destruct Ht as (d & -> & ->).
  cbn [get bind] in H. cbn [Spec.audit_shape].
  destruct (lookup "title" d) as [[| | | |t| |]|];
    destruct (lookup "displayValue" d) as [[| | | |v| |]|];
    cbn in H; try discriminate H; reflexivity.
Qed.

Lemma extract_key_metrics_shape (report : pyval) (ms : list Metric) :
  extract_key_metrics report = Ok ms -> Spec.metrics_shape report = true.
Proof.
  unfold extract_key_metrics. intros H.
  bind_inv H as lr Hlr. apply get_ok in Hlr. destruct Hlr as (d & -> & ->).
  bind_inv H as au Hau. apply get_ok in Hau. destruct Hau as (l & Hl & ->).
  apply for_each_each in H.
  assert (Hpath : forall metric_id,
             Spec.metric_audit (PDict d) metric_id
             = match match lookup "audits" l with
                     | Some y => y | None => empty_dict end with
               | PDict a => lookup metric_id a
               | _ => None
               end).
  { intros id. unfold Spec.metric_audit. cbn [Spec.path Spec.field].
    destruct (lookup "lighthouseResult" d) as [lr|].
    - subst lr. cbn [Spec.field].
      destruct (lookup "audits" l) as [a|]; [|reflexivity].
      destruct a; try reflexivity. cbn [Spec.field].
      now destruct (lookup id d0).
    - injection Hl as <-. reflexivity. }
  unfold Spec.metrics_shape. cbn [Spec.path Spec.field].
  apply andb_true_intro. split; [apply andb_true_intro; split|].
  - destruct (lookup "lighthouseResult" d); [now subst | reflexivity].
  - destruct (lookup "lighthouseResult" d) as [lr|]; [|reflexivity].
    subst lr. cbn [Spec.field].
    destruct (lookup "audits" l) as [a|]; [|reflexivity].
    destruct a; try reflexivity;
      inversion H as [|? ? (s1 & s2 & Hk) _]; discriminate Hk.
  - apply forallb_forall. intros id Hid.
    rewrite Forall_forall in H. destruct (H id Hid) as (s1 & s2 & Hk).
    rewrite Hpath.
    destruct (match lookup "audits" l with
              | Some y => y | None => empty_dict end) as [| | | | | |a];
      try discriminate Hk.
    now apply key_metric_shape in Hk.
Qed.

(** X1.  The Metric Extractor returns exactly on the reports that are an
    object in which [lighthouseResult], [audits] and the audits of the six
    metrics are objects or missing, and the [title] and [displayValue] of
    these audits are strings or missing; it then returns the six display
    metrics.  On every other input it raises [AttributeError] (a value
    that is not an object is asked for a field) or the model's
    [ValidationError] (a title or a value that is not a string). *)
Theorem extract_key_metrics_domain (report : pyval) :
  (Spec.metrics_shape report = true /\
   extract_key_metrics report
   = Ok (map (Spec.display_metric report) Spec.six_metric_ids)) \/
  (Spec.metrics_shape report = false /\
   (extract_key_metrics report = Raise AttributeError \/
    extract_key_metrics report = Raise ValidationError)).
Proof.
  destruct (extract_key_metrics report) as [ms|e] eqn:E.
  - left. pose proof (extract_key_metrics_shape _ _ E) as Hs.
    split; [exact Hs|]. rewrite <- E. now apply key_metrics_of_shape.
  - right. split.
    + destruct (Spec.metrics_shape report) eqn:Hs; [|reflexivity].
      rewrite (key_metrics_of_shape _ Hs) in E. discriminate E.
    + destruct (extract_key_metrics_raises _ _ E) as [-> | ->]; auto.
Qed.

(** A null title is not defaulted: the extractor raises on it. *)
Example extract_key_metrics_null_title :
  extract_key_metrics
    (PDict [("lighthouseResult",
             PDict [("audits",
                     PDict [("speed-index", PDict [("title", PNone)])])])])
  = Raise ValidationError.
Proof. vm_compute. reflexivity. Qed.

(* ----------------------------------------------------------------- *)
(** *** The Insight Extractor: the shape of a digest *)

Lemma core_metric_length (audits : pyval) (metric_id : string)
      (s s' : list pyval) :
  core_metric audits metric_id s = Ok s' ->
  (List.length s' <= S (List.length s))%nat.
Proof.
  unfold core_metric. intros H. bind_inv H as a Ha. destruct (truthy a).
  - bind_inv H as t Ht. bind_inv H as v Hv. injection H as <-.
    unfold append. rewrite length_app. cbn [List.length]. lia.
  - injection H as <-. lia.
Qed.

Lemma mul100_not_none (v x : pyval) : mul100 v = Ok x -> x <> PNone.
Proof. destruct v; cbn [mul100]; intros H; inversion H; discriminate. Qed.

Lemma performance_summary_shape (lr : pyval)
      (summary : list (string * pyval)) :
  performance_summary lr = Ok summary ->
  summary = [] \/
  exists score v, Spec.path lr ["categories"; "performance"; "score"] = Some score /\
                  mul100 score = Ok v /\
                  summary = [("performance_score", v)].
Proof.
  unfold performance_summary. intros H.
  bind_inv H as cats Hc. apply get_ok in Hc. destruct Hc as (l & -> & ->).
  bind_inv H as perf Hp. apply get_ok in Hp. destruct Hp as (c & Hc & ->).
  bind_inv H as score Hs. apply get_ok in Hs. destruct Hs as (p & Hp & ->).
  destruct (lookup "score" p) as [sc|] eqn:Esc; cbn [is_none] in H;
    [|injection H as <-; now left].
  destruct (is_none sc) eqn:En; [injection H as <-; now left|].
  right. rewrite Hp in H. cbn [getitem] in H. rewrite Esc in H. cbn [bind] in H.
  bind_inv H as v Hv. injection H as <-. exists sc, v.
  split; [|now split].
  cbn [Spec.path Spec.field].
  destruct (lookup "categories" l) as [cc|].
  - subst cc. cbn [Spec.field].
    destruct (lookup "performance" c) as [pp|].
    + subst pp. cbn [Spec.field]. now rewrite Esc.
    + injection Hp as <-. discriminate Esc.
  - injection Hc as <-. cbn [lookup] in Hp. injection Hp as <-.
    discriminate Esc.
Qed.

Lemma critical_request_chains_shape (audits : pyval)
      (crc : list (string * pyval)) :
  critical_request_chains audits = Ok crc ->
  crc = [] \/ exists s, crc = [("critical_request_chains", PStr s)].
Proof.
  unfold critical_request_chains. intros H.
  bind_inv H as a Ha. bind_inv H as hd Hhd.
  destruct hd; [|injection H as <-; now left].
  bind_inv H as det Hdet. bind_inv H as lc Hlc.
  destruct (truthy lc); [|injection H as <-; now left].
  bind_inv H as len Hlen. bind_inv H as dur Hdur. bind_inv H as ms Hms.
  injection H as <-. right. now eexists.
Qed.

Lemma resource_summary_shape (audits : pyval) (rs : list (string * pyval)) :
  resource_summary audits = Ok rs ->
  rs = [] \/ exists s, rs = [("resource_summary", PStr s)].
Proof.
  unfold resource_summary. intros H.
  bind_inv H as a Ha. bind_inv H as hi Hhi.
  destruct hi; [|injection H as <-; now left].
  bind_inv H as det Hdet. bind_inv H as its Hits. bind_inv H as es Hes.
  bind_inv H as lines Hl. injection H as <-. right. now eexists.
Qed.

(** X2.  Every digest the Insight Extractor returns is either the empty
    dictionary or a dictionary with exactly the keys [summary], [metrics],
    [opportunities] and [diagnostics], in this order, where: the summary is
    empty or holds one [performance_score], which is not [None]; each
    metric is a [{title, value}] pair and there are no more of them than
    ids in the extractor's list; each opportunity is a
    [{title, description, savings, items}] dictionary whose items are
    strings, and there are no more of them than audits in the report; the
    diagnostics hold at most a [critical_request_chains] string followed by
    at most a [resource_summary] string. *)
Theorem extract_info_for_llm_shape (data digest : pyval) :
  extract_info_for_llm data = Ok digest ->
  digest = empty_dict \/
  exists summary metrics opps crc rs,
    digest = PDict [("summary", PDict summary);
                    ("metrics", PList metrics);
                    ("opportunities", PList opps);
                    ("diagnostics", PDict (crc ++ rs)%list)] /\
    (summary = [] \/
     exists v, summary = [("performance_score", v)] /\ v <> PNone) /\
    Forall metric_entry metrics /\
    (List.length metrics <= List.length metric_ids)%nat /\
    Forall opportunity_entry opps /\
    (List.length opps <= List.length (Spec.audits_of data))%nat /\
    (crc = [] \/ exists s, crc = [("critical_request_chains", PStr s)]) /\
    (rs = [] \/ exists s, rs = [("resource_summary", PStr s)]).
Proof.
  intros H. destruct data as [| | | | | |data]; try discriminate H.
  pose proof H as H0. apply extract_info_for_llm_ok in H.
  destruct H as [(Ht & ->) | (Ht & l & ai & sm & ms & opps & crc & rs &
                              Hl & Ha & Hs & Hms & Hopps & Hcrc & Hrs & ->)];
    [now left|].
  right. exists sm, ms, opps, crc, rs. split; [reflexivity|].
  split.
  { destruct (performance_summary_shape _ _ Hs) as [-> | (sc & v & _ & Hv & ->)];
      [now left|].
    right. exists v. split; [reflexivity | now apply mul100_not_none in Hv]. }
  split; [exact (core_metric_entries _ _ _ Hms)|].
  split.
  { apply (for_each_length _ (core_metric_length (PDict ai))) in Hms.
    exact Hms. }
  split; [exact (opportunities_entries _ _ Hopps)|].
  split.
  { rewrite (audits_of_report _ _ _ Ht Hl Ha).
    destruct (for_each_filter_map _ _ _ opportunity_step _ _ _ Hopps)
      as (ys & -> & Hys).
    cbn [app]. rewrite <- (Forall2_length Hys). apply filter_length_le. }
  split; [exact (critical_request_chains_shape _ _ Hcrc)|].
  exact (resource_summary_shape _ _ Hrs).
Qed.

Lemma extract_info_for_llm_shape_witness :
  extract_info_for_llm report_b = Ok digest_b /\
  (digest_b = empty_dict \/
   exists summary metrics opps crc rs,
     digest_b = PDict [("summary", PDict summary);
                       ("metrics", PList metrics);
                       ("opportunities", PList opps);
                       ("diagnostics", PDict (crc ++ rs)%list)] /\
     (summary = [] \/
      exists v, summary = [("performance_score", v)] /\ v <> PNone) /\
     Forall metric_entry metrics /\
     (List.length metrics <= List.length metric_ids)%nat /\
     Forall opportunity_entry opps /\
     (List.length opps <= List.length (Spec.audits_of report_b))%nat /\
     (crc = [] \/ exists s, crc = [("critical_request_chains", PStr s)]) /\
     (rs = [] \/ exists s, rs = [("resource_summary", PStr s)])).
Proof.
  assert (H : extract_info_for_llm report_b = Ok digest_b)
    by (vm_compute; reflexivity).
  exact (conj H (extract_info_for_llm_shape report_b digest_b H)).
Defined.

(* ----------------------------------------------------------------- *)
(** *** The Insight Extractor: the item lines of an opportunity *)

Lemma opportunity_item_length (audit_id : string) (item : pyval)
      (lines lines' : list string) :
  opportunity_item audit_id item lines = Ok lines' ->
  (List.length lines' <= S (List.length lines))%nat /\
  (audit_id = "bootup-time" -> List.length lines' = S (List.length lines)) /\
  (audit_id <> "bootup-time" -> audit_id <> "image-delivery-insight" ->
   lines' = lines).
Proof.
  unfold opportunity_item. intros H.
  destruct (String.eqb_spec audit_id "bootup-time") as [E|E].
  - bind_inv H as u Hu. bind_inv H as t Ht. bind_inv H as c Hc.
    injection H as <-. unfold append. rewrite length_app. cbn [List.length].
    repeat split; try lia. intros N; now destruct N.
  - destruct (String.eqb_spec audit_id "image-delivery-insight") as [E'|E'].
    + bind_inv H as si Hsi. destruct (truthy si).
      * bind_inv H as sub Hsub. bind_inv H as sl Hsl. bind_inv H as f Hf.
        bind_inv H as r Hr. bind_inv H as u Hu. injection H as <-.
        unfold append. rewrite length_app. cbn [List.length].
        repeat split; try lia; intros; contradiction.
      * injection H as <-. repeat split; try lia; intros; contradiction.
    + injection H as <-. repeat split; try lia; intros; contradiction.
Qed.

Lemma opportunity_items_loop (audit_id : string) (elements : list pyval) :
  forall lines lines',
    for_each elements lines (opportunity_item audit_id) = Ok lines' ->
    (List.length lines' <= List.length lines + List.length elements)%nat /\
    (audit_id = "bootup-time" ->
     List.length lines' = (List.length lines + List.length elements)%nat) /\
    (audit_id <> "bootup-time" -> audit_id <> "image-delivery-insight" ->
     lines' = lines).
Proof.
  induction elements as [|x rest IH]; cbn [for_each List.length];
    intros lines lines' H.
  - injection H as <-. repeat split; lia.
  - bind_inv H as l1 H1. apply opportunity_item_length in H1.
    destruct H1 as (A1 & B1 & C1). apply IH in H.
    destruct H as (A2 & B2 & C2). repeat split.
    + lia.
    + intros E. rewrite (B2 E), (B1 E). lia.
    + intros N N'. rewrite (C2 N N'). now apply C1.
Qed.

(** An item that is not an object stops the rendering of the two audits
    whose items are rendered. *)
Lemma opportunity_item_object (audit_id : string) (item : pyval)
      (lines lines' : list string) :
  audit_id = "bootup-time" \/ audit_id = "image-delivery-insight" ->
  opportunity_item audit_id item lines = Ok lines' ->
  exists d, item = PDict d.
Proof.
  intros [-> | ->]; unfold opportunity_item; cbn [String.eqb Ascii.eqb Bool.eqb];
    intros H; bind_inv H as x Hx; apply get_ok in Hx;
    destruct Hx as (d & -> & _); now exists d.
Qed.

Lemma opportunity_dict_lines (audit_id : string) (audit_d : list (string * pyval))
      (details o : pyval) :
  details = Spec.or_default (lookup "details" audit_d) empty_dict ->
  opportunity_dict audit_id (PDict audit_d) details = Ok o ->
  lines_of (audit_id, PDict audit_d) o.
Proof.
  intros Hdet H. unfold opportunity_dict in H.
  bind_inv H as t Ht. bind_inv H as d Hd. bind_inv H as sv Hsv.
  bind_inv H as its Hits. bind_inv H as es Hes. bind_inv H as lines Hlines.
  injection H as <-.
  apply get_ok in Hits. destruct Hits as (dd & Edd & ->).
  assert (Hpath : Spec.path (PDict audit_d) ["details"; "items"]
                  = lookup "items" dd).
  { cbn [Spec.path Spec.field]. rewrite Edd in Hdet.
    destruct (lookup "details" audit_d) as [x|]; cbn [Spec.or_default] in Hdet.
    - subst x. cbn [Spec.field]. now destruct (lookup "items" dd).
    - injection Hdet as ->. reflexivity. }
  pose proof (opportunity_items_loop _ _ _ _ Hlines) as (A & B & C).
  cbn [List.length] in A, B.
  unfold lines_of, item_lines, items_of. cbn [fst snd].
  cbn [Spec.field lookup String.eqb Ascii.eqb Bool.eqb].
  rewrite Hpath, length_map.
  assert (Hes' : es = match lookup "items" dd with
                      | Some (PList l) => l
                      | _ => []
                      end \/
                 (audit_id <> "bootup-time" /\
                  audit_id <> "image-delivery-insight")).
  { destruct (String.eqb_spec audit_id "bootup-time") as [E|E];
      [|destruct (String.eqb_spec audit_id "image-delivery-insight") as [E'|E'];
        [|now right]];
      left.
    all: assert (Ho : audit_id = "bootup-time" \/
                      audit_id = "image-delivery-insight") by auto.
    all: destruct (lookup "items" dd) as [its|]; cbn [empty_list iter] in Hes;
      [|now injection Hes].
    all: destruct its as [| | | |s|l|d0]; cbn [iter] in Hes;
      try discriminate Hes; injection Hes as <-; try reflexivity.
    all: try (destruct s as [|c s]; [reflexivity|]; cbn [chars for_each] in Hlines;
              bind_inv Hlines as l1 H1;
              destruct (opportunity_item_object _ _ _ _ Ho H1) as (x & Hx);
              discriminate Hx).
    all: destruct d0 as [|kv d0]; [reflexivity|]; cbn [map for_each] in Hlines;
      bind_inv Hlines as l1 H1;
      destruct (opportunity_item_object _ _ _ _ Ho H1) as (x & Hx);
      discriminate Hx. }
  destruct Hes' as [<- | (N & N')].
  - repeat split; [lia | exact B |].
    intros N N'. now rewrite (C N N').
  - rewrite (C N N'). cbn [map List.length]. repeat split; try lia.
    intros E; now destruct N.
Qed.

Lemma opportunity_step_lines (entry : string * pyval) (s s' : list pyval) :
  opportunity entry s = Ok s' ->
  (Spec.qualifies (snd entry) = true /\
   exists o, lines_of entry o /\ s' = append s o) \/
  (Spec.qualifies (snd entry) = false /\ s' = s).
Proof.
  intros H. destruct (opportunity_step _ _ _ H) as [(Hq & o & _ & ->) | Hn];
    [|now right].
  left. split; [exact Hq|]. exists o. split; [|reflexivity].
  destruct entry as [audit_id audit]. unfold opportunity in H.
  bind_inv H as details Hdet.
  apply get_ok in Hdet. destruct Hdet as (ad & -> & Hdet).
  bind_inv H as q Hq'. destruct q.
  - bind_inv H as o' Ho. injection H as H. apply app_inj_tail in H.
    destruct H as (_ & <-). now apply opportunity_dict_lines with details.
  - injection H as H. exfalso.
    apply (f_equal (@List.length pyval)) in H. unfold append in H.
    rewrite length_app in H. cbn [List.length] in H. lia.
Qed.

(** X3.  In every digest the Insight Extractor returns, the opportunity of
    a qualifying audit carries at most one item line per item of the audit:
    exactly one per item for the "bootup-time" audit, and none at all for
    an audit other than "bootup-time" and "image-delivery-insight",
    whatever its items are. *)
Theorem opportunity_item_lines (data : list (string * pyval)) (digest : pyval) :
  extract_info_for_llm (PDict data) = Ok digest ->
  Forall2 lines_of
          (filter (fun entry => Spec.qualifies (snd entry))
                  (Spec.audits_of (PDict data)))
          (Spec.opportunities digest).
Proof.
  intros H. apply extract_info_for_llm_ok in H.
  destruct H as [(Ht & ->) | (Ht & l & ai & sm & ms & opps & crc & rs &
                              Hl & Ha & _ & _ & Ho & _ & _ & ->)].
  - rewrite (audits_of_empty _ Ht). constructor.
  - rewrite (audits_of_report _ _ _ Ht Hl Ha).
    change (Spec.opportunities _) with opps.
    destruct (for_each_filter_map _ _ _ opportunity_step_lines _ _ _ Ho)
      as (ys & -> & Hys).
    exact Hys.
Qed.

Lemma opportunity_item_lines_witness :
  extract_info_for_llm (PDict data_b) = Ok digest_b /\
  Forall2 lines_of
          (filter (fun entry => Spec.qualifies (snd entry))
                  (Spec.audits_of (PDict data_b)))
          (Spec.opportunities digest_b).
Proof.
  assert (H : extract_info_for_llm (PDict data_b) = Ok digest_b)
    by (vm_compute; reflexivity).
  exact (conj H (opportunity_item_lines data_b digest_b H)).
Defined.

(* ----------------------------------------------------------------- *)
(** *** The Insight Extractor: the request chain diagnostic *)

Lemma critical_request_chains_path (a : list (string * pyval))
      (crc : list (string * pyval)) :
  critical_request_chains (PDict a) = Ok crc ->
  match Spec.path (PDict a) ["critical-request-chains"; "details"; "longestChain"]
  with
  | Some chain =>
      if truthy chain then
        exists ms,
          format_0f (Spec.or_default (Spec.field chain "duration") PNone) = Ok ms /\
          crc = [("critical_request_chains",
                  PStr ("Longest chain: " ++
                        str (Spec.or_default (Spec.field chain "length") PNone) ++
                        " requests, taking " ++ ms ++ "ms."))]
      else crc = []
  | None => crc = []
  end.
Proof.
  unfold critical_request_chains. cbn [get bind Spec.path Spec.field]. intros H.
  destruct (lookup "critical-request-chains" a) as [ca|]; [|now injection H as <-].
  destruct (truthy ca) eqn:Tca.
  - bind_inv H as hd Hhd. bind_inv Hhd as d Hd. injection Hhd as <-.
    apply get_ok in Hd. destruct Hd as (cad & -> & ->). cbn [Spec.field].
    destruct (lookup "details" cad) as [det|] eqn:Edet;
      [|cbn in H; now injection H as <-].
    destruct (truthy det) eqn:Tdet.
    + cbn [getitem] in H. rewrite Edet in H. cbn [bind] in H.
      bind_inv H as lc Hlc. apply get_ok in Hlc. destruct Hlc as (dd & -> & ->).
      cbn [Spec.field].
      destruct (lookup "longestChain" dd) as [chain|];
        [|cbn in H; now injection H as <-].
      destruct (truthy chain) eqn:Tc; [|now injection H as <-].
      bind_inv H as len Hlen. apply get_ok in Hlen.
      destruct Hlen as (cd & -> & ->).
      bind_inv H as dur Hdur. cbn [get] in Hdur. injection Hdur as <-.
      bind_inv H as ms Hms. injection H as <-.
      exists ms. cbn [Spec.field Spec.or_default]. split.
      * rewrite <- Hms. now destruct (lookup "duration" cd).
      * now destruct (lookup "length" cd).
    + injection H as <-.
      destruct det as [| | | | | |dd]; try reflexivity.
      destruct dd; [reflexivity | discriminate Tdet].
  - cbn [bind] in H. injection H as <-.
    destruct ca as [| | | | | |cad]; try reflexivity.
    destruct cad; [reflexivity | discriminate Tca].
Qed.

(** X4.  In every digest the Insight Extractor returns, the
    [critical_request_chains] diagnostic is there exactly when the report's
    "critical-request-chains" audit has a non-empty [details.longestChain];
    it then reads "Longest chain: {length} requests, taking {duration}ms.",
    with the duration printed without decimals and a missing length
    printed as [None]. *)
Theorem critical_request_chains_diagnostic
        (data : list (string * pyval)) (digest : pyval) :
  extract_info_for_llm (PDict data) = Ok digest ->
  match longest_chain (PDict data) with
  | Some chain =>
      if truthy chain then
        exists ms,
          format_0f (Spec.or_default (Spec.field chain "duration") PNone) = Ok ms /\
          chain_text digest
          = Some (PStr ("Longest chain: " ++
                        str (Spec.or_default (Spec.field chain "length") PNone) ++
                        " requests, taking " ++ ms ++ "ms."))
      else chain_text digest = None
  | None => chain_text digest = None
  end.
Proof.
  intros H. apply extract_info_for_llm_ok in H.
  destruct H as [(Ht & ->) | (Ht & l & ai & sm & ms & opps & crc & rs &
                              Hl & Ha & _ & _ & _ & Hc & Hr & ->)].
  - assert (E : longest_chain (PDict data) = None).
    { unfold longest_chain. cbn [Spec.path Spec.field].
      unfold Spec.lighthouse_of, Spec.or_default in Ht.
      destruct (lookup "lighthouseResult" data) as [lr|]; [|reflexivity].
      destruct lr as [| | | | | |d]; try reflexivity.
      destruct d; [reflexivity | discriminate Ht]. }
    rewrite E. reflexivity.
  - assert (E : longest_chain (PDict data)
                = Spec.path (PDict ai)
                    ["critical-request-chains"; "details"; "longestChain"]).
    { unfold longest_chain.
      change (Spec.path (PDict data)
                ("lighthouseResult" :: "audits" ::
                 ["critical-request-chains"; "details"; "longestChain"]))
        with (match lookup "lighthouseResult" data with
              | Some lr =>
                  match Spec.field lr "audits" with
                  | Some au =>
                      Spec.path au ["critical-request-chains"; "details";
                                    "longestChain"]
                  | None => None
                  end
              | None => None
              end).
      unfold Spec.lighthouse_of, Spec.or_default in Hl.
      destruct (lookup "lighthouseResult" data) as [lr|].
      - subst lr. cbn [Spec.field]. unfold Spec.or_default in Ha.
        destruct (lookup "audits" l) as [au|]; [now subst au|].
        injection Ha as <-. reflexivity.
      - injection Hl as <-. cbn [lookup Spec.or_default] in Ha.
        injection Ha as <-. reflexivity. }
    rewrite E. clear E.
    assert (Hrs : lookup "critical_request_chains" rs = None).
    { destruct (resource_summary_shape _ _ Hr) as [-> | (s & ->)]; reflexivity. }
    assert (Htext : chain_text
                      (PDict [("summary", PDict sm); ("metrics", PList ms);
                              ("opportunities", PList opps);
                              ("diagnostics", PDict (crc ++ rs)%list)])
                    = lookup "critical_request_chains" crc).
    { unfold chain_text.
      cbn [Spec.path Spec.field lookup String.eqb Ascii.eqb Bool.eqb].
      rewrite lookup_app, Hrs.
      now destruct (lookup "critical_request_chains" crc). }
    rewrite Htext. clear Htext.
    pose proof (critical_request_chains_path _ _ Hc) as Hp.
    destruct (Spec.path (PDict ai)
                ["critical-request-chains"; "details"; "longestChain"])
      as [chain|]; [|now subst crc].
    destruct (truthy chain); [|now subst crc].
    destruct Hp as (t & Ht' & ->). exists t. split; [exact Ht'|]. reflexivity.
Qed.

Lemma critical_request_chains_diagnostic_witness :
  extract_info_for_llm (PDict data_b) = Ok digest_b /\
  exists ms,
    format_0f (PFloat 1234.56) = Ok ms /\
    chain_text digest_b
    = Some (PStr ("Longest chain: " ++ str (PInt 3) ++
                  " requests, taking " ++ ms ++ "ms.")).
Proof.
  assert (H : extract_info_for_llm (PDict data_b) = Ok digest_b)
    by (vm_compute; reflexivity).
  exact (conj H (critical_request_chains_diagnostic data_b digest_b H)).
Defined.

(* ----------------------------------------------------------------- *)
(** *** The Insight Extractor: the core metrics *)

Lemma core_metric_step (a : list (string * pyval)) (metric_id : string)
      (s s' : list pyval) :
  core_metric (PDict a) metric_id s = Ok s' ->
  (truthy (core_audit a metric_id) = true /\
   exists m, core_entry_of a metric_id m /\ s' = append s m) \/
  (truthy (core_audit a metric_id) = false /\ s' = s).
Proof.
  unfold core_metric. cbn [get bind].
  change (match lookup metric_id a with Some x => x | None => PNone end)
    with (core_audit a metric_id).
  intros H. destruct (truthy (core_audit a metric_id)) eqn:Ht.
  - left. split; [reflexivity|].
    bind_inv H as t Ht'. apply get_ok in Ht'. destruct Ht' as (d & Hd & ->).
    bind_inv H as v Hv. rewrite Hd in Hv. cbn [get] in Hv. injection Hv as <-.
    injection H as <-. eexists. split; [|reflexivity].
    unfold core_entry_of. rewrite Hd. cbn [Spec.field Spec.or_default].
    now destruct (lookup "title" d), (lookup "displayValue" d).
  - right. split; [reflexivity | now injection H].
Qed.

(** X5.  In every digest the Insight Extractor returns, the core metrics
    are, in the order of the extractor's id list (not of the report), the
    [{title, value}] of each id of that list whose audit is there and is
    not empty, a missing [title] or [displayValue] being [None]. *)
Theorem core_metrics_entries (data : list (string * pyval)) (digest : pyval) :
  extract_info_for_llm (PDict data) = Ok digest ->
  Forall2 (core_entry_of (Spec.audits_of (PDict data)))
          (filter (fun metric_id =>
                     truthy (core_audit (Spec.audits_of (PDict data)) metric_id))
                  metric_ids)
          (core_metrics digest).
Proof.
  intros H. apply extract_info_for_llm_ok in H.
  destruct H as [(Ht & ->) | (Ht & l & ai & sm & ms & opps & crc & rs &
                              Hl & Ha & _ & Hms & _ & _ & _ & ->)].
  - rewrite (audits_of_empty _ Ht). constructor.
  - rewrite (audits_of_report _ _ _ Ht Hl Ha).
    change (core_metrics _) with ms.
    destruct (for_each_filter_map _ _ _ (core_metric_step ai) _ _ _ Hms)
      as (ys & -> & Hys).
    exact Hys.
Qed.

Lemma core_metrics_entries_witness :
  extract_info_for_llm (PDict data_b) = Ok digest_b /\
  Forall2 (core_entry_of (Spec.audits_of (PDict data_b)))
          (filter (fun metric_id =>
                     truthy (core_audit (Spec.audits_of (PDict data_b))
                                        metric_id))
                  metric_ids)
          (core_metrics digest_b).
Proof.
  assert (H : extract_info_for_llm (PDict data_b) = Ok digest_b)
    by (vm_compute; reflexivity).
  exact (conj H (core_metrics_entries data_b digest_b H)).
Defined.

(* ----------------------------------------------------------------- *)
(** *** The Digest Formatter *)

Lemma format_for_llm_nonempty (digest : pyval) (url text : string) :
  format_for_llm digest url = Ok text -> text <> "".
Proof.
  intros H. destruct (truthy digest) eqn:Ht.
  - destruct (format_for_llm_header _ _ _ Ht H) as (tail & ->). discriminate.
  - unfold format_for_llm in H. rewrite Ht in H. cbn [negb] in H.
    injection H as <-. discriminate.
Qed.

(** The formatter on a digest of the extractor's shape whose score, when
    there is one, is [score]. *)
Lemma format_for_llm_scored (url : string) (summary : list (string * pyval))
      (metrics opps : list pyval) (diagnostics : list (string * pyval)) :
  Forall metric_entry metrics ->
  Forall opportunity_entry opps ->
  diagnostic_entries diagnostics ->
  match lookup "performance_score" summary with
  | None | Some PNone =>
      exists text,
        format_for_llm (full_digest summary metrics opps diagnostics) url
        = Ok text
  | Some score =>
      match format_0f score with
      | Ok _ =>
          exists text,
            format_for_llm (full_digest summary metrics opps diagnostics) url
            = Ok text
      | Raise e =>
          format_for_llm (full_digest summary metrics opps diagnostics) url
          = Raise e
      end
  end.
Proof.
  intros Hm Ho Hd.
  assert (P0 : prompt_ok url [PStr (Spec.report_header url)]).
  { split; [constructor; [now eexists | constructor] | apply extends_refl]. }
  assert (Rest : forall l1, prompt_ok url l1 ->
            exists text,
              (metric_list <- iter (PList metrics) ;;
               prompt_lines <- for_each metric_list
                                 (append l1 (PStr (newline ++ "--- Core Metrics ---")))
                                 metric_line ;;
               prompt_lines <-
                 (if negb (truthy (PList opps)) then
                    Ok (append
                          (append prompt_lines
                             (PStr (newline ++
                                    "--- Top Opportunities for Improvement ---")))
                          (PStr "No significant opportunities were identified."))
                  else os <- iter (PList opps) ;;
                       for_each os
                         (append prompt_lines
                            (PStr (newline ++
                                   "--- Top Opportunities for Improvement ---")))
                         opportunity_lines) ;;
               prompt_lines <-
                 (if negb (truthy (PDict diagnostics)) then
                    Ok (append
                          (append prompt_lines
                                  (PStr (newline ++ "--- Key Diagnostics ---")))
                          (PStr "No key diagnostics available."))
                  else diagnostic_lines (PDict diagnostics)
                         (append prompt_lines
                                 (PStr (newline ++ "--- Key Diagnostics ---")))) ;;
               join newline prompt_lines) = Ok text).
  { intros l1 P1. change (iter (PList metrics)) with (Ok metrics). cbn [bind].
    destruct (for_each_total_with _ _ _ (metric_line_total url) metrics
                (append l1 (PStr (newline ++ "--- Core Metrics ---")))
                Hm (prompt_ok_append _ _ _ P1)) as (l2 & -> & P2).
    cbn [bind].
    assert (E3 : exists l3,
               (if negb (truthy (PList opps))
                then Ok (append
                           (append l2
                              (PStr (newline ++
                                     "--- Top Opportunities for Improvement ---")))
                           (PStr "No significant opportunities were identified."))
                else os <- iter (PList opps) ;;
                     for_each os
                       (append l2
                          (PStr (newline ++
                                 "--- Top Opportunities for Improvement ---")))
                       opportunity_lines) = Ok l3 /\ prompt_ok url l3).
    { destruct opps as [|o opps]; cbn [truthy negb iter bind].
      - eexists. split; [reflexivity|]. now repeat apply prompt_ok_append.
      - apply (for_each_total_with _ _ _ (opportunity_lines_total url));
          [exact Ho | now apply prompt_ok_append]. }
    destruct E3 as (l3 & -> & P3). cbn [bind].
    assert (E4 : exists l4,
               (if negb (truthy (PDict diagnostics))
                then Ok (append
                           (append l3 (PStr (newline ++ "--- Key Diagnostics ---")))
                           (PStr "No key diagnostics available."))
                else diagnostic_lines (PDict diagnostics)
                       (append l3 (PStr (newline ++ "--- Key Diagnostics ---"))))
               = Ok l4 /\ prompt_ok url l4).
    { destruct diagnostics as [|kv rest]; cbn [truthy negb].
      - eexists. split; [reflexivity|]. now repeat apply prompt_ok_append.
      - apply diagnostic_lines_total; [exact Hd | now apply prompt_ok_append]. }
    destruct E4 as (l4 & -> & P4). cbn [bind].
    apply join_strs. exact (proj1 P4). }
  unfold format_for_llm.
  replace (negb (truthy (full_digest summary metrics opps diagnostics)))
    with false by reflexivity.
  unfold full_digest.
  cbn [getitem get lookup String.eqb Ascii.eqb Bool.eqb bind].
  fold (Spec.report_header url).
  destruct (lookup "performance_score" summary) as [score|];
    [|cbn [is_none bind]; now apply Rest].
  destruct score; cbn [is_none bind]; try (now apply Rest);
    match goal with
    | |- context [format_0f ?x] => destruct (format_0f x) as [s0|e]
    end; cbn [bind]; try reflexivity; apply Rest; now apply prompt_ok_append.
Qed.

(** X6.  The Digest Formatter returns a text for every digest the Insight
    Extractor returns, with one exception: when the digest has a score that
    [.0f] cannot print (the report's score was not a number, or an integer
    beyond the floats), the formatter raises what printing the score
    raises. *)
Theorem format_for_llm_on_digest (data digest : pyval) (url : string) :
  extract_info_for_llm data = Ok digest ->
  match Spec.overall_score digest with
  | None => exists text, format_for_llm digest url = Ok text
  | Some score =>
      match format_0f score with
      | Ok _ => exists text, format_for_llm digest url = Ok text
      | Raise e => format_for_llm digest url = Raise e
      end
  end.
Proof.
  intros H. destruct data as [| | | | | |data]; try discriminate H.
  apply extract_info_for_llm_ok in H.
  destruct H as [(Ht & ->) | (Ht & l & ai & sm & ms & opps & crc & rs &
                              Hl & Ha & Hs & Hms & Hopps & Hcrc & Hrs & ->)].
  - cbn. now eexists.
  - assert (Hd : diagnostic_entries (crc ++ rs)).
    { apply Forall_app. split.
      - exact (critical_request_chains_entries _ _ Hcrc).
      - exact (resource_summary_entries _ _ Hrs). }
    pose proof (format_for_llm_scored url sm ms opps (crc ++ rs)
                  (core_metric_entries _ _ _ Hms)
                  (opportunities_entries _ _ Hopps) Hd) as Hf.
    unfold full_digest in Hf. unfold Spec.overall_score.
    destruct (performance_summary_shape _ _ Hs)
      as [-> | (sc & v & _ & Hv & ->)]; [exact Hf|].
    cbn [lookup String.eqb Ascii.eqb Bool.eqb] in Hf.
    cbn [Spec.path Spec.field lookup String.eqb Ascii.eqb Bool.eqb].
    destruct v; try exact Hf. now apply mul100_not_none in Hv.
Qed.


Lemma format_for_llm_on_digest_witness :
  extract_info_for_llm report_a = Ok digest_a /\
  exists text, format_for_llm digest_a "https://a.example" = Ok text.
Proof.
  assert (H : extract_info_for_llm report_a = Ok digest_a)
    by (vm_compute; reflexivity).
  exact (conj H (format_for_llm_on_digest report_a digest_a
                   "https://a.example" H)).
Defined.

(** The digest of scenario A, formatted. *)
Example format_digest_a :
  format_for_llm digest_a "https://a.example"
  = Ok ("--- Performance Summary Report for URL: https://a.example ---" ++
        newline ++ "Overall Score: 87/100" ++ newline ++
        newline ++ "--- Core Metrics ---" ++ newline ++
        "- First Contentful Paint: 1.2 s" ++ newline ++
        newline ++ "--- Top Opportunities for Improvement ---" ++ newline ++
        "No significant opportunities were identified." ++ newline ++
        newline ++ "--- Key Diagnostics ---" ++ newline ++
        "No key diagnostics available.").
Proof. vm_compute. reflexivity. Qed.

(** A score that is a string is repeated by the extractor and stops the
    formatter. *)
Example format_string_score :
  (digest <- extract_info_for_llm
               (PDict [("lighthouseResult",
                        PDict [("categories",
                                PDict [("performance",
                                        PDict [("score", PStr "0.9")])])])]) ;;
   format_for_llm digest "https://a.example")
  = Raise ValueError.
Proof. vm_compute. reflexivity. Qed.

(** X7.  What the Digest Formatter returns is never empty; it is the fixed
    text "No performance data could be extracted." exactly when the digest
    is empty (or any other false value), and starts with the header line of
    the url otherwise.  Of a non-empty digest the formatter needs the
    [summary]: a dictionary without it raises [KeyError], and a non-empty
    value that is not a dictionary raises [TypeError]. *)
Theorem format_for_llm_text (digest : pyval) (url : string) :
  (forall text,
     format_for_llm digest url = Ok text ->
     text <> "" /\
     (text = no_data_text <-> truthy digest = false) /\
     (truthy digest = true ->
      exists tail, text = Spec.report_header url ++ tail)) /\
  (truthy digest = false -> format_for_llm digest url = Ok no_data_text) /\
  (truthy digest = true -> (forall d, digest <> PDict d) ->
   format_for_llm digest url = Raise TypeError) /\
  (forall d, digest = PDict d -> d <> [] -> lookup "summary" d = None ->
             format_for_llm digest url = Raise KeyError).
Proof.
  split; [|split; [|split]].
  - intros text H. split; [now apply format_for_llm_nonempty in H|].
    destruct (truthy digest) eqn:Ht.
    + destruct (format_for_llm_header _ _ _ Ht H) as (tail & ->).
      split; [|intros _; now exists tail].
      split; intros E; discriminate E.
    + unfold format_for_llm in H. rewrite Ht in H. cbn [negb] in H.
      injection H as <-. split; [|intros E; discriminate E].
      split; reflexivity.
  - intros Ht. unfold format_for_llm. now rewrite Ht.
  - intros Ht Hd. unfold format_for_llm. rewrite Ht. cbn [negb].
    destruct digest; try reflexivity. now destruct (Hd d).
  - intros d -> Hne Hs. unfold format_for_llm.
    destruct d; [now destruct Hne|]. cbn [truthy negb getitem].
    now rewrite Hs.
Qed.

(* ----------------------------------------------------------------- *)
(** *** The report provider call *)

Section Provider.

Variable http_get : string -> Strategy -> HttpOutcome.

Lemma get_pagespeed_insights_ok (url : string) (strategy : Strategy)
      (data : pyval) :
  get_pagespeed_insights http_get url strategy = Ok data ->
  http_get url strategy = Body (Some data) /\
  contains data "error" = Ok false /\
  contains data "lighthouseResult" = Ok true.
Proof.
  unfold get_pagespeed_insights.
  destruct (http_get url strategy) as [m|c t|[d|]]; try discriminate.
  intros H. bind_inv H as he Hhe. destruct he.
  - bind_inv H as er Her. bind_inv H as em Hem. discriminate H.
  - bind_inv H as hr Hhr. destruct hr; cbn [negb] in H; [|discriminate H].
    injection H as <-. auto.
Qed.

Lemma get_pagespeed_insights_truthy (url : string) (strategy : Strategy)
      (data : pyval) :
  get_pagespeed_insights http_get url strategy = Ok data -> truthy data = true.
Proof.
  intros H. apply get_pagespeed_insights_ok in H. destruct H as (_ & _ & H).
  apply contains_truthy with "lighthouseResult"; [discriminate | exact H].
Qed.

End Provider.

(** X8.  Whatever the report provider call returns is the body of the
    response, holds "lighthouseResult" and holds no "error"; it is
    therefore never an empty value.  For a body that is an object: there is
    a [lighthouseResult] field and no [error] field. *)
Theorem pagespeed_report_has_result
        (http_get : string -> Strategy -> HttpOutcome)
        (url : string) (strategy : Strategy) (data : pyval) :
  get_pagespeed_insights http_get url strategy = Ok data ->
  http_get url strategy = Body (Some data) /\
  contains data "error" = Ok false /\
  contains data "lighthouseResult" = Ok true /\
  truthy data = true /\
  (forall d, data = PDict d ->
     lookup "error" d = None /\ lookup "lighthouseResult" d <> None).
Proof.
  intros H. pose proof (get_pagespeed_insights_truthy _ _ _ _ H) as Ht.
  apply get_pagespeed_insights_ok in H. destruct H as (Hb & He & Hl).
  repeat split; try assumption.
  - subst data. cbn [contains] in He.
    destruct (lookup "error" d); [discriminate He | reflexivity].
  - subst data. cbn [contains] in Hl.
    destruct (lookup "lighthouseResult" d); [discriminate | discriminate Hl].
Qed.

Lemma pagespeed_report_has_result_witness :
  get_pagespeed_insights (http_returns report_a) "https://a.example" desktop
  = Ok report_a /\
  contains report_a "lighthouseResult" = Ok true /\
  truthy report_a = true.
Proof.
  assert (H : get_pagespeed_insights (http_returns report_a)
                "https://a.example" desktop = Ok report_a) by reflexivity.
  split; [exact H|].
  destruct (pagespeed_report_has_result _ _ _ _ H) as (_ & _ & Hl & Ht & _).
  split; [exact Hl | exact Ht].
Defined.

(** A body that is a list holding the two words is taken for a report. *)
Example pagespeed_list_body :
  get_pagespeed_insights (http_returns (PList [PStr "lighthouseResult"]))
    "https://a.example" desktop
  = Ok (PList [PStr "lighthouseResult"]).
Proof. reflexivity. Qed.



(** An error in the body wins over a report in it. *)
Example pagespeed_error_and_result :
  get_pagespeed_insights
    (http_returns (PDict [("lighthouseResult", PDict []);
                          ("error", PDict [("code", PInt 429)])]))
    "https://a.example" desktop
  = Raise (HTTPException 400 "PageSpeed API Error: Unknown API error").
Proof. reflexivity. Qed.

(* ----------------------------------------------------------------- *)
(** *** The analyze operation, stage by stage *)

Lemma analysis_response_suggestion (report : pyval) (suggestion : string)
      (response : AnalysisResponse) :
  analysis_response report suggestion = Ok response ->
  initial_suggestion response = suggestion.
Proof.
  unfold analysis_response. intros H.
  bind_inv H as lr Hlr. bind_inv H as cats Hc. bind_inv H as perf Hperf.
  bind_inv H as score Hs. bind_inv H as ps Hps. bind_inv H as ms Hms.
  bind_inv H as n Hn. now injection H as <-.
Qed.

Section AnalyzeCases.

Variable http_get : string -> Strategy -> HttpOutcome.
Variable chain_ainvoke : ChainInput -> result string.

(** [analyze_website], stage by stage. *)
Lemma analyze_website_cases (request : AnalysisRequest) (w : World) :
  analyze_website http_get chain_ainvoke request w
  = match get_pagespeed_insights http_get (url request) (strategy request) with
    | Raise e => (Raise e, w)
    | Ok report =>
        match digest_text report (url request) with
        | Raise e =>
            (Raise e,
             {| app_state := {| full_report := Some report;
                                llm_summary := llm_summary (app_state w) |};
                llm_calls := llm_calls w |})
        | Ok text =>
            (suggestion <- chain_ainvoke (suggestion_input text) ;;
             analysis_response report suggestion,
             {| app_state := {| full_report := Some report;
                                llm_summary := Some text |};
                llm_calls := append (llm_calls w)
                                    (Ainvoke (suggestion_input text)) |})
        end
    end.
Proof.
  unfold digest_text.
  cbv beta iota zeta delta
      [analyze_website bindA lift set_full_report set_llm_summary
       get_initial_suggestion issue app_state llm_calls full_report llm_summary].
  destruct (get_pagespeed_insights http_get (url request) (strategy request))
    as [report|e]; [|reflexivity].
  destruct (extract_info_for_llm report) as [digest|e]; [|reflexivity].
  cbn [bind].
  destruct (format_for_llm digest (url request)) as [text|e]; [|reflexivity].
  fold (suggestion_input text).
  destruct (chain_ainvoke (suggestion_input text)) as [s|e]; reflexivity.
Qed.

End AnalyzeCases.

(** X10.  The analyze operation issues at most one call to the language
    model.  It issues none, and raises what the failing stage raised, when
    the report provider, the extractor or the formatter fails.  Otherwise
    it issues exactly one, a one-shot completion with an empty history, the
    fixed initial prompt as query and, as report summary, the digest text
    of the report, which it has just stored; what the operation then
    returns is the response built from the model's answer, whose
    [initial_suggestion] is that answer. *)
Theorem analyze_website_llm_calls
        (http_get : string -> Strategy -> HttpOutcome)
        (chain_ainvoke : ChainInput -> result string)
        (request : AnalysisRequest) (w : World) :
  let out := analyze_website http_get chain_ainvoke request w in
  match get_pagespeed_insights http_get (url request) (strategy request) with
  | Raise e => fst out = Raise e /\ llm_calls (snd out) = llm_calls w
  | Ok report =>
      match extract_info_for_llm report with
      | Raise e => fst out = Raise e /\ llm_calls (snd out) = llm_calls w
      | Ok digest =>
          match format_for_llm digest (url request) with
          | Raise e => fst out = Raise e /\ llm_calls (snd out) = llm_calls w
          | Ok text =>
              let input := {| input_history := [];
                              input_query := initial_prompt;
                              input_report_summary := text |} in
              llm_summary (app_state (snd out)) = Some text /\
              llm_calls (snd out) = (llm_calls w ++ [Ainvoke input])%list /\
              fst out = (suggestion <- chain_ainvoke input ;;
                         analysis_response report suggestion) /\
              (forall response,
                 fst out = Ok response ->
                 chain_ainvoke input = Ok (initial_suggestion response))
          end
      end
  end.
Proof.
  cbv zeta. rewrite analyze_website_cases. unfold digest_text.
  destruct (get_pagespeed_insights http_get (url request) (strategy request))
    as [report|e]; [|split; reflexivity].
  destruct (extract_info_for_llm report) as [digest|e]; cbn [bind];
    [|split; reflexivity].
  destruct (format_for_llm digest (url request)) as [text|e];
    [|split; reflexivity].
  cbn [fst snd app_state llm_calls llm_summary].
  fold (suggestion_input text).
  split; [reflexivity|]. split; [reflexivity|]. split; [reflexivity|].
  intros response H.
  destruct (chain_ainvoke (suggestion_input text)) as [s|e]; [|discriminate H].
  cbn [bind] in H. now rewrite (analysis_response_suggestion _ _ _ H).
Qed.

Lemma analyze_website_llm_calls_witness :
  llm_summary
    (app_state (snd (analyze_website (http_returns report_a) llm_answers
                       request_a fresh)))
  = Some text_a /\
  llm_calls (snd (analyze_website (http_returns report_a) llm_answers
                    request_a fresh))
  = [Ainvoke (suggestion_input text_a)] /\
  fst (analyze_website (http_returns report_a) llm_answers request_a fresh)
  = (suggestion <- llm_answers (suggestion_input text_a) ;;
     analysis_response report_a suggestion) /\
  (forall response,
     fst (analyze_website (http_returns report_a) llm_answers request_a fresh)
     = Ok response ->
     llm_answers (suggestion_input text_a) = Ok (initial_suggestion response)).
Proof.
  exact (analyze_website_llm_calls (http_returns report_a) llm_answers
           request_a fresh).
Defined.

(** With the extractor raising, no call is issued. *)
Example analyze_website_no_call :
  analyze_website (http_returns report_bootup_without_total) llm_answers
    request_a fresh
  = (Raise TypeError,
     {| app_state := {| full_report := Some report_bootup_without_total;
                        llm_summary := None |};
        llm_calls := [] |}).
Proof. vm_compute. reflexivity. Qed.

(** X11.  Once the report provider has answered, the analyze operation
    leaves the new report in [full_report] whatever happens next; it
    leaves the new digest text in [llm_summary] when extraction and
    formatting succeed, and the previous [llm_summary] when one of them
    raises. *)
Theorem analyze_website_state
        (http_get : string -> Strategy -> HttpOutcome)
        (chain_ainvoke : ChainInput -> result string)
        (request : AnalysisRequest) (w : World) (report : pyval) :
  get_pagespeed_insights http_get (url request) (strategy request) = Ok report ->
  app_state (snd (analyze_website http_get chain_ainvoke request w))
  = {| full_report := Some report;
       llm_summary :=
         match (digest <- extract_info_for_llm report ;;
                format_for_llm digest (url request)) with
         | Ok text => Some text
         | Raise _ => llm_summary (app_state w)
         end |}.
Proof.
  intros Hr. rewrite analyze_website_cases, Hr. unfold digest_text.
  destruct (digest <- extract_info_for_llm report ;;
            format_for_llm digest (url request)); reflexivity.
Qed.

Lemma analyze_website_state_witness :
  get_pagespeed_insights (http_returns report_bootup_without_total)
    (url request_a) (strategy request_a) = Ok report_bootup_without_total /\
  app_state (snd (analyze_website (http_returns report_bootup_without_total)
                    llm_answers request_a analysed))
  = {| full_report := Some report_bootup_without_total;
       llm_summary := Some "--- an earlier digest ---" |}.
Proof.
  assert (H : get_pagespeed_insights (http_returns report_bootup_without_total)
                (url request_a) (strategy request_a)
              = Ok report_bootup_without_total) by reflexivity.
  split; [exact H|].
  rewrite (analyze_website_state _ llm_answers request_a analysed _ H).
  vm_compute. reflexivity.
Defined.


(** The score of the response is truncated, the score of the digest text is
    rounded: for a score of 0.29, whose hundredfold is the float just below
    29, they are 28 and 29. *)
Example score_truncated_and_rounded :
  option_map performance_score
    (match analysis_response report_score_29 "Hello!" with
     | Ok response => Some response | Raise _ => None end) = Some 28 /\
  digest_text report_score_29 "https://a.example"
  = Ok ("--- Performance Summary Report for URL: https://a.example ---" ++
        newline ++ "Overall Score: 29/100" ++ newline ++
        newline ++ "--- Core Metrics ---" ++ newline ++
        newline ++ "--- Top Opportunities for Improvement ---" ++ newline ++
        "No significant opportunities were identified." ++ newline ++
        newline ++ "--- Key Diagnostics ---" ++ newline ++
        "No key diagnostics available.").
Proof. split; vm_compute; reflexivity. Qed.

Lemma path_get (v : pyval) (k : string) (ks : list string)
      (default x : pyval) :
  Spec.path v (k :: ks) = Some x ->
  exists y, get v k default = Ok y /\ Spec.path y ks = Some x.
Proof.
  intros H. apply path_cons in H. destruct H as (d & y & -> & Hy & Hp).
  exists y. cbn [get]. now rewrite Hy.
Qed.

Lemma analysis_response_null_score (report : pyval) (suggestion : string) :
  Spec.path report ["lighthouseResult"; "categories"; "performance"; "score"]
  = Some PNone ->
  analysis_response report suggestion = Raise TypeError.
Proof.
  intros Hp. unfold analysis_response.
  destruct (path_get _ _ _ empty_dict _ Hp) as (lr & -> & H1). cbn [bind].
  destruct (path_get _ _ _ empty_dict _ H1) as (c & -> & H2). cbn [bind].
  destruct (path_get _ _ _ empty_dict _ H2) as (p & -> & H3). cbn [bind].
  destruct (path_get _ _ _ (PInt 0) _ H3) as (s & -> & H4). cbn [bind].
  cbn [Spec.path] in H4. injection H4 as ->. reflexivity.
Qed.

Lemma performance_summary_null_score (lr : pyval)
      (summary : list (string * pyval)) :
  Spec.path lr ["categories"; "performance"; "score"] = Some PNone ->
  performance_summary lr = Ok summary -> summary = [].
Proof.
  intros Hp H. destruct (performance_summary_shape _ _ H)
    as [-> | (sc & v & Hsc & Hv & ->)]; [reflexivity|].
  rewrite Hp in Hsc. injection Hsc as <-. discriminate Hv.
Qed.

(** X12.  A report whose performance score is [null]: the Insight Extractor
    treats the score as absent, while the analyze operation multiplies it
    by 100 and raises [TypeError]; no analysis of such a report
    completes. *)
Theorem null_score (report : pyval) :
  Spec.path report ["lighthouseResult"; "categories"; "performance"; "score"]
  = Some PNone ->
  (forall digest, extract_info_for_llm report = Ok digest ->
                  Spec.overall_score digest = None) /\
  (forall suggestion, analysis_response report suggestion = Raise TypeError) /\
  (forall http_get chain_ainvoke request w,
     get_pagespeed_insights http_get (url request) (strategy request)
     = Ok report ->
     is_ok (fst (analyze_website http_get chain_ainvoke request w)) = false).
Proof.
  intros Hp. split; [|split].
  - intros digest H.
    apply path_cons in Hp. destruct Hp as (data & lr & -> & Hlr & Hp).
    apply extract_info_for_llm_ok in H.
    destruct H as [(Ht & ->) | (Ht & l & ai & sm & ms & opps & crc & rs &
                                Hl & _ & Hs & _ & _ & _ & _ & ->)];
      [reflexivity|].
    unfold Spec.lighthouse_of in Hl. rewrite Hlr in Hl.
    cbn [Spec.or_default] in Hl. subst lr.
    now rewrite (performance_summary_null_score _ _ Hp Hs).
  - intros suggestion. now apply analysis_response_null_score.
  - intros http_get chain_ainvoke request w Hr.
    rewrite analyze_website_cases, Hr.
    destruct (digest_text report (url request)) as [text|e]; [|reflexivity].
    cbn [fst].
    destruct (chain_ainvoke (suggestion_input text)) as [s|e]; [|reflexivity].
    cbn [bind]. now rewrite analysis_response_null_score.
Qed.

Lemma null_score_witness :
  Spec.path report_null_score
    ["lighthouseResult"; "categories"; "performance"; "score"] = Some PNone /\
  (exists digest,
     extract_info_for_llm report_null_score = Ok digest /\
     Spec.overall_score digest = None) /\
  analysis_response report_null_score "Hello!" = Raise TypeError /\
  is_ok (fst (analyze_website (http_returns report_null_score) llm_answers
                request_a fresh)) = false.
Proof.
  assert (H : Spec.path report_null_score
                ["lighthouseResult"; "categories"; "performance"; "score"]
              = Some PNone) by reflexivity.
  destruct (null_score report_null_score H) as (A & B & C).
  split; [exact H|]. split; [|split].
  - exists digest_no_category. split; [vm_compute; reflexivity|].
    apply A. vm_compute. reflexivity.
  - apply B.
  - apply C. reflexivity.
Defined.

(* ----------------------------------------------------------------- *)
(** *** The chat and download operations *)

Section Chat.

Variable chain_astream : ChainInput -> list string.

Lemma chat_with_llm_cases (request : ChatRequest) (w : World) :
  chat_with_llm chain_astream request w
  = match llm_summary (app_state w) with
    | None => (Raise no_analysis_yet, w)
    | Some summary =>
        if String.eqb summary "" then (Raise no_analysis_yet, w)
        else
          (Ok {| body := chain_astream (chat_input request summary);
                 media_type := "text/event-stream" |},
           {| app_state := app_state w;
              llm_calls := (llm_calls w
                            ++ [Astream (chat_input request summary)])%list |})
    end.
Proof.
  cbv beta iota zeta delta
      [chat_with_llm bindA get_state get_llm_stream issue ret raise no_summary].
  destruct (llm_summary (app_state w)) as [summary|]; [|reflexivity].
  destruct (String.eqb summary ""); [reflexivity|].
  rewrite to_langchain_map. reflexivity.
Qed.

End Chat.

(** X13.  The chat operation never changes the session state.  Either it
    raises the "analyze a website first" error and issues no call, or it
    returns the stream of one streaming call whose report summary is the
    stored digest text and whose history has one message less than the
    request has turns. *)
Theorem chat_with_llm_read_only
        (chain_astream : ChainInput -> list string)
        (request : ChatRequest) (w : World) :
  let out := chat_with_llm chain_astream request w in
  app_state (snd out) = app_state w /\
  ((fst out = Raise no_analysis_yet /\ llm_calls (snd out) = llm_calls w) \/
   (exists input,
      fst out = Ok {| body := chain_astream input;
                      media_type := "text/event-stream" |} /\
      llm_calls (snd out) = (llm_calls w ++ [Astream input])%list /\
      llm_summary (app_state w) = Some (input_report_summary input) /\
      List.length (input_history input)
      = Nat.pred (List.length (history request)))).
Proof.
  cbv zeta. rewrite chat_with_llm_cases.
  destruct (llm_summary (app_state w)) as [summary|];
    [|split; [reflexivity | left; split; reflexivity]].
  destruct (String.eqb summary "");
    [split; [reflexivity | left; split; reflexivity]|].
  split; [reflexivity|]. right. exists (chat_input request summary).
  cbn [fst snd llm_calls chat_input input_report_summary input_history].
  repeat split. rewrite length_map.
  destruct (history request) as [|m h] using rev_ind; [reflexivity|].
  rewrite removelast_last, length_app. cbn [List.length]. lia.
Qed.

(** X14.  A chat request with an empty history is served, once a digest
    text is stored: the model is called with an empty query and an empty
    history. *)
Theorem chat_with_llm_empty_history
        (chain_astream : ChainInput -> list string)
        (request : ChatRequest) (w : World) (summary : string) :
  history request = [] ->
  llm_summary (app_state w) = Some summary ->
  summary <> "" ->
  chat_with_llm chain_astream request w
  = (Ok {| body := chain_astream {| input_history := [];
                                    input_query := "";
                                    input_report_summary := summary |};
           media_type := "text/event-stream" |},
     {| app_state := app_state w;
        llm_calls := (llm_calls w
                      ++ [Astream {| input_history := [];
                                     input_query := "";
                                     input_report_summary := summary |}])%list |}).
Proof.
  intros Hh Hs Hne. rewrite chat_with_llm_cases, Hs.
  apply String.eqb_neq in Hne. rewrite Hne.
  unfold chat_input. rewrite Hh. reflexivity.
Qed.

Lemma chat_with_llm_empty_history_witness :
  history chat_empty = [] /\
  chat_with_llm llm_streams chat_empty analysed
  = (Ok {| body := llm_streams
                     {| input_history := [];
                        input_query := "";
                        input_report_summary := "--- an earlier digest ---" |};
           media_type := "text/event-stream" |},
     {| app_state := app_state analysed;
        llm_calls :=
          (llm_calls analysed
           ++ [Astream {| input_history := [];
                          input_query := "";
                          input_report_summary :=
                            "--- an earlier digest ---" |}])%list |}).
Proof.
  split; [reflexivity|].
  apply (chat_with_llm_empty_history llm_streams chat_empty analysed
           "--- an earlier digest ---");
    [reflexivity | reflexivity | discriminate].
Defined.

Section DownloadLemmas.

Variable json_dumps : pyval -> string.

Lemma download_full_report_cases (w : World) :
  download_full_report json_dumps w
  = match full_report (app_state w) with
    | None => (Raise no_report_yet, w)
    | Some report =>
        if truthy report then (Ok (report_attachment json_dumps report), w)
        else (Raise no_report_yet, w)
    end.
Proof.
  cbv beta iota zeta delta [download_full_report bindA get_state raise ret no_report].
  destruct (full_report (app_state w)) as [report|]; [|reflexivity].
  destruct (truthy report); reflexivity.
Qed.

End DownloadLemmas.

(** X15.  After an analyze operation that completed, every chat request is
    served, and the report summary handed to the model is the digest text
    of the report just analysed. *)
Theorem chat_after_analyze
        (http_get : string -> Strategy -> HttpOutcome)
        (chain_ainvoke : ChainInput -> result string)
        (chain_astream : ChainInput -> list string)
        (request : AnalysisRequest) (w w' : World)
        (response : AnalysisResponse) (chat : ChatRequest) :
  analyze_website http_get chain_ainvoke request w = (Ok response, w') ->
  exists report digest text input,
    get_pagespeed_insights http_get (url request) (strategy request) = Ok report /\
    extract_info_for_llm report = Ok digest /\
    format_for_llm digest (url request) = Ok text /\
    input_report_summary input = text /\
    chat_with_llm chain_astream chat w'
    = (Ok {| body := chain_astream input; media_type := "text/event-stream" |},
       {| app_state := app_state w';
          llm_calls := (llm_calls w' ++ [Astream input])%list |}).
Proof.
  intros H. apply analyze_website_ok in H.
  destruct H as (report & digest & text & suggestion &
                 Hr & Hd & Ht & _ & _ & ->).
  exists report, digest, text, (chat_input chat text).
  repeat split; try assumption.
  rewrite chat_with_llm_cases. cbn [app_state llm_summary llm_calls].
  pose proof (format_for_llm_nonempty _ _ _ Ht) as Hne.
  apply String.eqb_neq in Hne. now rewrite Hne.
Qed.

Lemma chat_after_analyze_witness :
  exists report digest text input,
    get_pagespeed_insights (http_returns report_a) (url request_a)
      (strategy request_a) = Ok report /\
    extract_info_for_llm report = Ok digest /\
    format_for_llm digest (url request_a) = Ok text /\
    input_report_summary input = text /\
    chat_with_llm llm_streams chat_hi
      (snd (analyze_website (http_returns report_a) llm_answers request_a fresh))
    = (Ok {| body := llm_streams input; media_type := "text/event-stream" |},
       {| app_state :=
            app_state (snd (analyze_website (http_returns report_a) llm_answers
                              request_a fresh));
          llm_calls :=
            (llm_calls (snd (analyze_website (http_returns report_a) llm_answers
                               request_a fresh))
             ++ [Astream input])%list |}).
Proof.
  eapply (chat_after_analyze (http_returns report_a) llm_answers llm_streams
            request_a fresh).
  vm_compute. reflexivity.
Defined.

(** X16.  Once the report provider has answered an analyze operation, the
    download operation returns the serialisation of that report as a JSON
    attachment named lighthouse_report.json and changes nothing, whether
    the analysis then completed or failed in a later stage. *)
Theorem download_after_analyze
        (http_get : string -> Strategy -> HttpOutcome)
        (chain_ainvoke : ChainInput -> result string)
        (json_dumps : pyval -> string)
        (request : AnalysisRequest) (w : World) (report : pyval) :
  get_pagespeed_insights http_get (url request) (strategy request) = Ok report ->
  let w' := snd (analyze_website http_get chain_ainvoke request w) in
  download_full_report json_dumps w'
  = (Ok {| response_content := json_dumps report;
           response_media_type := "application/json";
           response_headers :=
             [("Content-Disposition",
               "attachment; filename=lighthouse_report.json")] |}, w').
Proof.
  intros Hr. cbv zeta. rewrite download_full_report_cases.
  rewrite analyze_website_cases, Hr.
  pose proof (get_pagespeed_insights_truthy _ _ _ _ Hr) as Ht.
  destruct (digest_text report (url request));
    cbn [snd app_state full_report]; rewrite Ht; reflexivity.
Qed.

Lemma download_after_analyze_witness :
  get_pagespeed_insights (http_returns report_a) (url request_a)
    (strategy request_a) = Ok report_a /\
  download_full_report str
    (snd (analyze_website (http_returns report_a) llm_unavailable
            request_a fresh))
  = (Ok {| response_content := str report_a;
           response_media_type := "application/json";
           response_headers :=
             [("Content-Disposition",
               "attachment; filename=lighthouse_report.json")] |},
     snd (analyze_website (http_returns report_a) llm_unavailable
            request_a fresh)).
Proof.
  assert (H : get_pagespeed_insights (http_returns report_a) (url request_a)
                (strategy request_a) = Ok report_a) by reflexivity.
  exact (conj H (download_after_analyze (http_returns report_a) llm_unavailable
                   str request_a fresh report_a H)).
Defined.

(* ----------------------------------------------------------------- *)
(** *** The session over a sequence of requests *)

Lemma serve_consistent (w : World) (op : Operation) :
  consistent (app_state w) -> consistent (app_state (serve w op)).
Proof.
  intros H0. pose proof H0 as (Hr & Hs).
  destruct op as [h c request|s request|j]; cbn [serve].
  - rewrite analyze_website_cases.
    destruct (get_pagespeed_insights h (url request) (strategy request))
      as [report|e] eqn:Er; [|exact H0].
    pose proof (get_pagespeed_insights_truthy _ _ _ _ Er) as Ht.
    unfold digest_text.
    destruct (extract_info_for_llm report) as [digest|e]; cbn [bind].
    + destruct (format_for_llm digest (url request)) as [text|e] eqn:Ef;
        cbn [snd app_state]; split; cbn [full_report llm_summary].
      * intros r E. now injection E as <-.
      * intros t E. injection E as <-. split; [|discriminate].
        now apply format_for_llm_nonempty in Ef.
      * intros r E. now injection E as <-.
      * intros t E. split; [now apply Hs | discriminate].
    + cbn [snd app_state]; split; cbn [full_report llm_summary].
      * intros r E. now injection E as <-.
      * intros t E. split; [now apply Hs | discriminate].
  - rewrite chat_with_llm_cases.
    destruct (llm_summary (app_state w)) as [text|]; [|exact H0].
    destruct (String.eqb text ""); exact H0.
  - rewrite download_full_report_cases.
    destruct (full_report (app_state w)) as [r|]; [|exact H0].
    destruct (truthy r); exact H0.
Qed.

Lemma fold_serve_consistent (ops : list Operation) (w : World) :
  consistent (app_state w) -> consistent (app_state (fold_left serve ops w)).
Proof.
  revert w. induction ops as [|op ops IH]; cbn [fold_left]; intros w H;
    [exact H|].
  apply IH. now apply serve_consistent.
Qed.

Lemma served_consistent (ops : list Operation) :
  consistent (app_state (served ops)).
Proof.
  apply fold_serve_consistent. split; intros x E; discriminate E.
Qed.

(** X17.  Whatever requests the process has served, one after the other,
    since start-up, and whatever the providers answered: a stored report is never an empty
    value, a stored digest text is never the empty string, and a digest
    text is stored only when a report is. *)
Theorem session_state_invariant (ops : list Operation) :
  let s := app_state (served ops) in
  (forall report, full_report s = Some report -> truthy report = true) /\
  (forall text, llm_summary s = Some text ->
                text <> "" /\ exists report, full_report s = Some report).
Proof.
  cbv zeta. destruct (served_consistent ops) as (Hr & Hs).
  split; [exact Hr|]. intros text E. destruct (Hs text E) as (Hne & Hf).
  split; [exact Hne|].
  destruct (full_report (app_state (served ops))) as [r|]; [now exists r|].
  now destruct Hf.
Qed.

(** X18.  In every state the process reaches, the chat operation raises
    its "analyze a website first" error exactly when no digest text is
    stored, the download operation raises its "no report" error exactly
    when no report is stored, and the download operation succeeds whenever
    the chat operation does. *)
Theorem download_whenever_chat (ops : list Operation)
        (chain_astream : ChainInput -> list string) (chat : ChatRequest)
        (json_dumps : pyval -> string) :
  let w := served ops in
  (fst (chat_with_llm chain_astream chat w) = Raise no_analysis_yet <->
   llm_summary (app_state w) = None) /\
  (fst (download_full_report json_dumps w) = Raise no_report_yet <->
   full_report (app_state w) = None) /\
  (is_ok (fst (chat_with_llm chain_astream chat w)) = true ->
   is_ok (fst (download_full_report json_dumps w)) = true).
Proof.
  cbv zeta. destruct (served_consistent ops) as (Hr & Hs).
  rewrite chat_with_llm_cases, download_full_report_cases.
  destruct (llm_summary (app_state (served ops))) as [text|] eqn:Et.
  - destruct (Hs text eq_refl) as (Hne & Hf).
    apply String.eqb_neq in Hne. rewrite Hne.
    destruct (full_report (app_state (served ops))) as [r|]; [|now destruct Hf].
    rewrite (Hr r eq_refl). cbn [fst is_ok].
    repeat split; intros H; try discriminate H; reflexivity.
  - cbn [fst is_ok]. split; [split; reflexivity|].
    split; [|intros H; discriminate H].
    destruct (full_report (app_state (served ops))) as [r|]; [|split; reflexivity].
    rewrite (Hr r eq_refl). cbn [fst]. split; intros H; discriminate H.
Qed.




(** The session of [session_a]: two calls for six requests, and the digest
    text of scenario A in the last of them. *)
Example session_a_served :
  full_report (app_state (served session_a)) = Some report_a /\
  map call_input (llm_calls (served session_a))
  = [ suggestion_input
        (match digest_text report_a (url request_a) with
         | Ok text => text | Raise _ => "" end);
      chat_input chat_three
        (match digest_text report_a (url request_a) with
         | Ok text => text | Raise _ => "" end) ].
Proof. split; vm_compute; reflexivity. Qed.
